(** * UniversalAIChat: the conversational routing engine

    A shallow embedding of the routing logic of the application:
    - the keyword classifiers of [useAdvancedIntentClassification]
      ([classifyIntent], [classifySupportTicket]);
    - the context switch analysis of [useContextSwitching]
      ([analyzeContextSwitch], [analyzeCurrentContextEffectiveness]);
    - the multi-agent conversation state machine, both the edge function
      ([startMultiAgentConversation], [continueConversation],
      [endConversation]) and the client hook [useMultiAgentChat];
    - the feedback loop of [useSelfImprovingAgents].

    Supabase is modelled as an explicit [Store] value that every operation
    takes and returns; a query that the source awaits is a pure function of
    the store.  JavaScript numbers that carry scores and confidences are
    binary64 floats, turn counters and clocks are integers. *)

From Stdlib Require Import ZArith NArith List String Ascii Bool Lia Floats.
From Stdlib Require Import DecimalString.
From stdpp Require Import base option list gmap strings.
Import ListNotations.

Set Warnings "-inexact-float".
Local Open Scope Z_scope.

(** ** JavaScript strings *)

Module JS.

(** A JavaScript string is a sequence of UTF-16 code units. *)
Definition jsstring := list N.

Definition bytes_of (s : string) : list N :=
  map N_of_ascii (list_ascii_of_string s).

Definition cont (b : N) : N := N.land b 63.

(** The code units of a string of code point [cp]. *)
Definition units_of_code_point (cp : N) : list N :=
  if (cp <? 65536)%N then [cp]
  else
    let v := (cp - 65536)%N in
    [ (55296 + N.shiftr v 10)%N; (56320 + N.land v 1023)%N ].

(** Source literals are written in UTF-8; [decode] reads the bytes of one
    into code units. *)
Fixpoint decode (bs : list N) : jsstring :=
  match bs with
  | [] => []
  | b :: r =>
    if (b <? 128)%N then b :: decode r
    else
      match r with
      | [] => [b]
      | b2 :: r2 =>
        if (b <? 224)%N then
          (N.shiftl (N.land b 31) 6 + cont b2)%N :: decode r2
        else
          match r2 with
          | [] => [b; b2]
          | b3 :: r3 =>
            if (b <? 240)%N then
              (N.shiftl (N.land b 15) 12 + N.shiftl (cont b2) 6 + cont b3)%N
                :: decode r3
            else
              match r3 with
              | [] => [b; b2; b3]
              | b4 :: r4 =>
                units_of_code_point
                  (N.shiftl (N.land b 7) 18 + N.shiftl (cont b2) 12
                   + N.shiftl (cont b3) 6 + cont b4)%N
                  ++ decode r4
              end
          end
      end
  end.

Definition utf16 (s : string) : jsstring := decode (bytes_of s).

(** [String.prototype.toLowerCase], code unit by code unit.  The mapping
    covers the capitals of Basic Latin, of the Latin-1 supplement and of
    Cyrillic, and the three capitals that leave their block: the dotted
    capital I (to [i] and a combining dot above), the Kelvin sign (to [k])
    and the Angstrom sign (to the Latin-1 letter).  Every other code unit
    is left as it is: the capitals of other scripts, the context rule for
    a final sigma and the capitals outside the basic plane are not
    modelled. *)
Definition lower_unit (c : N) : list N :=
  if ((65 <=? c) && (c <=? 90))%N then [(c + 32)%N]
  else if ((192 <=? c) && (c <=? 222) && negb (c =? 215))%N then [(c + 32)%N]
  else if (c =? 304)%N then [105%N; 775%N]
  else if ((1040 <=? c) && (c <=? 1071))%N then [(c + 32)%N]
  else if ((1024 <=? c) && (c <=? 1039))%N then [(c + 80)%N]
  else if (c =? 8490)%N then [107%N]
  else if (c =? 8491)%N then [229%N]
  else [c].

Definition toLowerCase (s : jsstring) : jsstring := flat_map lower_unit s.

Fixpoint startsWith (s p : jsstring) {struct p} : bool :=
  match p with
  | [] => true
  | c :: p' =>
    match s with
    | [] => false
    | d :: s' => (c =? d)%N && startsWith s' p'
    end
  end.

(** [String.prototype.includes]: [p] occurs in [s] as a substring. *)
Fixpoint includes (s p : jsstring) : bool :=
  startsWith s p ||
  match s with
  | [] => false
  | _ :: s' => includes s' p
  end.

(** [keywords.some(k => text.includes(k))]. *)
Definition someIncluded (text : jsstring) (keywords : list jsstring) : bool :=
  existsb (fun k => includes text k) keywords.

(** A template literal prints an integer in decimal. *)
Definition ofZ (z : Z) : jsstring :=
  bytes_of (NilZero.string_of_int (Z.to_int z)).

(** [a.join(sep)]. *)
Fixpoint join (sep : jsstring) (l : list jsstring) : jsstring :=
  match l with
  | [] => []
  | [x] => x
  | x :: r => x ++ sep ++ join sep r
  end.

(** [a.slice(-n)]: the last [n] elements. *)
Definition lastn {A} (n : nat) (l : list A) : list A :=
  skipn (length l - n)%nat l.

End JS.
Import JS.

(** ** Intent and ticket classification ([useAdvancedIntentClassification]) *)

Inductive Priority := low | medium | high | urgent.

Inductive Intent :=
  | general_intent | urgent_support | technical_support | document_question
  | research_request | feature_request | bug_report.

Definition intent_name (i : Intent) : string :=
  match i with
  | general_intent => "general"
  | urgent_support => "urgent_support"
  | technical_support => "technical_support"
  | document_question => "document_question"
  | research_request => "research_request"
  | feature_request => "feature_request"
  | bug_report => "bug_report"
  end.

Definition priority_name (p : Priority) : string :=
  match p with
  | low => "low" | medium => "medium" | high => "high" | urgent => "urgent"
  end.

(** A row of the [agents] table. *)
Record Agent := mkAgent {
  agent_id : string;
  agent_user_id : string;
  agent_name : jsstring;
  system_prompt : jsstring;
  role : string;
  is_active : bool;
  performance_metrics : jsstring;
  last_updated : option Z;
}.

Record IntentResult := mkIntentResult {
  intent : Intent;
  confidence : float;
  suggestedAgentId : option string;
  reasoning : jsstring;
  priority : Priority;
  requiresEscalation : bool;
  autoResponse : option jsstring;
}.

Inductive Category :=
  | technical | billing | general_category | feature_request_category
  | bug_report_category.

Inductive Complexity := simple | moderate | complex.

Record SupportTicketClassification := mkTicket {
  category : Category;
  ticket_priority : Priority;
  complexity : Complexity;
  estimatedResolutionTime : Z;
  requiresHumanEscalation : bool;
}.

Module Patterns.

Definition urgentPatterns : list jsstring := map utf16
  [ "критическая ошибка"; "сайт не работает"; "система упала"; "critical error";
    "site down"; "system crash"; "urgent"; "срочно"; "emergency" ]%string.

Definition technicalHigh : list jsstring := map utf16
  [ "не работает"; "система упала"; "ошибка 500"; "база данных";
    "not working"; "system down"; "500 error"; "database error" ]%string.

Definition technicalMedium : list jsstring := map utf16
  [ "проблема с загрузкой"; "медленно работает"; "timeout";
    "loading issues"; "slow performance"; "connection timeout" ]%string.

Definition technicalLow : list jsstring := map utf16
  [ "как настроить"; "how to configure"; "вопрос по функции";
    "question about feature"; "help with setup" ]%string.

Definition documentPatterns : list jsstring := map utf16
  [ "документ"; "файл"; "pdf"; "загрузить"; "поиск по документу";
    "document"; "file"; "search"; "upload"; "найти в документе";
    "в документации"; "in documentation" ]%string.

Definition researchPatterns : list jsstring := map utf16
  [ "исследование"; "анализ"; "изучить"; "найти информацию"; "сравнить";
    "research"; "analysis"; "study"; "compare"; "analyze"; "investigate" ]%string.

Definition featurePatterns : list jsstring := map utf16
  [ "добавить функцию"; "новая возможность"; "feature request";
    "add feature"; "enhancement"; "improvement"; "предложение" ]%string.

Definition bugPatterns : list jsstring := map utf16
  [ "баг"; "ошибка в коде"; "неправильно работает"; "bug";
    "code error"; "incorrect behavior"; "broken feature" ]%string.

(** The word lists of [classifySupportTicket]. *)
Definition ticketTechnical : list jsstring := map utf16
  [ "ошибка"; "не работает"; "error"; "broken"; "crash" ]%string.

Definition ticketComplex : list jsstring := map utf16
  [ "база данных"; "database"; "API"; "интеграция"; "integration" ]%string.

Definition ticketModerate : list jsstring := map utf16
  [ "загрузка"; "performance"; "медленно"; "timeout" ]%string.

Definition ticketBug : list jsstring := map utf16
  [ "баг"; "bug"; "неправильно"; "incorrect" ]%string.

Definition ticketFeature : list jsstring := map utf16
  [ "функция"; "feature"; "добавить"; "add"; "enhancement" ]%string.

Definition ticketBilling : list jsstring := map utf16
  [ "оплата"; "billing"; "payment"; "счет"; "subscription" ]%string.

Definition ticketEscalation : list jsstring := map utf16
  [ "critical"; "критический"; "urgent"; "срочно" ]%string.

End Patterns.

Section IntentClassification.

(** [const { getAgentsByRole } = useAgents()]: the member of that name of
    the object that [useAgents] returns, [None] when the object has no such
    member and the name is bound to [undefined]. *)
Variable getAgentsByRole : option (string -> list Agent).

(** [await getAgentsByRole(role)].  Calling [undefined] throws a
    [TypeError]; the [try] of [classifyIntent] has a [finally] and no
    [catch], so the error leaves the function.  [None] stands for that. *)
Definition agentsOfRole (r : string) : option (list Agent) :=
  lookup ← getAgentsByRole; Some (lookup r).

Definition firstAgentId (agents : list Agent) : option string :=
  match agents with
  | [] => None
  | a :: _ => Some (agent_id a)
  end.

Definition reasoningOf (i : Intent) (p : Priority) : jsstring :=
  utf16 "Detected " ++ utf16 (intent_name i) ++ utf16 " intent with "
    ++ utf16 (priority_name p) ++ utf16 " priority based on pattern analysis".

(** [classifyIntent]; [None] when it throws. *)
Definition classifyIntent (message : jsstring) : option IntentResult :=
  let lowerMessage := toLowerCase message in
  if someIncluded lowerMessage Patterns.urgentPatterns then
    supportAgents ← agentsOfRole "support";
    Some (mkIntentResult urgent_support 0.95
            (firstAgentId supportAgents)
            (reasoningOf urgent_support urgent) urgent true
            (Some (utf16 "Обнаружена критическая проблема. Перенаправляю к агенту поддержки с высоким приоритетом.")))
  else if someIncluded lowerMessage
            (Patterns.technicalHigh ++ Patterns.technicalMedium
               ++ Patterns.technicalLow) then
    let '(p, c) :=
      if someIncluded lowerMessage Patterns.technicalHigh then (high, 0.9%float)
      else if someIncluded lowerMessage Patterns.technicalMedium
           then (medium, 0.8%float)
           else (low, 0.7%float) in
    supportAgents ← agentsOfRole "support";
    Some (mkIntentResult technical_support c
            (firstAgentId supportAgents)
            (reasoningOf technical_support p) p false None)
  else if someIncluded lowerMessage Patterns.documentPatterns then
    researchers ← agentsOfRole "researcher";
    Some (mkIntentResult document_question 0.85
            (firstAgentId researchers)
            (reasoningOf document_question low) low false None)
  else if someIncluded lowerMessage Patterns.researchPatterns then
    researchers ← agentsOfRole "researcher";
    Some (mkIntentResult research_request 0.8
            (firstAgentId researchers)
            (reasoningOf research_request medium) medium false None)
  else if someIncluded lowerMessage Patterns.featurePatterns then
    Some (mkIntentResult feature_request 0.75 None
            (reasoningOf feature_request low) low false
            (Some (utf16 "Спасибо за предложение! Ваш запрос на новую функцию передан команде разработки для рассмотрения.")))
  else if someIncluded lowerMessage Patterns.bugPatterns then
    supportAgents ← agentsOfRole "support";
    Some (mkIntentResult bug_report 0.8
            (firstAgentId supportAgents)
            (reasoningOf bug_report medium) medium false
            (Some (utf16 "Обнаружен отчет об ошибке. Собираю дополнительную информацию для диагностики.")))
  else
    Some (mkIntentResult general_intent 0.5 None
            (reasoningOf general_intent medium) medium false None).

End IntentClassification.

(** What [useAgents] hands to the classifier.  Both versions of the hook
    in the repository return an object without a member [getAgentsByRole]:
    one returns [agents], [loading], [error], [createAgent], [updateAgent],
    [deleteAgent], [getAgentById] and [loadAgents], the other [agents],
    [loading], [createAgent], [updateAgent], [sendFeedback], [deleteAgent]
    and [loadAgents]. *)
Module UseAgents.

Definition getAgentsByRole : option (string -> list Agent) := None.

End UseAgents.

(** The first phase of [classifySupportTicket]: category, priority,
    complexity, estimate and escalation flag before the escalation
    criteria are applied. *)
Definition ticketBase (lowerMessage : jsstring) : SupportTicketClassification :=
  if someIncluded lowerMessage Patterns.ticketTechnical then
    if someIncluded lowerMessage Patterns.ticketComplex then
      mkTicket technical high complex 120 true
    else if someIncluded lowerMessage Patterns.ticketModerate then
      mkTicket technical medium moderate 60 false
    else
      mkTicket technical low simple 15 false
  else if someIncluded lowerMessage Patterns.ticketBug then
    mkTicket bug_report_category medium moderate 45 false
  else if someIncluded lowerMessage Patterns.ticketFeature then
    mkTicket feature_request_category low simple 5 false
  else if someIncluded lowerMessage Patterns.ticketBilling then
    mkTicket billing medium simple 20 false
  else
    mkTicket general_category medium moderate 30 false.

Definition isHigh (p : Priority) : bool :=
  match p with high => true | _ => false end.

Definition classifySupportTicket (message : jsstring)
  : SupportTicketClassification :=
  let lowerMessage := toLowerCase message in
  let t := ticketBase lowerMessage in
  if isHigh (ticket_priority t)
     || someIncluded lowerMessage Patterns.ticketEscalation
  then mkTicket (category t) urgent (complexity t)
         (estimatedResolutionTime t) true
  else t.

(** ** Context switching ([useContextSwitching]) *)

Inductive ContextKind := rag | history | agent | general.

Module Keywords.

Definition documentKeywords : list jsstring := map utf16
  [ "в документе"; "по документу"; "документация"; "pdf"; "файл";
    "in document"; "documentation"; "file"; "according to";
    "найти в"; "поиск по"; "что говорится в"; "на основе документа" ]%string.

Definition historyKeywords : list jsstring := map utf16
  [ "раньше говорили"; "ранее обсуждали"; "в прошлой беседе"; "помните";
    "previously discussed"; "earlier conversation"; "we talked about";
    "you mentioned"; "как вы сказали"; "продолжим тему" ]%string.

Definition agentTaskKeywords : list jsstring := map utf16
  [ "специалист по"; "эксперт в"; "кто может помочь с";
    "specialist in"; "expert in"; "who can help with";
    "нужен совет по"; "консультация по" ]%string.

Definition technicalKeywords : list jsstring := map utf16
  [ "код"; "программирование"; "ошибка"; "баг"; "API";
    "code"; "programming"; "error"; "bug"; "development";
    "функция"; "алгоритм"; "база данных" ]%string.

(** The two lists local to [analyzeCurrentContextEffectiveness]. *)
Definition docKeywords : list jsstring := map utf16
  [ "документ"; "файл"; "pdf"; "document"; "file" ]%string.

Definition effHistoryKeywords : list jsstring := map utf16
  [ "раньше"; "ранее"; "помните"; "previously"; "earlier" ]%string.

End Keywords.

Section ContextSwitching.

(** An entry of [relevantHistory]: a message row with its relevance. *)
Variable HistoryEntry : Type.

Record ContextSwitchResult := mkSwitch {
  shouldSwitch : bool;
  newContext : ContextKind;
  switch_confidence : float;
  switch_reasoning : jsstring;
  suggestedDocuments : list string;
  relevantHistory : list HistoryEntry;
  suggestedAgent : option string;
}.

(** [lastSwitchTime] is held as the epoch milliseconds that
    [new Date(context.lastSwitchTime).getTime()] reads from it. *)
Record ConversationContext := mkContext {
  ctx_chatId : string;
  currentContext : ContextKind;
  activeDocuments : list string;
  ctx_relevantHistory : list HistoryEntry;
  contextScore : float;
  lastSwitchTime : Z;
}.

Record Effectiveness := mkEff {
  score : float;
  suggestedContext : ContextKind;
  eff_confidence : float;
  reason : jsstring;
}.

Variable getAgentsByRole : option (string -> list Agent).

(** The two store lookups of the hook; the decision never reads what they
    return, it only passes it on. *)
Variable findRelevantDocuments : jsstring -> string -> list string.
Variable getRelevantHistory : jsstring -> string -> list HistoryEntry.

(** [now] is [Date.now()].  The elapsed time is an integer number of
    milliseconds [t], and [t / (1000 * 60) < 5] holds exactly when
    [t < 300000]. *)
Definition recentSwitch (now : Z) (context : ConversationContext) : bool :=
  now - lastSwitchTime context <? 300000.

Definition analyzeCurrentContextEffectiveness
    (now : Z) (context : ConversationContext) (newMessage : jsstring)
  : Effectiveness :=
  let score0 := 0.7%float in
  let score1 := if recentSwitch now context then (score0 + 0.2)%float
                else score0 in
  let lowerMessage := toLowerCase newMessage in
  let keep :=
    mkEff score1 (currentContext context) 0.5
      (utf16 "Current context seems appropriate") in
  match currentContext context with
  | rag =>
    let hasDocKeywords := someIncluded lowerMessage Keywords.docKeywords in
    if negb hasDocKeywords
       && Nat.eqb (length (activeDocuments context)) 0
    then mkEff 0.4 general 0.7
           (utf16 "Message no longer seems document-related and no active documents")
    else keep
  | history =>
    let hasHistoryKeywords :=
      someIncluded lowerMessage Keywords.effHistoryKeywords in
    if negb hasHistoryKeywords
    then mkEff 0.5 general 0.6
           (utf16 "Message no longer references conversation history")
    else keep
  | _ => keep
  end.

(** Whether the current context has stopped fitting the message: the two
    conditions under which [analyzeCurrentContextEffectiveness] suggests
    [general]. *)
Definition degraded (context : ConversationContext) (newMessage : jsstring)
  : bool :=
  match currentContext context with
  | rag =>
    negb (someIncluded (toLowerCase newMessage) Keywords.docKeywords)
    && Nat.eqb (length (activeDocuments context)) 0
  | history =>
    negb (someIncluded (toLowerCase newMessage) Keywords.effHistoryKeywords)
  | _ => false
  end.

(** A string is truthy when it is not empty. *)
Definition truthyId (o : option string) : bool :=
  match o with
  | Some id => negb (String.eqb id "")
  | None => false
  end.

(** The keyword cascade of [analyzeContextSwitch], before the current
    context is looked at; [None] when [classifyIntent] throws, which the
    [try] of [analyzeContextSwitch] (a [finally], no [catch]) lets
    through. *)
Definition analyzeKeywords (message : jsstring) (chatId : string)
  : option ContextSwitchResult :=
  let lowerMessage := toLowerCase message in
  let stay := mkSwitch false general 0.5 [] [] [] None in
  if someIncluded lowerMessage Keywords.documentKeywords then
    Some (mkSwitch true rag 0.85
            (utf16 "User is referencing documents or asking for document-based information")
            (findRelevantDocuments message chatId) [] None)
  else if someIncluded lowerMessage Keywords.historyKeywords then
    Some (mkSwitch true history 0.8
            (utf16 "User is referencing previous conversation or asking for historical context")
            [] (getRelevantHistory message chatId) None)
  else if someIncluded lowerMessage Keywords.agentTaskKeywords
          || someIncluded lowerMessage Keywords.technicalKeywords then
    intentResult ← classifyIntent getAgentsByRole message;
    Some (if truthyId (suggestedAgentId intentResult) then
            mkSwitch true agent (confidence intentResult)
              (utf16 "User task requires specialized agent: "
                 ++ utf16 (intent_name (intent intentResult)))
              [] [] (suggestedAgentId intentResult)
          else stay)
  else Some stay.

(** The second half of [analyzeContextSwitch]: the check of the current
    context, on the result [r] of the cascade. *)
Definition checkCurrentContext
    (now : Z) (message : jsstring)
    (currentChatContext : option ConversationContext)
    (r : ContextSwitchResult) : ContextSwitchResult :=
  match currentChatContext with
  | Some ctx =>
    if negb (shouldSwitch r) then
      let contextEffectiveness :=
        analyzeCurrentContextEffectiveness now ctx message in
      if (score contextEffectiveness <? 0.6)%float then
        mkSwitch true (suggestedContext contextEffectiveness)
          (eff_confidence contextEffectiveness)
          (reason contextEffectiveness)
          (suggestedDocuments r) (relevantHistory r) (suggestedAgent r)
      else r
    else r
  | None => r
  end.

(** [analyzeContextSwitch]; [None] when it throws. *)
Definition analyzeContextSwitch
    (now : Z) (message : jsstring) (chatId : string)
    (currentChatContext : option ConversationContext)
  : option ContextSwitchResult :=
  r ← analyzeKeywords message chatId;
  Some (checkCurrentContext now message currentChatContext r).

(** [executeContextSwitch] builds the context that the next call sees;
    [now] is the time of the switch. *)
Definition executeContextSwitch
    (now : Z) (chatId : string) (switchResult : ContextSwitchResult)
  : ConversationContext :=
  mkContext chatId (newContext switchResult)
    (suggestedDocuments switchResult) (relevantHistory switchResult)
    (switch_confidence switchResult) now.

End ContextSwitching.

Arguments mkSwitch {HistoryEntry}.
Arguments mkContext {HistoryEntry}.
Arguments shouldSwitch {HistoryEntry}.
Arguments newContext {HistoryEntry}.
Arguments switch_confidence {HistoryEntry}.
Arguments switch_reasoning {HistoryEntry}.
Arguments suggestedDocuments {HistoryEntry}.
Arguments relevantHistory {HistoryEntry}.
Arguments suggestedAgent {HistoryEntry}.
Arguments currentContext {HistoryEntry}.
Arguments activeDocuments {HistoryEntry}.
Arguments lastSwitchTime {HistoryEntry}.
Arguments recentSwitch {HistoryEntry}.
Arguments degraded {HistoryEntry}.
Arguments analyzeCurrentContextEffectiveness {HistoryEntry}.
Arguments analyzeKeywords {HistoryEntry}.
Arguments checkCurrentContext {HistoryEntry}.
Arguments analyzeContextSwitch {HistoryEntry}.
Arguments executeContextSwitch {HistoryEntry}.

(** ** The store *)

(** The status strings that the two writers of [agent_conversations] use:
    the edge function declares idle, active, completed and error, the hook
    and the table's check constraint active, paused, completed and
    cancelled. *)
Inductive ConvStatus := idle | active | paused | completed | cancelled | error.

Definition isActive (st : ConvStatus) : bool :=
  match st with active => true | _ => false end.

(** An entry of [conversation_state.messages]; only the edge function
    records [agentName]. *)
Record TurnMessage := mkTurn {
  agentId : string;
  agentName : option jsstring;
  content : jsstring;
  timestamp : Z;
}.

(** The JSON value in [conversation_state].  The edge function writes the
    agent list under [agents], the hook under [participants]; the key that
    a writer leaves out is [None]. *)
Record ConversationState := mkState {
  currentTurn : Z;
  maxTurns : Z;
  agents : option (list string);
  participants : option (list string);
  topic : jsstring;
  status : ConvStatus;
  messages : list TurnMessage;
}.

(** A row of [agent_conversations]. *)
Record AgentConversation := mkConv {
  conv_chat_id : string;
  agent_ids : list string;
  conversation_state : ConversationState;
  row_status : ConvStatus;
  updated_at : Z;
}.

(** A row of [messages]. *)
Record Message := mkMessage {
  chat_id : string;
  sender : jsstring;
  msg_content : jsstring;
  msg_role : string;
  msg_agent_id : option string;
  msg_intent : string;
  msg_confidence : float;
  meta_conversation_id : N;
  meta_type : option string;
  model : string;
  msg_type : string;
}.

Record Chat := mkChat {
  chat_type : string;
  chat_agent_ids : list string;
  document_ids : list string;
}.

Inductive FeedbackKind := correction | improvement | praise | suggestion.

(** A row of [agent_feedback]. *)
Record FeedbackType := mkFeedback {
  feedback_id : N;
  feedback_agent_id : string;
  message_id : option string;
  feedback_type : FeedbackKind;
  original_response : option jsstring;
  suggested_response : option jsstring;
  user_feedback : jsstring;
  confidence_score : float;
  created_at : Z;
}.

(** A row of [prompt_improvement_logs]. *)
Record PromptImprovementLog := mkLog {
  log_id : N;
  log_agent_id : string;
  old_prompt : jsstring;
  new_prompt : jsstring;
  improvement_reason : jsstring;
  feedback_ids : list N;
  performance_before : jsstring;
  log_created_at : Z;
}.

(** The database and the session.  The tables that are read newest first
    ([messages], [agent_feedback], [prompt_improvement_logs]) are kept in
    that order: an insert puts the row in front.  A write that the source
    awaits succeeds; a lookup fails when the row is not there. *)
Record Store := mkStore {
  agents_table : list Agent;
  chats : gmap string Chat;
  agent_conversations : gmap N AgentConversation;
  messages_table : list Message;
  agent_feedback : list FeedbackType;
  prompt_improvement_logs : list PromptImprovementLog;
  session_user : option string;
}.

Definition with_agents (s : Store) (a : list Agent) : Store :=
  mkStore a (chats s) (agent_conversations s) (messages_table s)
    (agent_feedback s) (prompt_improvement_logs s) (session_user s).

Definition with_chats (s : Store) (c : gmap string Chat) : Store :=
  mkStore (agents_table s) c (agent_conversations s) (messages_table s)
    (agent_feedback s) (prompt_improvement_logs s) (session_user s).

Definition with_conversations (s : Store) (c : gmap N AgentConversation)
  : Store :=
  mkStore (agents_table s) (chats s) c (messages_table s)
    (agent_feedback s) (prompt_improvement_logs s) (session_user s).

Definition with_messages (s : Store) (m : list Message) : Store :=
  mkStore (agents_table s) (chats s) (agent_conversations s) m
    (agent_feedback s) (prompt_improvement_logs s) (session_user s).

Definition with_feedback (s : Store) (f : list FeedbackType) : Store :=
  mkStore (agents_table s) (chats s) (agent_conversations s)
    (messages_table s) f (prompt_improvement_logs s) (session_user s).

Definition with_logs (s : Store) (l : list PromptImprovementLog) : Store :=
  mkStore (agents_table s) (chats s) (agent_conversations s)
    (messages_table s) (agent_feedback s) l (session_user s).

(** [.from('agent_conversations').update({ conversation_state }).eq('id', id)]. *)
Definition updateConversationState
    (id : N) (st : ConversationState) (s : Store) : Store :=
  with_conversations s
    (alter (fun c => mkConv (conv_chat_id c) (agent_ids c) st
                       (row_status c) (updated_at c))
       id (agent_conversations s)).

(** The state stored for a conversation, if the row exists. *)
Definition stateOf (s : Store) (id : N) : option ConversationState :=
  conversation_state <$> agent_conversations s !! id.

(** ** The multi-agent edge function *)

Module MultiAgentChat.

Record StartRequest := mkStart {
  chatId : string;
  agentIds : option (list string);
  start_topic : jsstring;
  start_maxTurns : option Z;
}.

Record ContinueRequest := mkContinue {
  continue_chatId : string;
  conversationId : N;
}.

Inductive Response :=
  | ErrorResponse (http_status : Z) (error_message : string)
  | StartResponse (conversation_id : N) (first_message : jsstring)
      (next_agent : option string) (turn : Z)
  | ContinueResponse (agent_message : jsstring) (next_agent : option string)
      (turn : Z) (should_continue : bool)
  | EndResponse (summary : jsstring) (total_turns : Z) (total_messages : Z).

Definition invalidInput : Response :=
  ErrorResponse 400 "Invalid input: chatId and at least 2 agentIds required".

Definition notActive : Response :=
  ErrorResponse 400 "Conversation completed or max turns reached".

Definition quote : jsstring := [34%N].

Definition contextSummaryOf (context : list Message) : jsstring :=
  match context with
  | [] => []
  | _ => utf16 "Контекст: "
           ++ join (utf16 " | ") (map msg_content (lastn 3 context))
  end.

(** [${contextSummary ? `<lead>${contextSummary}` : ''}]. *)
Definition ifContext (lead contextSummary : jsstring) : jsstring :=
  match contextSummary with
  | [] => []
  | _ => lead ++ contextSummary
  end.

Definition generateAgentMessage
    (a : Agent) (topic : jsstring) (context : list Message) (turn : Z)
  : jsstring :=
  let contextSummary := contextSummaryOf context in
  let about lead := utf16 lead ++ quote ++ topic ++ quote ++ utf16 ". " in
  let response :=
    if String.eqb (role a) "researcher" then
      about "Как исследователь, я анализирую тему "
        ++ ifContext (utf16 "Учитывая предыдущий контекст: ") contextSummary
        ++ utf16 " Позвольте мне предложить углубленный анализ и дополнительные источники информации."
    else if String.eqb (role a) "support" then
      about "Как агент поддержки, я готов помочь с темой "
        ++ ifContext (utf16 "Основываясь на предыдущем обсуждении: ") contextSummary
        ++ utf16 " Что именно вас интересует или беспокоит?"
    else if String.eqb (role a) "coder" then
      about "Как программист, я готов помочь с техническими аспектами "
        ++ ifContext (utf16 "Учитывая контекст: ") contextSummary
        ++ utf16 " Могу предложить решения на уровне кода и архитектуры."
    else if String.eqb (role a) "writer" then
      about "Как писатель, я помогу структурировать информацию по теме "
        ++ ifContext (utf16 "Исходя из предыдущего обсуждения: ") contextSummary
        ++ utf16 " Давайте создадим четкий и понятный контент."
    else if String.eqb (role a) "analyst" then
      about "Как аналитик, я проанализирую тему "
        ++ ifContext (utf16 "На основе контекста: ") contextSummary
        ++ utf16 " Предложу структурированный анализ и выводы."
    else
      about "Как AI ассистент, я готов помочь с темой "
        ++ ifContext (utf16 "Учитывая предыдущий контекст: ") contextSummary
        ++ utf16 " Что именно вас интересует?" in
  if 0 <? turn then
    response ++ utf16 " Это мой " ++ ofZ (turn + 1)
      ++ utf16 "-й ход в нашем обсуждении."
  else response.

(** The row that both [start] and [continue] add to [messages]. *)
Definition agentMessageRow
    (chat : string) (a : Agent) (text : jsstring) (conversation : N)
  : Message :=
  mkMessage chat (agent_name a) text "assistant" (Some (agent_id a))
    "agent_conversation" 0.95 conversation None "gpt-4o-mini" "text".

Definition insertMessage (m : Message) (s : Store) : Store :=
  with_messages s (m :: messages_table s).

(** [.from('agents').select(..).in('id', agentIds)]. *)
Definition agentsIn (ids : list string) (s : Store) : list Agent :=
  List.filter (fun a => existsb (String.eqb (agent_id a)) ids)
    (agents_table s).

(** [.from('agents').select(..).eq('id', id).single()]. *)
Definition agentById (id : string) (s : Store) : option Agent :=
  find (fun a => String.eqb (agent_id a) id) (agents_table s).

Definition startMultiAgentConversation
    (now : Z) (req : StartRequest) (s : Store) : Store * Response :=
  match agentIds req with
  | None => (s, invalidInput)
  | Some ids =>
    if String.eqb (chatId req) "" || (length ids <? 2)%nat
    then (s, invalidInput)
    else
      let found := agentsIn ids s in
      if negb (length found =? length ids)%nat
      then (s, ErrorResponse 500 "Failed to fetch agents")
      else
        let initialState :=
          mkState 0 (default 5 (start_maxTurns req)) (Some ids) None
            (start_topic req) active [] in
        let id := fresh (dom (agent_conversations s)) in
        let s1 :=
          with_conversations s
            (<[ id := mkConv (chatId req) ids initialState active now ]>
               (agent_conversations s)) in
        let s2 :=
          with_chats s1
            (alter (fun c => mkChat "multi_agent" (chat_agent_ids c)
                               (document_ids c))
               (chatId req) (chats s1)) in
        match found with
        | [] => (s2, ErrorResponse 500 "Cannot read properties of undefined")
        | firstAgent :: rest =>
          let firstMessage :=
            generateAgentMessage firstAgent (start_topic req) [] 0 in
          let s3 :=
            insertMessage
              (agentMessageRow (chatId req) firstAgent firstMessage id) s2 in
          (s3, StartResponse id firstMessage (agent_id <$> head rest) 1)
        end
  end.

(** [a[i]] for a number [i]. *)
Definition at_index {A} (l : list A) (i : Z) : option A :=
  if i <? 0 then None else l !! Z.to_nat i.

(** [state.agents[turn % state.agents.length]]; the remainder has the sign
    of [turn], and an empty list has no element to give. *)
Definition agentAtTurn (l : list string) (t : Z) : option string :=
  match l with
  | [] => None
  | _ => at_index l (Z.rem t (Z.of_nat (length l)))
  end.

Definition continueConversation
    (now : Z) (req : ContinueRequest) (s : Store) : Store * Response :=
  match agent_conversations s !! conversationId req with
  | None => (s, ErrorResponse 404 "Conversation not found")
  | Some conversation =>
    let state := conversation_state conversation in
    if (maxTurns state <=? currentTurn state) || negb (isActive (status state))
    then (s, notActive)
    else
      match agents state with
      | None => (s, ErrorResponse 500 "Cannot read properties of undefined")
      | Some l =>
        match agentAtTurn l (currentTurn state)
                ≫= (fun id => agentById id s) with
        | None => (s, ErrorResponse 404 "Agent not found")
        | Some a =>
          let recentMessages :=
            take 5 (List.filter
                      (fun m => String.eqb (chat_id m) (continue_chatId req))
                      (messages_table s)) in
          let agentMessage :=
            generateAgentMessage a (topic state) recentMessages
              (currentTurn state) in
          let s1 :=
            insertMessage
              (agentMessageRow (continue_chatId req) a agentMessage
                 (conversationId req)) s in
          let updatedState :=
            mkState (currentTurn state + 1) (maxTurns state) (agents state)
              (participants state) (topic state) (status state)
              (messages state
                 ++ [mkTurn (agent_id a) (Some (agent_name a)) agentMessage
                       now]) in
          let s2 := updateConversationState (conversationId req) updatedState s1 in
          let shouldContinue :=
            currentTurn updatedState <? maxTurns updatedState in
          let nextAgent :=
            if shouldContinue then agentAtTurn l (currentTurn updatedState)
            else None in
          (s2, ContinueResponse agentMessage nextAgent
                 (currentTurn updatedState) shouldContinue)
        end
      end
  end.

Definition summaryOf (state : ConversationState) : jsstring :=
  utf16 "Разговор агентов завершен. Обсуждено "
    ++ ofZ (Z.of_nat (length (messages state)))
    ++ utf16 " сообщений по теме " ++ quote ++ topic state ++ quote
    ++ utf16 ".".

Definition endConversation (id : N) (s : Store) : Store * Response :=
  match agent_conversations s !! id with
  | None => (s, ErrorResponse 404 "Conversation not found")
  | Some conversation =>
    let state := conversation_state conversation in
    let finalState :=
      mkState (currentTurn state) (maxTurns state) (agents state)
        (participants state) (topic state) completed (messages state) in
    let s1 := updateConversationState id finalState s in
    let summary := summaryOf state in
    let s2 :=
      insertMessage
        (mkMessage (conv_chat_id conversation) (utf16 "System") summary
           "assistant" None "conversation_summary" 1.0 id (Some "summary")
           "gpt-4o-mini" "text") s1 in
    (s2, EndResponse summary (currentTurn state)
           (Z.of_nat (length (messages state))))
  end.

Definition isSuccess (r : Response) : bool :=
  match r with
  | ErrorResponse _ _ => false
  | _ => true
  end.

(** [continued id n s s']: [n] successful [continue] calls on conversation
    [id], whatever the clock and the chat id of each request, lead from
    store [s] to store [s']. *)
Inductive continued (id : N) : nat -> Store -> Store -> Prop :=
  | continued_0 s : continued id 0 s s
  | continued_S n now req s s1 s2 r :
      conversationId req = id ->
      continueConversation now req s = (s1, r) ->
      isSuccess r = true ->
      continued id n s1 s2 ->
      continued id (S n) s s2.

(** [n] [continue] calls in a row for one chat, a second apart. *)
Fixpoint continueTimes (n : nat) (now : Z) (chat : string) (id : N)
    (s : Store) : Store :=
  match n with
  | O => s
  | S k =>
    continueTimes k (now + 1000) chat id
      (fst (continueConversation now (mkContinue chat id) s))
  end.

(** Whether each of those [n] calls answers with a success. *)
Fixpoint continuesSucceed (n : nat) (now : Z) (chat : string) (id : N)
    (s : Store) : bool :=
  match n with
  | O => true
  | S k =>
    isSuccess (snd (continueConversation now (mkContinue chat id) s))
    && continuesSucceed k (now + 1000) chat id
         (fst (continueConversation now (mkContinue chat id) s))
  end.

(** Who spoke in the transcript, oldest message first. *)
Definition speakers (s : Store) : list (option string) :=
  map msg_agent_id (rev (messages_table s)).

End MultiAgentChat.

(** ** The client hook [useMultiAgentChat] *)

Module UseMultiAgentChat.

(** The hook's operations return nothing; they throw on failure. *)
Inductive Outcome := Done | Thrown (message : string).

Definition startAgentConversation
    (now : Z) (chatId : string) (agentIds : list string) (topic : jsstring)
    (maxTurns : option Z) (s : Store) : Store * Outcome :=
  match session_user s with
  | None => (s, Thrown "Invalid parameters for starting conversation")
  | Some _ =>
    if String.eqb chatId "" || Nat.eqb (length agentIds) 0
    then (s, Thrown "Invalid parameters for starting conversation")
    else
      let initialState :=
        mkState 0 (default 5 maxTurns) None (Some agentIds) topic active [] in
      let id := fresh (dom (agent_conversations s)) in
      (with_conversations s
         (<[ id := mkConv chatId agentIds initialState active now ]>
            (agent_conversations s)),
       Done)
  end.

Definition continueConversation
    (now : Z) (conversationId : N) (agent : string) (message : jsstring)
    (s : Store) : Store * Outcome :=
  match agent_conversations s !! conversationId with
  | None => (s, Thrown "Conversation not found")
  | Some conversation =>
    let currentState := conversation_state conversation in
    let newMessage := mkTurn agent None message now in
    let updatedState :=
      mkState (currentTurn currentState + 1) (maxTurns currentState)
        (agents currentState) (participants currentState)
        (topic currentState)
        (if maxTurns currentState <=? currentTurn currentState + 1
         then completed else active)
        (messages currentState ++ [newMessage]) in
    (with_conversations s
       (<[ conversationId :=
             mkConv (conv_chat_id conversation) (agent_ids conversation)
               updatedState (status updatedState) now ]>
          (agent_conversations s)),
     Done)
  end.

(** [.update({ status: 'completed', updated_at }).eq('id', conversationId)]:
    the row's status column, whatever it held. *)
Definition endConversation (now : Z) (conversationId : N) (s : Store)
  : Store * Outcome :=
  (with_conversations s
     (alter (fun c => mkConv (conv_chat_id c) (agent_ids c)
                        (conversation_state c) completed now)
        conversationId (agent_conversations s)),
   Done).

(** [getConversationStatus]: the status column of the row. *)
Definition getConversationStatus (conversationId : N) (s : Store)
  : option ConvStatus :=
  row_status <$> agent_conversations s !! conversationId.

End UseMultiAgentChat.

(** ** The feedback loop ([useSelfImprovingAgents]) *)

Module SelfImprovingAgents.

(** [Omit<FeedbackType, 'id' | 'created_at'>]. *)
Record FeedbackInput := mkInput {
  in_agent_id : string;
  in_message_id : option string;
  in_feedback_type : FeedbackKind;
  in_original_response : option jsstring;
  in_suggested_response : option jsstring;
  in_user_feedback : jsstring;
  in_confidence_score : float;
}.

Inductive Issue := accuracy | clarity | completeness | relevance | tone.

Definition issue_eqb (a b : Issue) : bool :=
  match a, b with
  | accuracy, accuracy | clarity, clarity | completeness, completeness
  | relevance, relevance | tone, tone => true
  | _, _ => false
  end.

Definition accuracyKeywords : list jsstring := map utf16
  [ "неточно"; "неправильно"; "ошибка"; "incorrect"; "wrong" ]%string.

Definition patterns : list (Issue * list jsstring) :=
  [ (accuracy, accuracyKeywords);
    (clarity, map utf16
       [ "непонятно"; "сложно"; "unclear"; "confusing" ]%string);
    (completeness, map utf16
       [ "неполно"; "не хватает"; "incomplete"; "missing" ]%string);
    (relevance, map utf16 [ "не по теме"; "irrelevant"; "off-topic" ]%string);
    (tone, map utf16 [ "грубо"; "невежливо"; "rude"; "impolite" ]%string) ].

Definition identifyCommonIssues (feedback : list FeedbackType) : list Issue :=
  let feedbackTexts := map (fun f => toLowerCase (user_feedback f)) feedback in
  flat_map
    (fun '(issue, keywords) =>
       let matchCount :=
         length (List.filter (fun text => someIncluded text keywords)
                   feedbackTexts) in
       if (2 <=? matchCount)%nat then [issue] else [])
    patterns.

Definition isNegative (k : FeedbackKind) : bool :=
  match k with correction | improvement => true | _ => false end.

Definition isCorrection (k : FeedbackKind) : bool :=
  match k with correction => true | _ => false end.

(** A count as a JavaScript number. *)
Definition number (n : nat) : float :=
  PrimFloat.of_uint63 (Uint63.of_Z (Z.of_nat n)).

Record Analysis := mkAnalysis {
  shouldImprove : bool;
  negativeFeedbackRatio : float;
  averageConfidence : float;
  commonIssues : list Issue;
  totalFeedback : nat;
}.

Definition analyzeAggregatedFeedback (feedback : list FeedbackType)
  : Analysis :=
  let totalFeedback := length feedback in
  let negativeFeedback :=
    length (List.filter (fun f => isNegative (feedback_type f)) feedback) in
  let averageConfidence :=
    (fold_left (fun sum f => sum + confidence_score f) feedback 0
       / number totalFeedback)%float in
  let commonIssues := identifyCommonIssues feedback in
  let ratio := (number negativeFeedback / number totalFeedback)%float in
  mkAnalysis
    ((0.3 <? ratio)%float
     || (averageConfidence <? 0.7)%float
     || (0 <? length commonIssues)%nat)
    ratio averageConfidence commonIssues totalFeedback.

Definition nl : jsstring := [10%N].

(** The text of a section: its lines, each begun by a line feed. *)
Definition section (title : string) (items : list string) : jsstring :=
  nl ++ nl ++ utf16 title ++ flat_map (fun i => nl ++ utf16 i) items.

Definition hasIssue (analysis : Analysis) (i : Issue) : bool :=
  existsb (issue_eqb i) (commonIssues analysis).

(** The numbered list of corrections, [index] counting from 0. *)
Fixpoint correctionLines (index : nat) (corrections : list FeedbackType)
  : jsstring :=
  match corrections with
  | [] => []
  | c :: r =>
    ofZ (Z.of_nat index + 1) ++ utf16 ". " ++ user_feedback c ++ nl
      ++ correctionLines (S index) r
  end.

(** What [generateImprovedPrompt] appends to the system prompt. *)
Definition promptAdditions
    (feedback : list FeedbackType) (analysis : Analysis) : jsstring :=
  (if hasIssue analysis accuracy then
     section "**Точность и Проверка Фактов:**"
       [ "- Всегда проверяй факты перед ответом";
         "- При неуверенности, указывай на ограничения знаний";
         "- Ссылайся на источники когда возможно" ]%string
   else [])
  ++ (if hasIssue analysis clarity then
        section "**Ясность Коммуникации:**"
          [ "- Используй простой и понятный язык";
            "- Структурируй ответы с заголовками и списками";
            "- Избегай излишней технической терминологии без объяснений" ]%string
      else [])
  ++ (if hasIssue analysis completeness then
        section "**Полнота Ответов:**"
          [ "- Обеспечивай comprehensive coverage темы";
            "- Предвосхищай follow-up вопросы";
            "- Предлагай дополнительные ресурсы когда уместно" ]%string
      else [])
  ++ (if hasIssue analysis relevance then
        section "**Релевантность:**"
          [ "- Внимательно анализируй контекст вопроса";
            "- Фокусируйся на specific needs пользователя";
            "- Избегай отклонений от основной темы" ]%string
      else [])
  ++ (if hasIssue analysis tone then
        section "**Тон и Стиль:**"
          [ "- Поддерживай дружелюбный и профессиональный тон";
            "- Проявляй эмпатию к проблемам пользователя";
            "- Избегай категоричных утверждений" ]%string
      else [])
  ++ (let corrections :=
        List.filter (fun f => isCorrection (feedback_type f)) feedback in
      match corrections with
      | [] => []
      | _ =>
        nl ++ nl
          ++ utf16 "**Специальные Инструкции на основе пользовательских корректировок:**"
          ++ nl ++ correctionLines 0 corrections
      end).

Definition improvementReasons
    (feedback : list FeedbackType) (analysis : Analysis) : list jsstring :=
  (if hasIssue analysis accuracy
   then [utf16 "Улучшена точность ответов"] else [])
  ++ (if hasIssue analysis clarity
      then [utf16 "Улучшена ясность изложения"] else [])
  ++ (if hasIssue analysis completeness
      then [utf16 "Улучшена полнота ответов"] else [])
  ++ (if hasIssue analysis relevance
      then [utf16 "Улучшена релевантность"] else [])
  ++ (if hasIssue analysis tone
      then [utf16 "Улучшен тон общения"] else [])
  ++ (if existsb (fun f => isCorrection (feedback_type f)) feedback
      then [utf16 "Добавлены специальные инструкции"] else []).

Definition generateImprovedPrompt
    (a : Agent) (feedback : list FeedbackType) (analysis : Analysis)
  : jsstring * jsstring :=
  (system_prompt a ++ promptAdditions feedback analysis,
   join (utf16 ", ") (improvementReasons feedback analysis)).

(** [getAgentById] of [useAgents]: the signed-in user's agent of that id. *)
Definition ownedBy (u id : string) (a : Agent) : bool :=
  String.eqb (agent_id a) id && String.eqb (agent_user_id a) u.

Definition getAgentById (id : string) (s : Store) : option Agent :=
  u ← session_user s; find (ownedBy u id) (agents_table s).

(** [updateAgent(agentId, { system_prompt, last_updated })] of [useAgents];
    [None] when it throws. *)
Definition updateAgent (now : Z) (id : string) (prompt : jsstring) (s : Store)
  : option Store :=
  u ← session_user s;
  if existsb (ownedBy u id) (agents_table s) then
    Some (with_agents s
            (map (fun a =>
                    if ownedBy u id a then
                      mkAgent (agent_id a) (agent_user_id a) (agent_name a)
                        prompt (role a) (is_active a)
                        (performance_metrics a) (Some now)
                    else a)
               (agents_table s)))
  else None.

(** [suggestPromptImprovement]; whatever it throws is caught by its caller,
    which leaves the store as the throw found it. *)
Definition suggestPromptImprovement
    (now : Z) (id : string) (feedback : list FeedbackType)
    (analysis : Analysis) (s : Store) : Store :=
  match getAgentById id s with
  | None => s
  | Some a =>
    let improvedPrompt := generateImprovedPrompt a feedback analysis in
    let improvementLog :=
      mkLog (fresh (map log_id (prompt_improvement_logs s))) id
        (system_prompt a) (fst improvedPrompt) (snd improvedPrompt)
        (map feedback_id feedback) (performance_metrics a) now in
    let s1 := with_logs s (improvementLog :: prompt_improvement_logs s) in
    match updateAgent now id (fst improvedPrompt) s1 with
    | Some s2 => s2
    | None => s1
    end
  end.

(** The ten most recent feedback rows of an agent. *)
Definition recentFeedbackOf (id : string) (s : Store) : list FeedbackType :=
  take 10 (List.filter (fun f => String.eqb (feedback_agent_id f) id)
             (agent_feedback s)).

Definition analyzeFeedbackForImprovement (now : Z) (id : string) (s : Store)
  : Store :=
  let recentFeedback := recentFeedbackOf id s in
  if (length recentFeedback <? 3)%nat then s
  else
    let feedbackAnalysis := analyzeAggregatedFeedback recentFeedback in
    if shouldImprove feedbackAnalysis
    then suggestPromptImprovement now id recentFeedback feedbackAnalysis s
    else s.

Definition collectFeedback (now : Z) (feedback : FeedbackInput) (s : Store)
  : Store * FeedbackType :=
  let data :=
    mkFeedback (fresh (map feedback_id (agent_feedback s)))
      (in_agent_id feedback) (in_message_id feedback)
      (in_feedback_type feedback) (in_original_response feedback)
      (in_suggested_response feedback) (in_user_feedback feedback)
      (in_confidence_score feedback) now in
  let s1 := with_feedback s (data :: agent_feedback s) in
  (analyzeFeedbackForImprovement now (in_agent_id feedback) s1, data).

End SelfImprovingAgents.

(** ** Operations on a conversation *)

(** The calls that write [agent_conversations]. *)
Inductive Operation :=
  | EdgeStart (now : Z) (req : MultiAgentChat.StartRequest)
  | EdgeContinue (now : Z) (req : MultiAgentChat.ContinueRequest)
  | EdgeEnd (id : N)
  | HookStart (now : Z) (chatId : string) (agentIds : list string)
      (topic : jsstring) (maxTurns : option Z)
  | HookContinue (now : Z) (id : N) (agent : string) (message : jsstring)
  | HookEnd (now : Z) (id : N).

Definition perform (op : Operation) (s : Store) : Store :=
  match op with
  | EdgeStart now req =>
      fst (MultiAgentChat.startMultiAgentConversation now req s)
  | EdgeContinue now req => fst (MultiAgentChat.continueConversation now req s)
  | EdgeEnd id => fst (MultiAgentChat.endConversation id s)
  | HookStart now chatId agentIds topic maxTurns =>
      fst (UseMultiAgentChat.startAgentConversation now chatId agentIds topic
             maxTurns s)
  | HookContinue now id a message =>
      fst (UseMultiAgentChat.continueConversation now id a message s)
  | HookEnd now id => fst (UseMultiAgentChat.endConversation now id s)
  end.

Definition isHookContinue (op : Operation) : bool :=
  match op with
  | HookContinue _ _ _ _ => true
  | _ => false
  end.

(** ** Sample data *)

Module Sample.

Definition agentA : Agent :=
  mkAgent "agent-a" "user-1" (utf16 "Исследователь")
    (utf16 "You are a research expert.") "researcher" true (utf16 "{}") None.

Definition agentB : Agent :=
  mkAgent "agent-b" "user-1" (utf16 "Поддержка")
    (utf16 "You are a support agent.") "support" true (utf16 "{}") None.

Definition agentC : Agent :=
  mkAgent "agent-c" "user-1" (utf16 "Аналитик")
    (utf16 "You are a data analyst.") "analyst" true (utf16 "{}") None.

Definition store : Store :=
  mkStore [agentA; agentB; agentC]
    {[ "chat-1"%string := mkChat "general" [] [] ]} ∅ [] [] [] (Some "user-1"%string).

Definition t0 : Z := 1755950400000.

Definition startThree : MultiAgentChat.StartRequest :=
  MultiAgentChat.mkStart "chat-1" (Some ["agent-a"; "agent-b"; "agent-c"]%string)
    (utf16 "AI Research") (Some 5).

Definition startTwo : MultiAgentChat.StartRequest :=
  MultiAgentChat.mkStart "chat-1" (Some ["agent-a"; "agent-b"]%string)
    (utf16 "AI Research") None.

Definition startOne : MultiAgentChat.StartRequest :=
  MultiAgentChat.mkStart "chat-1" (Some ["agent-a"]%string)
    (utf16 "AI Research") (Some 5).

(** The store after [start] and the id of the conversation it created. *)
Definition started (req : MultiAgentChat.StartRequest) : Store :=
  fst (MultiAgentChat.startMultiAgentConversation t0 req store).

Definition conversation : N := fresh (dom (agent_conversations store)).

(** The store after [start] and [n] [continue] calls. *)
Definition afterTurns (req : MultiAgentChat.StartRequest) (n : nat) : Store :=
  MultiAgentChat.continueTimes n (t0 + 1000) "chat-1" conversation
    (started req).

(** A conversation that an external actor has cancelled after one turn. *)
Definition cancelledState : ConversationState :=
  mkState 1 5 (Some ["agent-a"; "agent-b"]%string) None (utf16 "AI Research")
    cancelled [mkTurn "agent-a" None (utf16 "...") t0].

Definition cancelledStore : Store :=
  with_conversations store
    {[ 7%N := mkConv "chat-1" ["agent-a"; "agent-b"]%string cancelledState
                cancelled t0 ]}.

(** A session without documents or history to look up. *)
Definition noDocuments : jsstring -> string -> list string := fun _ _ => [].
Definition noHistory : jsstring -> string -> list Message := fun _ _ => [].

Definition analyze (now : Z) (message : string)
    (ctx : option (ConversationContext Message))
  : option (ContextSwitchResult Message) :=
  analyzeContextSwitch UseAgents.getAgentsByRole noDocuments noHistory now
    (utf16 message) "chat-1" ctx.

(** A chat whose context became [rag] an hour ago and has no documents. *)
Definition ragContext : ConversationContext Message :=
  mkContext "chat-1" rag [] [] 0.85 (t0 - 3600000).

(** Two messages a minute apart: the first recalls the conversation, the
    second mentions nothing. *)
Definition recallMessage : string := "Помните, о чем мы говорили?".
Definition plainMessage : string := "Спасибо, понятно".

Definition firstCall : option (ContextSwitchResult Message) :=
  analyze t0 recallMessage None.

Definition contextAfterFirstCall : option (ConversationContext Message) :=
  executeContextSwitch t0 "chat-1" <$> firstCall.

Definition secondCall : option (ContextSwitchResult Message) :=
  ctx ← contextAfterFirstCall; analyze (t0 + 60000) plainMessage (Some ctx).

(** Three corrections that complain about accuracy. *)
Definition correctionAbout (text : string)
  : SelfImprovingAgents.FeedbackInput :=
  SelfImprovingAgents.mkInput "agent-a" None correction None None
    (utf16 text) 0.9.

Definition correction1 := correctionAbout "Ответ неправильно описывает тарифы".
Definition correction2 := correctionAbout "Здесь ошибка в расчетах".
Definition correction3 := correctionAbout "This answer is wrong".

(** The store after recording them, a second apart, starting from [s]. *)
Definition afterThreeCorrections (s : Store) : Store :=
  fst (SelfImprovingAgents.collectFeedback (t0 + 3000) correction3
         (fst (SelfImprovingAgents.collectFeedback (t0 + 2000) correction2
                 (fst (SelfImprovingAgents.collectFeedback (t0 + 1000)
                         correction1 s))))).

(** A store in which the agent already has two corrections on record. *)
Definition storeWithHistory : Store :=
  with_feedback store
    [ mkFeedback 2 "agent-a" None correction None None
        (utf16 "Слишком сложно написано") 0.8 (t0 - 1000);
      mkFeedback 1 "agent-a" None correction None None
        (utf16 "Непонятно, о чем речь") 0.8 (t0 - 2000) ].

Definition urgentMessage : jsstring :=
  utf16 "Это СРОЧНО: файл pdf не открывается, ошибка 500".

End Sample.

From Stdlib Require Import Sorted.

(** ** The rule-based classifier ([useIntentClassification]) *)

Module IntentRules.

Record IntentResult := mkResult {
  intent : string;
  confidence : float;
  suggestedAgentId : option string;
  reasoning : jsstring;
}.

Definition supportKeywords : list jsstring := map utf16
  [ "проблема"; "ошибка"; "не работает"; "помогите"; "поддержка";
    "техническая"; "сбой"; "баг"; "bug"; "error"; "help"; "support";
    "issue"; "problem" ]%string.

Definition documentKeywords : list jsstring := map utf16
  [ "документ"; "pdf"; "файл"; "страница"; "содержимое"; "прочитай";
    "анализируй"; "document"; "file"; "page"; "content"; "read";
    "analyze" ]%string.

Definition businessKeywords : list jsstring := map utf16
  [ "продукт"; "услуга"; "цена"; "стоимость"; "функция"; "возможность";
    "product"; "service"; "price"; "cost"; "feature"; "capability" ]%string.

Definition contentKeywords : list jsstring := map utf16
  [ "напиши"; "создай"; "придумай"; "сочини"; "write"; "create";
    "generate"; "compose" ]%string.

Definition analysisKeywords : list jsstring := map utf16
  [ "анализ"; "исследование"; "изучи"; "разбери"; "analysis"; "research";
    "study"; "examine" ]%string.

Definition programmingKeywords : list jsstring := map utf16
  [ "код"; "программирование"; "функция"; "алгоритм"; "code";
    "programming"; "function"; "algorithm" ]%string.

(** [availableAgents.find(a => a.role === r)?.id]. *)
Definition agentWithRole (r : string) (availableAgents : list Agent)
  : option string :=
  agent_id <$> find (fun a => String.eqb (role a) r) availableAgents.

Definition classifyIntentRules
    (message : jsstring) (availableAgents : list Agent) : IntentResult :=
  let lowerMessage := toLowerCase message in
  if someIncluded lowerMessage supportKeywords then
    mkResult "technical_support" 0.85
      (agentWithRole "support" availableAgents)
      (utf16 "Message contains support/technical keywords")
  else if someIncluded lowerMessage documentKeywords then
    mkResult "document_question" 0.9
      (agentWithRole "assistant" availableAgents)
      (utf16 "Message contains document/PDF keywords")
  else if someIncluded lowerMessage businessKeywords then
    mkResult "business_question" 0.8
      (agentWithRole "support" availableAgents)
      (utf16 "Message contains business/product keywords")
  else if someIncluded lowerMessage contentKeywords then
    mkResult "content_generation" 0.75
      (agentWithRole "assistant" availableAgents)
      (utf16 "Message contains content generation keywords")
  else if someIncluded lowerMessage analysisKeywords then
    mkResult "analysis_research" 0.8
      (agentWithRole "assistant" availableAgents)
      (utf16 "Message contains analysis/research keywords")
  else if someIncluded lowerMessage programmingKeywords then
    mkResult "programming" 0.85
      (agentWithRole "assistant" availableAgents)
      (utf16 "Message contains programming keywords")
  else
    mkResult "general" 0.6
      (agentWithRole "assistant" availableAgents)
      (utf16 "No specific intent detected, defaulting to general").

(** [classifyIntent] runs the rules; the rules do not throw, so its
    fallback is never taken. *)
Definition classifyIntent
    (message : jsstring) (availableAgents : list Agent) : IntentResult :=
  classifyIntentRules message availableAgents.

End IntentRules.

(** ** The lookups of [useContextSwitching] *)

Module ContextLookups.

(** The characters that [\s] matches. *)
Definition isSpace (c : N) : bool :=
  ((9 <=? c) && (c <=? 13) || (c =? 32) || (c =? 160) || (c =? 5760)
   || (8192 <=? c) && (c <=? 8202) || (c =? 8232) || (c =? 8233)
   || (c =? 8239) || (c =? 8287) || (c =? 12288) || (c =? 65279))%N.

(** [s.split(/\s+/)], reading [s] from the left: [word] is the piece being
    read and [inGap] says that the last character read was a space. *)
Fixpoint splitSpaces (s word : jsstring) (inGap : bool) : list jsstring :=
  match s with
  | [] => [word]
  | c :: r =>
    if isSpace c then
      if inGap then splitSpaces r [] true
      else word :: splitSpaces r [] true
    else splitSpaces r (word ++ [c]) false
  end.

Definition split (s : jsstring) : list jsstring := splitSpaces s [] false.

Definition stopWords : list jsstring := map utf16
  [ "the"; "a"; "an"; "and"; "or"; "but"; "in"; "on"; "at"; "to"; "for";
    "of"; "with"; "by"; "is"; "are"; "was"; "were";
    "и"; "или"; "но"; "в"; "на"; "с"; "по"; "для"; "от"; "до"; "это";
    "что"; "как"; "где"; "когда" ]%string.

Definition sameString (a b : jsstring) : bool :=
  bool_decide (a = b).

Definition isKeyTerm (word : jsstring) : bool :=
  (2 <? length word)%nat && negb (existsb (sameString word) stopWords).

Definition extractKeyTerms (message : jsstring) : list jsstring :=
  take 10 (List.filter isKeyTerm (split (toLowerCase message))).

Definition calculateMessageRelevance
    (messageContent : jsstring) (keyTerms : list jsstring) : float :=
  let lowerContent := toLowerCase messageContent in
  let matches := List.filter (fun term => includes lowerContent term) keyTerms in
  (SelfImprovingAgents.number (length matches)
   / SelfImprovingAgents.number (length keyTerms))%float.

(** A message of the history with its [relevanceScore]. *)
Definition Scored : Type := Message * float.

Definition relevanceScore (m : Scored) : float := snd m.

(** [sort((a, b) => b.relevanceScore - a.relevanceScore)]: the sort is
    stable, so a row goes in front of the first row that does not score
    higher. *)
Fixpoint insertByScore (x : Scored) (l : list Scored) : list Scored :=
  match l with
  | [] => [x]
  | y :: r =>
    if (relevanceScore x <? relevanceScore y)%float
    then y :: insertByScore x r
    else x :: y :: r
  end.

Fixpoint sortByScore (l : list Scored) : list Scored :=
  match l with
  | [] => []
  | x :: r => insertByScore x (sortByScore r)
  end.

(** No entry scores lower than the one after it. *)
Definition notRising (a b : Scored) : Prop :=
  (relevanceScore a <? relevanceScore b)%float = false.

Definition getRelevantHistory (message : jsstring) (chatId : string)
    (s : Store) : list Scored :=
  let keyTerms := extractKeyTerms message in
  let relevantMessages :=
    take 50 (List.filter (fun m => String.eqb (chat_id m) chatId)
               (messages_table s)) in
  take 5
    (sortByScore
       (List.filter (fun m => (0.3 <? relevanceScore m)%float)
          (map (fun m => (m, calculateMessageRelevance (msg_content m) keyTerms))
             relevantMessages))).

(** [documents] is the [documents] table, as ids in the order of the
    query. *)
Definition findRelevantDocuments (documents : list string)
    (message : jsstring) (chatId : string) (s : Store) : list string :=
  match chats s !! chatId with
  | Some chat =>
    match document_ids chat with
    | [] => take 5 documents
    | ids => ids
    end
  | None => take 5 documents
  end.

(** [analyzeContextSwitch] with its two lookups reading the store. *)
Definition analyzeContextSwitchIn
    (getAgentsByRole : option (string -> list Agent)) (documents : list string)
    (s : Store) (now : Z) (message : jsstring) (chatId : string)
    (currentChatContext : option (ConversationContext Scored))
  : option (ContextSwitchResult Scored) :=
  analyzeContextSwitch getAgentsByRole
    (fun m c => findRelevantDocuments documents m c s)
    (fun m c => getRelevantHistory m c s)
    now message chatId currentChatContext.

End ContextLookups.

(** ** Auto-routing ([useAdvancedIntentClassification]) *)

Module SupportRouting.

(** A row of [support_tickets]. *)
Record SupportTicket := mkSupportTicket {
  ticket_chat_id : string;
  title : jsstring;
  description : jsstring;
  ticket_category : Category;
  ticket_row_priority : Priority;
  ticket_status : string;
  ticket_agent_id : option string;
  estimated_resolution_time : Z;
  requires_escalation : bool;
  metadata_intent : Intent;
  metadata_confidence : float;
  metadata_complexity : Complexity;
}.

(** A row of [agent_assignments]. *)
Record AgentAssignment := mkAssignment {
  assignment_chat_id : string;
  assignment_agent_id : string;
  assignment_reason : jsstring;
  assignment_status : string;
}.

(** The store with the two tables of the support automation, newest row
    first. *)
Record SupportStore := mkSupportStore {
  base : Store;
  support_tickets : list SupportTicket;
  agent_assignments : list AgentAssignment;
}.

Definition ellipsis : jsstring := utf16 "...".

(** [message.substring(0, 100) + (message.length > 100 ? '...' : '')]. *)
Definition titleOf (message : jsstring) : jsstring :=
  take 100 message ++ (if (100 <? length message)%nat then ellipsis else []).

Definition createSupportTicket
    (chatId : string) (message : jsstring) (intentResult : IntentResult)
    (classification : SupportTicketClassification) (st : SupportStore)
  : SupportStore :=
  mkSupportStore (base st)
    (mkSupportTicket chatId (titleOf message) message
       (category classification) (ticket_priority classification) "open"
       (suggestedAgentId intentResult)
       (estimatedResolutionTime classification)
       (requiresHumanEscalation classification)
       (intent intentResult) (confidence intentResult)
       (complexity classification)
     :: support_tickets st)
    (agent_assignments st).

Definition assignAgentToChat
    (chatId agentId : string) (reason : jsstring) (st : SupportStore)
  : SupportStore :=
  mkSupportStore
    (with_chats (base st)
       (alter (fun c => mkChat "support" [agentId] (document_ids c))
          chatId (chats (base st))))
    (support_tickets st)
    (mkAssignment chatId agentId reason "active" :: agent_assignments st).

(** [intentResult.intent.includes('support')]. *)
Definition mentionsSupport (i : Intent) : bool :=
  includes (utf16 (intent_name i)) (utf16 "support").

Record Routing := mkRouting {
  intentResult : IntentResult;
  ticketClassification : SupportTicketClassification;
  routedAutoResponse : option jsstring;
}.

(** [autoRouteMessage]; its [catch] logs and throws again, so an error of
    [classifyIntent] leaves the function before anything is written.  The
    second component is [None] then. *)
Definition autoRouteMessage
    (getAgentsByRole : option (string -> list Agent)) (message : jsstring)
    (chatId : string) (st : SupportStore) : SupportStore * option Routing :=
  match classifyIntent getAgentsByRole message with
  | None => (st, None)
  | Some intentResult =>
    let ticketClassification := classifySupportTicket message in
    let st1 :=
      if mentionsSupport (intent intentResult)
         || requiresHumanEscalation ticketClassification
      then createSupportTicket chatId message intentResult
             ticketClassification st
      else st in
    let st2 :=
      match suggestedAgentId intentResult with
      | Some agentId =>
        if String.eqb agentId "" then st1
        else assignAgentToChat chatId agentId (reasoning intentResult) st1
      | None => st1
      end in
    (st2, Some (mkRouting intentResult ticketClassification
                  (autoResponse intentResult)))
  end.

End SupportRouting.

(** ** Runs of operations *)

(** The operations of the edge function. *)
Definition isEdge (op : Operation) : bool :=
  match op with
  | EdgeStart _ _ | EdgeContinue _ _ | EdgeEnd _ => true
  | _ => false
  end.

(** The operations of [ops], one after the other. *)
Definition performAll (ops : list Operation) (s : Store) : Store :=
  fold_left (fun s op => perform op s) ops s.

(** ** More sample data *)

Module Scenario.

(** A message that makes [classifyIntent] look up agents, and one that it
    classifies as [general] while the ticket classification escalates. *)
Definition databaseMessage : jsstring :=
  utf16 "Помогите, ошибка 500 в базе данных, timeout при загрузке".

Definition billingMessage : jsstring :=
  utf16 "A critical billing question about my subscription".

(** What [classifyIntent] answers on its general branch. *)
Definition generalAnswer : IntentResult :=
  mkIntentResult general_intent 0.5 None (reasoningOf general_intent medium)
    medium false None.

Definition supportStore : SupportRouting.SupportStore :=
  SupportRouting.mkSupportStore Sample.store [] [].

(** A chat with three earlier messages, newest first. *)
Definition said (text : string) : Message :=
  mkMessage "chat-1" (utf16 "user") (utf16 text) "user" None "general" 0.5 0
    None "gpt-4o-mini" "text".

Definition historyStore : Store :=
  with_messages Sample.store
    [ said "Спасибо за помощь";
      said "Тарифы на хранение данных выросли";
      said "Какие тарифы действуют на хранение?" ].

Definition historyQuestion : jsstring :=
  utf16 "Помните,  что  вы  говорили про тарифы на хранение?".

(** A chat bound to two documents, and the documents table. *)
Definition documents : list string :=
  [ "doc-1"; "doc-2"; "doc-3"; "doc-4"; "doc-5"; "doc-6" ]%string.

Definition boundStore : Store :=
  with_chats historyStore
    {[ "chat-1"%string := mkChat "rag" [] ["doc-7"; "doc-8"]%string ]}.

Definition analyzeIn (s : Store) (now : Z) (message : string)
    (ctx : option (ConversationContext ContextLookups.Scored))
  : option (ContextSwitchResult ContextLookups.Scored) :=
  ContextLookups.analyzeContextSwitchIn UseAgents.getAgentsByRole documents s
    now (utf16 message) "chat-1" ctx.

(** The context after a switch to [rag] that found the bound documents,
    and a context of kind [history] an hour old. *)
Definition boundContext : ConversationContext ContextLookups.Scored :=
  mkContext "chat-1" rag ["doc-7"; "doc-8"]%string [] 0.85 Sample.t0.

Definition oldHistoryContext : ConversationContext ContextLookups.Scored :=
  mkContext "chat-1" history [] [] 0.8 (Sample.t0 - 3600000).

(** A message with a technical keyword on which [classifyIntent] looks up
    agents, and one with a technical keyword that it takes for a feature
    request. *)
Definition codeMessage : string := "В расчете ошибка в коде, посмотрите".
Definition featureMessage : string := "Нужна функция экспорта, feature request".

(** The agent of [Sample.store] once three corrections have improved it. *)
Definition improvedAgent : Agent :=
  default Sample.agentA
    (SelfImprovingAgents.getAgentById "agent-a"
       (Sample.afterThreeCorrections Sample.store)).

End Scenario.

(** * Proofs *)

Arguments utf16 : simpl never.
Arguments ofZ : simpl never.
Arguments MultiAgentChat.summaryOf : simpl never.
Arguments MultiAgentChat.generateAgentMessage : simpl never.
(** ** Substrings and keyword lists *)

Lemma startsWith_app (p rest : jsstring) : startsWith (p ++ rest) p = true.
Proof.
  induction p as [|c p IH]; simpl; [reflexivity|].
  rewrite N.eqb_refl. exact IH.
Qed.

Lemma includes_startsWith (s p : jsstring) :
  startsWith s p = true -> includes s p = true.
Proof. intros H. destruct s; simpl; rewrite H; reflexivity. Qed.

Lemma includes_app (pre p post : jsstring) :
  includes (pre ++ p ++ post) p = true.
Proof.
  induction pre as [|c pre IH].
  - change ([] ++ p ++ post) with (p ++ post).
    apply includes_startsWith, startsWith_app.
  - simpl. simpl in IH. rewrite IH. apply orb_true_r.
Qed.

Lemma startsWith_split (s p : jsstring) :
  startsWith s p = true -> exists post, s = p ++ post.
Proof.
  revert s. induction p as [|c p IH]; intros s H.
  - exists s. reflexivity.
  - destruct s as [|d s]; simpl in H; [discriminate|].
    apply andb_true_iff in H as [Hc Hp].
    apply N.eqb_eq in Hc. subst d.
    destruct (IH s Hp) as [post ->]. exists post. reflexivity.
Qed.

Lemma includes_split (s p : jsstring) :
  includes s p = true -> exists pre post, s = pre ++ p ++ post.
Proof.
  induction s as [|d s IH]; simpl; intros H.
  - rewrite orb_false_r in H. destruct (startsWith_split _ _ H) as [post E].
    exists [], post. exact E.
  - apply orb_true_iff in H as [H|H].
    + destruct (startsWith_split _ _ H) as [post E]. exists [], post. exact E.
    + destruct (IH H) as (pre & post & ->). exists (d :: pre), post. reflexivity.
Qed.

Lemma toLowerCase_app (a b : jsstring) :
  toLowerCase (a ++ b) = toLowerCase a ++ toLowerCase b.
Proof. apply flat_map_app. Qed.

(** A message mentions a keyword list when, lowered, it has one of the
    keywords as a substring. *)
Lemma someIncluded_true_iff (text : jsstring) (keywords : list jsstring) :
  someIncluded text keywords = true <->
  exists k pre post, In k keywords /\ text = pre ++ k ++ post.
Proof.
  unfold someIncluded. rewrite existsb_exists. split.
  - intros (k & Hin & Hk). destruct (includes_split _ _ Hk) as (pre & post & E).
    exists k, pre, post. auto.
  - intros (k & pre & post & Hin & ->). exists k. split; [exact Hin|].
    apply includes_app.
Qed.

Lemma someIncluded_occurrence (pre kw post : jsstring) (keywords : list jsstring) :
  In (toLowerCase kw) keywords ->
  someIncluded (toLowerCase (pre ++ kw ++ post)) keywords = true.
Proof.
  intros Hin. apply someIncluded_true_iff.
  exists (toLowerCase kw), (toLowerCase pre), (toLowerCase post).
  split; [exact Hin|]. rewrite !toLowerCase_app. reflexivity.
Qed.

Section Classification.

(** When [useAgents] does provide a lookup, the urgent rule, which is
    tested first, answers with priority [urgent] and an escalation. *)
Lemma classifyIntent_urgent_with_lookup
    (lookup : string -> list Agent) (message pre kw post : jsstring) :
  message = pre ++ kw ++ post ->
  In (toLowerCase kw) Patterns.urgentPatterns ->
  exists r,
    classifyIntent (Some lookup) message = Some r /\
    priority r = urgent /\ requiresEscalation r = true.
Proof.
  intros -> Hin. unfold classifyIntent.
  rewrite (someIncluded_occurrence _ _ _ _ Hin).
  eexists. split; [reflexivity|]. split; reflexivity.
Qed.

(** What [classifyIntent] does in the repository, where the lookup is
    undefined: it throws on every branch that looks up agents, and answers
    on the feature request and the general branch. *)
Lemma classifyIntent_without_lookup (message : jsstring) :
  classifyIntent UseAgents.getAgentsByRole message
  = if someIncluded (toLowerCase message) Patterns.urgentPatterns
       || someIncluded (toLowerCase message)
            (Patterns.technicalHigh ++ Patterns.technicalMedium
               ++ Patterns.technicalLow)
       || someIncluded (toLowerCase message) Patterns.documentPatterns
       || someIncluded (toLowerCase message) Patterns.researchPatterns
    then None
    else if someIncluded (toLowerCase message) Patterns.featurePatterns then
      Some (mkIntentResult feature_request 0.75 None
              (reasoningOf feature_request low) low false
              (Some (utf16 "Спасибо за предложение! Ваш запрос на новую функцию передан команде разработки для рассмотрения.")))
    else if someIncluded (toLowerCase message) Patterns.bugPatterns then None
    else
      Some (mkIntentResult general_intent 0.5 None
              (reasoningOf general_intent medium) medium false None).
Proof.
  unfold classifyIntent. cbv zeta.
  repeat match goal with
         | |- context [if someIncluded ?m ?l then _ else _] =>
             destruct (someIncluded m l)
         | |- context [someIncluded ?m ?l || _] =>
             destruct (someIncluded m l)
         end; reflexivity.
Qed.

(** A result of [classifyIntent] in the repository names no agent. *)
Lemma classifyIntent_suggests_nobody (message : jsstring) (r : IntentResult) :
  classifyIntent UseAgents.getAgentsByRole message = Some r ->
  suggestedAgentId r = None.
Proof.
  rewrite classifyIntent_without_lookup.
  repeat match goal with
         | |- context [if ?b then _ else _] => destruct b
         end; intros H; try discriminate H; injection H as <-; reflexivity.
Qed.

(** C5 (defect in the code): on a message in which an urgent pattern
    occurs, in whatever case, [classifyIntent] throws and answers nothing.
    The urgent rule is tested first and asks [getAgentsByRole] for the
    support agents, and [useAgents] provides no such function. *)
Theorem classifyIntent_urgent_throws (message pre kw post : jsstring) :
  message = pre ++ kw ++ post ->
  In (toLowerCase kw) Patterns.urgentPatterns ->
  classifyIntent UseAgents.getAgentsByRole message = None.
Proof.
  intros -> Hin. unfold classifyIntent.
  rewrite (someIncluded_occurrence _ _ _ _ Hin). reflexivity.
Qed.

End Classification.

Lemma classifyIntent_urgent_throws_witness :
  classifyIntent UseAgents.getAgentsByRole Sample.urgentMessage = None.
Proof.
  apply (classifyIntent_urgent_throws Sample.urgentMessage
           (utf16 "Это ") (utf16 "СРОЧНО")
           (utf16 ": файл pdf не открывается, ошибка 500")).
  - vm_compute. reflexivity.
  - vm_compute. do 7 right. left. reflexivity.
Defined.

Lemma ticketBase_not_urgent (lowerMessage : jsstring) :
  ticket_priority (ticketBase lowerMessage) <> urgent /\
  (requiresHumanEscalation (ticketBase lowerMessage) = true <->
   ticket_priority (ticketBase lowerMessage) = high).
Proof.
  unfold ticketBase.
  repeat match goal with
         | |- context [if someIncluded ?m ?l then _ else _] =>
             destruct (someIncluded m l)
         end; simpl; (split; [discriminate | split; discriminate || reflexivity]).
Qed.

(** C10: [classifySupportTicket] never returns priority [high], and it
    asks for human escalation exactly when the priority it returns is
    [urgent]. *)
Theorem classifySupportTicket_priority_escalation (message : jsstring) :
  ticket_priority (classifySupportTicket message) <> high /\
  (requiresHumanEscalation (classifySupportTicket message) = true <->
   ticket_priority (classifySupportTicket message) = urgent).
Proof.
  unfold classifySupportTicket. cbv zeta.
  destruct (ticketBase_not_urgent (toLowerCase message)) as [Hnu Hesc].
  set (t := ticketBase (toLowerCase message)) in *.
  set (e := someIncluded (toLowerCase message) Patterns.ticketEscalation).
  destruct (isHigh (ticket_priority t)) eqn:Hh; destruct e;
    cbn [orb ticket_priority requiresHumanEscalation];
    try (split; [discriminate | split; reflexivity]).
  split.
  - intros E. rewrite E in Hh. discriminate.
  - rewrite Hesc. split; intros E.
    + rewrite E in Hh. discriminate.
    + contradiction.
Qed.

(** C3 (defect in the code): the ticket for this message is technical, but
    with priority [low] and no escalation.  The escalation list holds the
    masculine form of the Russian adjective, which is no substring of the
    feminine form that the message (and the urgent pattern of
    [classifyIntent]) uses. *)
Theorem classifySupportTicket_critical_error :
  classifySupportTicket (utf16 "критическая ошибка, система не работает")
  = mkTicket technical low simple 15 false.
Proof. vm_compute. reflexivity. Qed.

(** The urgent rule of the sibling classifier does fire on the same
    message. *)
Lemma classifyIntent_critical_error :
  someIncluded
    (toLowerCase (utf16 "критическая ошибка, система не работает"))
    Patterns.urgentPatterns = true.
Proof. vm_compute. reflexivity. Qed.
(** ** The store *)

Lemma stateOf_updateConversationState (id : N) (st : ConversationState) (s : Store) :
  is_Some (agent_conversations s !! id) ->
  stateOf (updateConversationState id st s) id = Some st.
Proof.
  intros [c Hc]. unfold stateOf, updateConversationState. simpl.
  rewrite lookup_alter_eq, Hc. reflexivity.
Qed.

Lemma stateOf_updateConversationState_ne (id j : N) (st : ConversationState) (s : Store) :
  id <> j ->
  stateOf (updateConversationState id st s) j = stateOf s j.
Proof.
  intros Hne. unfold stateOf, updateConversationState. simpl.
  rewrite lookup_alter_ne by exact Hne. reflexivity.
Qed.

Lemma stateOf_Some (s : Store) (id : N) (c : AgentConversation) :
  agent_conversations s !! id = Some c ->
  stateOf s id = Some (conversation_state c).
Proof. intros H. unfold stateOf. rewrite H. reflexivity. Qed.

Module MultiAgentChatFacts.
Import MultiAgentChat.

Lemma stateOf_insertMessage (m : Message) (s : Store) (id : N) :
  stateOf (insertMessage m s) id = stateOf s id.
Proof. reflexivity. Qed.

(** *** [start] *)

Lemma start_invalid_input (now : Z) (req : StartRequest) (s : Store) :
  match agentIds req with
  | Some ids => (length ids < 2)%nat
  | None => True
  end ->
  startMultiAgentConversation now req s = (s, invalidInput).
Proof.
  unfold startMultiAgentConversation. destruct (agentIds req) as [ids|]; [|reflexivity].
  intros Hlen. apply Nat.ltb_lt in Hlen. rewrite Hlen, orb_true_r. reflexivity.
Qed.

Lemma start_success (now : Z) (req : StartRequest) (s s' : Store) (r : Response) :
  startMultiAgentConversation now req s = (s', r) ->
  isSuccess r = true ->
  exists ids first second_ rest,
    agentIds req = Some ids /\ (2 <= length ids)%nat /\
    agentsIn ids s = first :: second_ :: rest /\
    agent_conversations s !! fresh (dom (agent_conversations s)) = None /\
    r = StartResponse (fresh (dom (agent_conversations s)))
          (generateAgentMessage first (start_topic req) [] 0)
          (Some (agent_id second_)) 1 /\
    stateOf s' (fresh (dom (agent_conversations s)))
      = Some (mkState 0 (default 5 (start_maxTurns req)) (Some ids) None
                (start_topic req) active []) /\
    (forall j, j <> fresh (dom (agent_conversations s)) ->
               agent_conversations s' !! j = agent_conversations s !! j) /\
    messages_table s'
      = agentMessageRow (chatId req) first
          (generateAgentMessage first (start_topic req) [] 0)
          (fresh (dom (agent_conversations s))) :: messages_table s.
Proof.
  unfold startMultiAgentConversation.
  destruct (agentIds req) as [ids|]; [|intros [= <- <-]; discriminate].
  destruct (String.eqb (chatId req) "" || (length ids <? 2)%nat) eqn:Hguard;
    [intros [= <- <-]; discriminate|].
  apply orb_false_iff in Hguard as [_ Hlen]. apply Nat.ltb_ge in Hlen.
  destruct (length (agentsIn ids s) =? length ids)%nat eqn:Hfound; simpl;
    [|intros [= <- <-]; discriminate].
  apply Nat.eqb_eq in Hfound.
  destruct (agentsIn ids s) as [|first [|second_ rest]] eqn:Hagents;
    simpl in Hfound; try lia.
  intros [= <- <-] _.
  exists ids, first, second_, rest. repeat split; try assumption.
  - apply not_elem_of_dom, is_fresh.
  - unfold stateOf. simpl. rewrite lookup_insert_eq. reflexivity.
  - intros j Hj. simpl. rewrite lookup_insert_ne by congruence. reflexivity.
Qed.

(** *** [continue] *)

Lemma continue_error (now : Z) (req : ContinueRequest) (s s' : Store) (r : Response) :
  continueConversation now req s = (s', r) ->
  isSuccess r = false -> s' = s.
Proof.
  unfold continueConversation.
  destruct (agent_conversations s !! conversationId req) as [c|];
    [|intros [= <- <-]; reflexivity].
  destruct (_ || _); [intros [= <- <-]; reflexivity|].
  destruct (agents (conversation_state c)) as [l|];
    [|intros [= <- <-]; reflexivity].
  destruct (_ ≫= _) as [a|]; [|intros [= <- <-]; reflexivity].
  intros [= <- <-]. discriminate.
Qed.

Lemma agentById_id (id : string) (s : Store) (a : Agent) :
  agentById id s = Some a -> agent_id a = id.
Proof.
  unfold agentById. intros H. apply find_some in H as [_ H].
  apply String.eqb_eq in H. exact H.
Qed.

Lemma continue_success (now : Z) (req : ContinueRequest) (s s' : Store) (r : Response) :
  continueConversation now req s = (s', r) ->
  isSuccess r = true ->
  exists c l a text,
    agent_conversations s !! conversationId req = Some c /\
    currentTurn (conversation_state c) < maxTurns (conversation_state c) /\
    status (conversation_state c) = active /\
    agents (conversation_state c) = Some l /\
    agentAtTurn l (currentTurn (conversation_state c)) = Some (agent_id a) /\
    stateOf s' (conversationId req)
      = Some (mkState (currentTurn (conversation_state c) + 1)
                (maxTurns (conversation_state c)) (Some l)
                (participants (conversation_state c))
                (topic (conversation_state c)) active
                (messages (conversation_state c)
                   ++ [mkTurn (agent_id a) (Some (agent_name a)) text now])) /\
    (forall j, conversationId req <> j -> stateOf s' j = stateOf s j) /\
    messages_table s'
      = agentMessageRow (continue_chatId req) a text (conversationId req)
          :: messages_table s.
Proof.
  unfold continueConversation.
  destruct (agent_conversations s !! conversationId req) as [c|] eqn:Hc;
    [|intros [= <- <-]; discriminate].
  destruct (_ || _) eqn:Hguard; [intros [= <- <-]; discriminate|].
  apply orb_false_iff in Hguard as [Hturn Hact].
  apply Z.leb_gt in Hturn. apply negb_false_iff in Hact.
  assert (Hst : status (conversation_state c) = active)
    by (destruct (status (conversation_state c)); try discriminate; reflexivity).
  destruct (agents (conversation_state c)) as [l|] eqn:Hl;
    [|intros [= <- <-]; discriminate].
  destruct (agentAtTurn l (currentTurn (conversation_state c))) as [aid|] eqn:Hat;
    simpl; [|intros [= <- <-]; discriminate].
  destruct (agentById aid s) as [a|] eqn:Ha; [|intros [= <- <-]; discriminate].
  intros [= <- <-] _.
  exists c, l, a. eexists. repeat split; try eassumption.
  - rewrite (agentById_id _ _ _ Ha). exact Hat.
  - rewrite stateOf_updateConversationState.
    + rewrite Hst. reflexivity.
    + simpl. rewrite Hc. eauto.
  - intros j Hj. rewrite stateOf_updateConversationState_ne by exact Hj.
    reflexivity.
Qed.

Lemma continue_not_active (now : Z) (req : ContinueRequest) (s : Store)
    (st : ConversationState) :
  stateOf s (conversationId req) = Some st ->
  maxTurns st <= currentTurn st \/ status st <> active ->
  continueConversation now req s = (s, notActive).
Proof.
  unfold stateOf, continueConversation.
  destruct (agent_conversations s !! conversationId req) as [c|]; [|discriminate].
  intros [= <-] Hor.
  replace (_ || _) with true; [reflexivity|].
  symmetry. apply orb_true_iff. destruct Hor as [H|H].
  - left. apply Z.leb_le. exact H.
  - right. destruct (status (conversation_state c)); try reflexivity.
    contradiction H. reflexivity.
Qed.

Lemma continued_state (id : N) (n : nat) (s s' : Store) :
  continued id n s s' ->
  forall st, stateOf s id = Some st ->
  exists st',
    stateOf s' id = Some st' /\
    currentTurn st' = currentTurn st + Z.of_nat n /\
    maxTurns st' = maxTurns st /\
    status st' = status st /\
    agents st' = agents st.
Proof.
  induction 1 as [s|n now req s s1 s2 r Hid Hstep Hok Hrest IH]; intros st Hst.
  - exists st. repeat split; [exact Hst|lia].
  - destruct (continue_success _ _ _ _ _ Hstep Hok)
      as (c & l & a & text & Hc & Hturn & Hact & Hl & _ & Hs1 & _).
    rewrite Hid in *. rewrite (stateOf_Some _ _ _ Hc) in Hst.
    injection Hst as <-.
    destruct (IH _ Hs1) as (st' & Hst' & Ht & Hm & Hstat & Hag).
    simpl in *. exists st'. repeat split; try assumption; try congruence. lia.
Qed.

End MultiAgentChatFacts.

Module MultiAgentChatEnd.
Import MultiAgentChat MultiAgentChatFacts.

(** *** [end] *)

Lemma conversations_insertMessage (m : Message) (s : Store) :
  agent_conversations (insertMessage m s) = agent_conversations s.
Proof. reflexivity. Qed.

Lemma conversations_updateConversationState
    (id : N) (st : ConversationState) (s : Store) :
  agent_conversations (updateConversationState id st s)
  = alter (fun c => mkConv (conv_chat_id c) (agent_ids c) st (row_status c)
                      (updated_at c))
      id (agent_conversations s).
Proof. reflexivity. Qed.

Lemma end_found (id : N) (s : Store) (c : AgentConversation) :
  agent_conversations s !! id = Some c ->
  endConversation id s
  = (insertMessage
       (mkMessage (conv_chat_id c) (utf16 "System")
          (summaryOf (conversation_state c)) "assistant" None
          "conversation_summary" 1.0 id (Some "summary"%string)
          "gpt-4o-mini" "text")
       (updateConversationState id
          (mkState (currentTurn (conversation_state c))
             (maxTurns (conversation_state c)) (agents (conversation_state c))
             (participants (conversation_state c))
             (topic (conversation_state c)) completed
             (messages (conversation_state c))) s),
     EndResponse (summaryOf (conversation_state c))
       (currentTurn (conversation_state c))
       (Z.of_nat (length (messages (conversation_state c))))).
Proof. intros H. unfold endConversation. rewrite H. reflexivity. Qed.

Lemma end_missing (id : N) (s : Store) :
  agent_conversations s !! id = None ->
  endConversation id s = (s, ErrorResponse 404 "Conversation not found").
Proof. intros H. unfold endConversation. rewrite H. reflexivity. Qed.

Lemma summaryOf_ext (st st' : ConversationState) :
  messages st = messages st' -> topic st = topic st' ->
  summaryOf st = summaryOf st'.
Proof. unfold summaryOf. intros -> ->. reflexivity. Qed.

(** *** Status transitions *)

Lemma fresh_row_differs (s : Store) (id : N) (c : AgentConversation) :
  agent_conversations s !! id = Some c ->
  fresh (dom (agent_conversations s)) <> id.
Proof.
  intros Hc E. pose proof (is_fresh (dom (agent_conversations s))) as Hf.
  apply not_elem_of_dom in Hf. rewrite E, Hc in Hf. discriminate.
Qed.

Lemma start_keeps_rows (now : Z) (req : StartRequest) (s : Store) (id : N)
    (c : AgentConversation) :
  agent_conversations s !! id = Some c ->
  agent_conversations (fst (startMultiAgentConversation now req s)) !! id
  = Some c.
Proof.
  intros Hc. pose proof (fresh_row_differs s id c Hc) as Hne.
  unfold startMultiAgentConversation.
  destruct (agentIds req) as [ids|]; [|exact Hc].
  destruct (_ || _); [exact Hc|].
  destruct (negb _); [exact Hc|].
  destruct (agentsIn ids s) as [|first rest]; cbn [fst];
    unfold insertMessage, with_messages, with_chats, with_conversations;
    cbn [agent_conversations];
    rewrite lookup_insert_ne by exact Hne; exact Hc.
Qed.

Lemma continue_keeps_status (now : Z) (req : ContinueRequest) (s : Store)
    (id : N) (c : AgentConversation) :
  agent_conversations s !! id = Some c ->
  exists c',
    agent_conversations (fst (continueConversation now req s)) !! id = Some c' /\
    status (conversation_state c') = status (conversation_state c) /\
    row_status c' = row_status c.
Proof.
  intros Hc. unfold continueConversation.
  destruct (agent_conversations s !! conversationId req) as [c0|] eqn:Hc0;
    [|exists c; split; [exact Hc|split; reflexivity]].
  destruct (_ || _); [exists c; split; [exact Hc|split; reflexivity]|].
  destruct (agents (conversation_state c0)) as [l|];
    [|exists c; split; [exact Hc|split; reflexivity]].
  destruct (_ ≫= _) as [a|];
    [|exists c; split; [exact Hc|split; reflexivity]].
  cbn [fst]. rewrite conversations_updateConversationState,
    conversations_insertMessage.
  destruct (decide (conversationId req = id)) as [E|Hne].
  - subst id. rewrite lookup_alter_eq, Hc. cbn [fmap option_fmap option_map].
    eexists. split; [reflexivity|]. cbn [conversation_state status row_status].
    rewrite Hc in Hc0. injection Hc0 as <-. split; reflexivity.
  - rewrite lookup_alter_ne by exact Hne.
    exists c; split; [exact Hc|split; reflexivity].
Qed.

Lemma end_completes (target : N) (s : Store) (id : N) (c : AgentConversation) :
  agent_conversations s !! id = Some c ->
  exists c',
    agent_conversations (fst (endConversation target s)) !! id = Some c' /\
    status (conversation_state c')
      = (if decide (target = id) then completed
         else status (conversation_state c)) /\
    row_status c' = row_status c.
Proof.
  intros Hc. destruct (agent_conversations s !! target) as [c0|] eqn:Hc0.
  - rewrite (end_found _ _ _ Hc0). cbn [fst].
    rewrite conversations_insertMessage, conversations_updateConversationState.
    destruct (decide (target = id)) as [E|Hne].
    + subst id. rewrite lookup_alter_eq, Hc. cbn [fmap option_fmap option_map].
      eexists. split; [reflexivity|]. split; reflexivity.
    + rewrite lookup_alter_ne by exact Hne.
      exists c; split; [exact Hc|split; reflexivity].
  - rewrite (end_missing _ _ Hc0). cbn [fst].
    destruct (decide (target = id)) as [E|Hne].
    + subst id. rewrite Hc in Hc0. discriminate.
    + exists c; split; [exact Hc|split; reflexivity].
Qed.

End MultiAgentChatEnd.

Module UseMultiAgentChatFacts.
Import UseMultiAgentChat.

Lemma start_hook_keeps_rows (now : Z) (chatId : string)
    (agentIds : list string) (topic : jsstring) (maxTurns : option Z)
    (s : Store) (id : N) (c : AgentConversation) :
  agent_conversations s !! id = Some c ->
  agent_conversations
    (fst (startAgentConversation now chatId agentIds topic maxTurns s)) !! id
  = Some c.
Proof.
  intros Hc. pose proof (MultiAgentChatEnd.fresh_row_differs s id c Hc) as Hne.
  unfold startAgentConversation.
  destruct (session_user s); [|exact Hc].
  destruct (_ || _); [exact Hc|].
  cbn [fst]. unfold with_conversations. cbn [agent_conversations].
  rewrite lookup_insert_ne by exact Hne. exact Hc.
Qed.

Lemma end_hook_completes (now : Z) (target : N) (s : Store) (id : N)
    (c : AgentConversation) :
  agent_conversations s !! id = Some c ->
  exists c',
    agent_conversations (fst (endConversation now target s)) !! id = Some c' /\
    conversation_state c' = conversation_state c /\
    row_status c'
      = (if decide (target = id) then completed else row_status c).
Proof.
  intros Hc. unfold endConversation. cbn [fst].
  unfold with_conversations. cbn [agent_conversations].
  destruct (decide (target = id)) as [E|Hne].
  - subst id. rewrite lookup_alter_eq, Hc. cbn [fmap option_fmap option_map].
    eexists. split; [reflexivity|]. split; reflexivity.
  - rewrite lookup_alter_ne by exact Hne.
    exists c; split; [exact Hc|split; reflexivity].
Qed.

End UseMultiAgentChatFacts.

(** ** The multi-agent conversation *)

Section MultiAgentClaims.
Import MultiAgentChat MultiAgentChatFacts MultiAgentChatEnd.

Lemma continueTimes_continued (n : nat) (now : Z) (chat : string) (id : N)
    (s : Store) :
  continuesSucceed n now chat id s = true ->
  continued id n s (continueTimes n now chat id s).
Proof.
  revert now s. induction n as [|n IH]; intros now s H.
  - constructor.
  - cbn [continuesSucceed] in H. apply andb_true_iff in H as [Hok Hrest].
    cbn [continueTimes].
    eapply continued_S with (req := mkContinue chat id) (now := now);
      [reflexivity | apply surjective_pairing | exact Hok | apply IH, Hrest].
Qed.

(** C1 (defect in the code): for agentIds = [A; B; C] the opening message
    of [start] and the five [continue] calls that follow are spoken by
    A, A, B, C, A, B.  [start] speaks for the first agent but stores
    [currentTurn = 0], so the first [continue] picks the first agent again. *)
Theorem speakers_after_start_and_five_turns :
  speakers (Sample.afterTurns Sample.startThree 5)
  = [ Some "agent-a"; Some "agent-a"; Some "agent-b"; Some "agent-c";
      Some "agent-a"; Some "agent-b" ]%string.
Proof. vm_compute. reflexivity. Qed.

(** What [start] announces and what it stores disagree: the response names
    the second agent as next speaker at turn 1, the stored state is at turn
    0, and the [continue] call that follows speaks for the first agent id. *)
Lemma start_announces_second_but_first_speaks_again
    (now now' : Z) (req : StartRequest) (creq : ContinueRequest)
    (s s1 s2 : Store) (id : N) (text : jsstring) (next : option string)
    (t : Z) (r2 : Response) :
  startMultiAgentConversation now req s = (s1, StartResponse id text next t) ->
  conversationId creq = id ->
  continueConversation now' creq s1 = (s2, r2) ->
  isSuccess r2 = true ->
  exists first second_ rest st2,
    agentIds req = Some (first :: second_ :: rest) /\
    t = 1 /\
    (currentTurn <$> stateOf s1 id) = Some 0 /\
    stateOf s2 id = Some st2 /\
    map agentId (messages st2) = [first].
Proof.
  intros Hstart Hid Hcont Hok.
  destruct (start_success _ _ _ _ _ Hstart eq_refl)
    as (ids & a1 & a2 & found & Hids & Hlen & _ & _ & Hr & Hst & _).
  injection Hr as -> _ _ ->.
  destruct (continue_success _ _ _ _ _ Hcont Hok)
    as (c & l & a & txt & Hc & _ & _ & Hl & Hat & Hs2 & _).
  rewrite Hid in *.
  rewrite (stateOf_Some _ _ _ Hc) in Hst. injection Hst as Hst.
  rewrite Hst in Hl, Hat, Hs2. cbn [agents currentTurn messages] in *.
  injection Hl as <-.
  destruct ids as [|i1 [|i2 ids]]; cbn [length] in Hlen; try lia.
  exists i1, i2, ids. eexists. split; [exact Hids|]. split; [reflexivity|].
  split; [rewrite (stateOf_Some _ _ _ Hc), Hst; reflexivity|].
  split; [exact Hs2|].
  cbn [messages app map agentId].
  unfold agentAtTurn, at_index in Hat. cbn in Hat.
  injection Hat as <-. reflexivity.
Qed.

(** C2 (defect in the code): after [start] with two agents and the
    default [maxTurns = 5], five successful [continue] calls leave the
    conversation at turn 5 with status [active], not [completed].  The
    [continue] of the edge function copies the status into the state it
    writes; [continueConversation] of the hook sets [completed] once the
    turn count has reached [maxTurns]. *)
Theorem five_turns_leave_status_active :
  continuesSucceed 5 (Sample.t0 + 1000) "chat-1" Sample.conversation
    (Sample.started Sample.startTwo) = true /\
  (currentTurn <$> stateOf (Sample.afterTurns Sample.startTwo 5)
                     Sample.conversation) = Some 5 /\
  (status <$> stateOf (Sample.afterTurns Sample.startTwo 5)
                Sample.conversation) = Some active.
Proof. vm_compute. repeat split; reflexivity. Qed.

(** The guard of [start] and the turn bound of [continue]: [start] with
    fewer than two agent ids (or none) answers 400 [invalidInput] and
    returns the store as it was.  After a [start] with exactly two agents
    and [maxTurns = 5], five successful [continue] calls bring the
    conversation to turn 5, with the status that [start] gave it; any sixth
    call answers 400 [notActive] and returns the store as it was. *)
Lemma start_guard_and_turn_bound :
  (forall (now : Z) (req : StartRequest) (s : Store),
     match agentIds req with
     | Some ids => (length ids < 2)%nat
     | None => True
     end ->
     startMultiAgentConversation now req s = (s, invalidInput))
  /\
  (forall (now : Z) (req : StartRequest) (s0 s1 s6 : Store) (a b : string)
          (id : N) (text : jsstring) (next : option string) (t : Z),
     agentIds req = Some [a; b] ->
     default 5 (start_maxTurns req) = 5 ->
     startMultiAgentConversation now req s0
       = (s1, StartResponse id text next t) ->
     continued id 5 s1 s6 ->
     (exists st,
        stateOf s6 id = Some st /\ currentTurn st = 5 /\ maxTurns st = 5 /\
        status st = active) /\
     (forall (now' : Z) (req' : ContinueRequest),
        conversationId req' = id ->
        continueConversation now' req' s6 = (s6, notActive))).
Proof.
  split.
  - exact start_invalid_input.
  - intros now req s0 s1 s6 a b id text next t Hids Hmax Hstart Hrun.
    destruct (start_success _ _ _ _ _ Hstart eq_refl)
      as (ids & a1 & a2 & found & _ & _ & _ & _ & Hr & Hst & _).
    injection Hr as -> _ _ _.
    destruct (continued_state _ _ _ _ Hrun _ Hst)
      as (st & Hst6 & Hturn & Hm & Hstat & _).
    cbn [currentTurn maxTurns status] in Hturn, Hm, Hstat.
    rewrite Hmax in Hm.
    split.
    + exists st. split; [exact Hst6|]. split; [lia|]. split; assumption.
    + intros now' req' Hreq.
      apply (continue_not_active now' req' s6 st).
      * rewrite Hreq. exact Hst6.
      * left. lia.
Qed.

Lemma start_guard_and_turn_bound_witness :
  startMultiAgentConversation Sample.t0 Sample.startOne Sample.store
    = (Sample.store, invalidInput)
  /\
  ((exists st,
      stateOf (Sample.afterTurns Sample.startTwo 5) Sample.conversation
        = Some st /\
      currentTurn st = 5 /\ maxTurns st = 5 /\ status st = active) /\
   (forall (now' : Z) (req' : ContinueRequest),
      conversationId req' = Sample.conversation ->
      continueConversation now' req' (Sample.afterTurns Sample.startTwo 5)
        = (Sample.afterTurns Sample.startTwo 5, notActive))).
Proof.
  split.
  - apply (proj1 start_guard_and_turn_bound). cbn. lia.
  - apply (proj2 start_guard_and_turn_bound Sample.t0 Sample.startTwo
             Sample.store (Sample.started Sample.startTwo)
             (Sample.afterTurns Sample.startTwo 5) "agent-a" "agent-b"
             Sample.conversation
             (generateAgentMessage Sample.agentA (utf16 "AI Research") [] 0)
             (Some "agent-b"%string) 1).
    + reflexivity.
    + reflexivity.
    + vm_compute. reflexivity.
    + apply continueTimes_continued. vm_compute. reflexivity.
Defined.

(** C8: ending a conversation twice reports the same summary text, turn
    count and message count both times, the second call succeeds, and it
    leaves [agent_conversations] (so the conversation state) exactly as the
    first call left it. *)
Theorem endConversation_idempotent (id : N) (s : Store) :
  is_Some (agent_conversations s !! id) ->
  exists summary turns total,
    snd (endConversation id s) = EndResponse summary turns total /\
    snd (endConversation id (fst (endConversation id s)))
      = EndResponse summary turns total /\
    agent_conversations (fst (endConversation id (fst (endConversation id s))))
      = agent_conversations (fst (endConversation id s)).
Proof.
  intros [c Hc]. rewrite (end_found _ _ _ Hc). cbn [fst snd].
  set (final := mkState _ _ _ _ _ completed _).
  set (s1 := insertMessage _ _).
  assert (Hc1 : agent_conversations s1 !! id
                = Some (mkConv (conv_chat_id c) (agent_ids c) final
                          (row_status c) (updated_at c))).
  { subst s1. rewrite conversations_insertMessage,
      conversations_updateConversationState, lookup_alter_eq, Hc. reflexivity. }
  rewrite (end_found _ _ _ Hc1). cbn [fst snd conversation_state].
  exists (summaryOf (conversation_state c)), (currentTurn (conversation_state c)),
    (Z.of_nat (length (messages (conversation_state c)))).
  split; [reflexivity|]. split.
  - rewrite (summaryOf_ext final (conversation_state c) eq_refl eq_refl).
    reflexivity.
  - rewrite conversations_insertMessage, conversations_updateConversationState.
    apply alter_id. intros x Hx. rewrite Hc1 in Hx. injection Hx as <-.
    reflexivity.
Qed.

Lemma endConversation_idempotent_witness :
  exists summary turns total,
    snd (endConversation Sample.conversation
           (Sample.afterTurns Sample.startTwo 2))
      = EndResponse summary turns total /\
    snd (endConversation Sample.conversation
           (fst (endConversation Sample.conversation
                   (Sample.afterTurns Sample.startTwo 2))))
      = EndResponse summary turns total /\
    agent_conversations
      (fst (endConversation Sample.conversation
              (fst (endConversation Sample.conversation
                      (Sample.afterTurns Sample.startTwo 2)))))
      = agent_conversations
          (fst (endConversation Sample.conversation
                  (Sample.afterTurns Sample.startTwo 2))).
Proof.
  apply (endConversation_idempotent Sample.conversation
           (Sample.afterTurns Sample.startTwo 2)).
  eexists. vm_compute. reflexivity.
Defined.

(** C7, as stated, fails on the code: [end] moves a cancelled
    conversation to [completed], in the hook (the row's status column) and
    in the edge function (the status inside [conversation_state]). *)
Lemma cancelled_conversation_gets_completed :
  UseMultiAgentChat.getConversationStatus 7 Sample.cancelledStore
    = Some cancelled /\
  UseMultiAgentChat.getConversationStatus 7
    (perform (HookEnd (Sample.t0 + 60000) 7) Sample.cancelledStore)
    = Some completed /\
  (status <$> stateOf Sample.cancelledStore 7) = Some cancelled /\
  (status <$> stateOf (perform (EdgeEnd 7) Sample.cancelledStore) 7)
    = Some completed.
Proof. vm_compute. repeat split; reflexivity. Qed.

(** C7 (amended): a conversation carries its status twice, inside
    [conversation_state] (the status that the edge function reads and
    writes) and in the status column of its row (the one that the hook's
    [getConversationStatus] reads).  For each of the two separately: an
    operation other than the hook's [continueConversation] leaves it as it
    is or sets it to [completed]; so none of them moves it out of
    [completed], and none produces [paused] or [cancelled].  The edge
    function's [continue] rejects every conversation whose status inside
    [conversation_state] is not [active] and returns the store as it was.
    The edge function's [end] sets the status inside [conversation_state]
    to [completed] and leaves the status column as it is; [endConversation]
    of the hook sets the status column to [completed] and leaves
    [conversation_state] as it is; both do so whatever the value was,
    [cancelled] and [paused] included. *)
Theorem status_moves_only_to_completed :
  (forall (op : Operation) (s : Store) (id : N) (c : AgentConversation),
     isHookContinue op = false ->
     agent_conversations s !! id = Some c ->
     exists c',
       agent_conversations (perform op s) !! id = Some c' /\
       (status (conversation_state c') = status (conversation_state c)
        \/ status (conversation_state c') = completed) /\
       (row_status c' = row_status c \/ row_status c' = completed))
  /\
  (forall (now : Z) (req : ContinueRequest) (s : Store) (st : ConversationState),
     stateOf s (conversationId req) = Some st ->
     status st <> active ->
     continueConversation now req s = (s, notActive))
  /\
  (forall (now : Z) (id : N) (s : Store) (c : AgentConversation),
     agent_conversations s !! id = Some c ->
     (exists c',
        agent_conversations (perform (EdgeEnd id) s) !! id = Some c' /\
        status (conversation_state c') = completed /\
        row_status c' = row_status c) /\
     (exists c',
        agent_conversations (perform (HookEnd now id) s) !! id = Some c' /\
        row_status c' = completed /\
        conversation_state c' = conversation_state c)).
Proof.
  split; [|split].
  - intros op s id c Hop Hc. destruct op; try discriminate Hop; cbn [perform].
    + exists c. split; [apply start_keeps_rows, Hc|]. split; left; reflexivity.
    + destruct (continue_keeps_status now req s id c Hc) as (c' & H1 & H2 & H3).
      exists c'. split; [exact H1|]. split; left; assumption.
    + destruct (end_completes id0 s id c Hc) as (c' & H1 & H2 & H3).
      exists c'. split; [exact H1|]. split; [|left; exact H3].
      destruct (decide (id0 = id)); [right|left]; exact H2.
    + exists c. split; [apply UseMultiAgentChatFacts.start_hook_keeps_rows, Hc|].
      split; left; reflexivity.
    + destruct (UseMultiAgentChatFacts.end_hook_completes now id0 s id c Hc)
        as (c' & H1 & H2 & H3).
      exists c'. split; [exact H1|]. split; [left; rewrite H2; reflexivity|].
      destruct (decide (id0 = id)); [right|left]; exact H3.
  - intros now req s st Hst Hne.
    apply (continue_not_active now req s st Hst). right. exact Hne.
  - intros now id s c Hc. split.
    + destruct (end_completes id s id c Hc) as (c' & H1 & H2 & H3).
      exists c'. cbn [perform]. split; [exact H1|]. split; [|exact H3].
      rewrite H2. destruct (decide (id = id)) as [_|Hn];
        [reflexivity|contradiction].
    + destruct (UseMultiAgentChatFacts.end_hook_completes now id s id c Hc)
        as (c' & H1 & H2 & H3).
      exists c'. cbn [perform]. split; [exact H1|]. split; [|exact H2].
      rewrite H3. destruct (decide (id = id)) as [_|Hn];
        [reflexivity|contradiction].
Qed.

Lemma status_moves_only_to_completed_witness :
  (exists c',
     agent_conversations (perform (EdgeEnd 7) Sample.cancelledStore) !! 7%N
       = Some c' /\
     (status (conversation_state c') = cancelled
      \/ status (conversation_state c') = completed) /\
     (row_status c' = cancelled \/ row_status c' = completed))
  /\
  continueConversation Sample.t0 (mkContinue "chat-1" 7) Sample.cancelledStore
    = (Sample.cancelledStore, notActive)
  /\
  (exists c',
     agent_conversations
       (perform (HookEnd (Sample.t0 + 60000) 7) Sample.cancelledStore) !! 7%N
       = Some c' /\
     row_status c' = completed /\
     conversation_state c' = Sample.cancelledState).
Proof.
  destruct status_moves_only_to_completed as (Hstep & Hreject & Hend).
  split; [|split].
  - apply (Hstep (EdgeEnd 7) Sample.cancelledStore 7%N
             (mkConv "chat-1" ["agent-a"; "agent-b"]%string
                Sample.cancelledState cancelled Sample.t0)).
    + reflexivity.
    + vm_compute. reflexivity.
  - apply (Hreject Sample.t0 (mkContinue "chat-1" 7) Sample.cancelledStore
             Sample.cancelledState).
    + vm_compute. reflexivity.
    + discriminate.
  - apply (Hend (Sample.t0 + 60000) 7%N Sample.cancelledStore
             (mkConv "chat-1" ["agent-a"; "agent-b"]%string
                Sample.cancelledState cancelled Sample.t0)).
    vm_compute. reflexivity.
Defined.

End MultiAgentClaims.

(** ** Context switching *)

Section ContextSwitchingFacts.

Context {HistoryEntry : Type}.
Variable getAgentsByRole : option (string -> list Agent).
Variable findRelevantDocuments : jsstring -> string -> list string.
Variable getRelevantHistory : jsstring -> string -> list HistoryEntry.

(** The score falls below the threshold of 0.6 exactly when the context
    is degraded: the 0.2 that a recent switch adds is overwritten by the
    0.4 and 0.5 of a degraded context and cannot lift 0.7 any further
    above the threshold. *)
Lemma effectiveness_below_threshold
    (now : Z) (ctx : ConversationContext HistoryEntry) (message : jsstring) :
  (score (analyzeCurrentContextEffectiveness now ctx message) <? 0.6)%float
  = degraded ctx message.
Proof.
  unfold analyzeCurrentContextEffectiveness, degraded. cbv zeta.
  destruct (currentContext ctx);
    repeat match goal with
           | |- context [someIncluded ?m ?l] => destruct (someIncluded m l)
           | |- context [Nat.eqb ?a ?b] => destruct (Nat.eqb a b)
           | |- context [recentSwitch ?n ?c] => destruct (recentSwitch n c)
           end; reflexivity.
Qed.

Lemma effectiveness_degraded
    (now : Z) (ctx : ConversationContext HistoryEntry) (message : jsstring) :
  degraded ctx message = true ->
  suggestedContext (analyzeCurrentContextEffectiveness now ctx message)
  = general.
Proof.
  unfold analyzeCurrentContextEffectiveness, degraded. cbv zeta.
  destruct (currentContext ctx);
    repeat match goal with
           | |- context [someIncluded ?m ?l] => destruct (someIncluded m l)
           | |- context [Nat.eqb ?a ?b] => destruct (Nat.eqb a b)
           | |- context [recentSwitch ?n ?c] => destruct (recentSwitch n c)
           end; try reflexivity; discriminate.
Qed.

(** What the check of the current context does to a result that asks
    for no switch. *)
Lemma checkCurrentContext_quiet
    (now : Z) (message : jsstring) (ctx : ConversationContext HistoryEntry)
    (r : ContextSwitchResult HistoryEntry) :
  shouldSwitch r = false ->
  shouldSwitch (checkCurrentContext now message (Some ctx) r)
    = degraded ctx message /\
  (degraded ctx message = true ->
   newContext (checkCurrentContext now message (Some ctx) r) = general /\
   (switch_confidence (checkCurrentContext now message (Some ctx) r)
    = eff_confidence (analyzeCurrentContextEffectiveness now ctx message))) /\
  (degraded ctx message = false ->
   checkCurrentContext now message (Some ctx) r = r).
Proof.
  intros Hr. unfold checkCurrentContext. cbv zeta. rewrite Hr. cbn [negb].
  rewrite effectiveness_below_threshold.
  destruct (degraded ctx message) eqn:Hd.
  - cbn [shouldSwitch newContext switch_confidence].
    split; [reflexivity|]. split; [|discriminate]. intros _.
    split; [apply effectiveness_degraded, Hd|reflexivity].
  - split; [exact Hr|]. split; [discriminate|reflexivity].
Qed.

(** The answer of [analyzeContextSwitch] does not depend on the clock. *)
Lemma analyzeContextSwitch_ignores_the_clock
    (now now' : Z) (message : jsstring) (chatId : string)
    (ctx : option (ConversationContext HistoryEntry)) :
  (shouldSwitch <$> analyzeContextSwitch getAgentsByRole findRelevantDocuments
       getRelevantHistory now message chatId ctx)
  = (shouldSwitch <$> analyzeContextSwitch getAgentsByRole findRelevantDocuments
       getRelevantHistory now' message chatId ctx) /\
  (newContext <$> analyzeContextSwitch getAgentsByRole findRelevantDocuments
       getRelevantHistory now message chatId ctx)
  = (newContext <$> analyzeContextSwitch getAgentsByRole findRelevantDocuments
       getRelevantHistory now' message chatId ctx).
Proof.
  unfold analyzeContextSwitch.
  destruct (analyzeKeywords _ _ _ message chatId) as [r|];
    [|split; reflexivity].
  cbn [mbind option_bind fmap option_fmap option_map].
  unfold checkCurrentContext. cbv zeta.
  destruct ctx as [ctx|]; [|split; reflexivity].
  destruct (negb _); [|split; reflexivity].
  rewrite !effectiveness_below_threshold.
  destruct (degraded ctx message) eqn:Hd; [|split; reflexivity].
  cbn [shouldSwitch newContext]. rewrite !effectiveness_degraded by exact Hd.
  split; reflexivity.
Qed.

(** When no keyword family fires, the cascade asks for no switch.  The
    agent family fires when one of its keywords occurs and [classifyIntent]
    answers with an agent; it makes the cascade throw when [classifyIntent]
    throws. *)
Lemma analyzeKeywords_quiet (message : jsstring) (chatId : string) :
  someIncluded (toLowerCase message) Keywords.documentKeywords = false ->
  someIncluded (toLowerCase message) Keywords.historyKeywords = false ->
  someIncluded (toLowerCase message) Keywords.agentTaskKeywords
    || someIncluded (toLowerCase message) Keywords.technicalKeywords = false
  \/ (exists r, classifyIntent getAgentsByRole message = Some r /\
                truthyId (suggestedAgentId r) = false) ->
  analyzeKeywords getAgentsByRole findRelevantDocuments getRelevantHistory
    message chatId
  = Some (mkSwitch false general 0.5 [] [] [] None).
Proof.
  intros Hdoc Hhist Hagent. unfold analyzeKeywords. cbv zeta.
  rewrite Hdoc, Hhist.
  destruct (_ || _); [|reflexivity].
  destruct Hagent as [H|(r & Hr & H)]; [discriminate|].
  rewrite Hr. cbn [mbind option_bind]. rewrite H. reflexivity.
Qed.

(** Without a keyword family firing, the switch is decided by the
    degradation of the current context alone. *)
Lemma analyzeContextSwitch_quiet
    (now : Z) (message : jsstring) (chatId : string)
    (ctx : ConversationContext HistoryEntry) :
  someIncluded (toLowerCase message) Keywords.documentKeywords = false ->
  someIncluded (toLowerCase message) Keywords.historyKeywords = false ->
  someIncluded (toLowerCase message) Keywords.agentTaskKeywords
    || someIncluded (toLowerCase message) Keywords.technicalKeywords = false
  \/ (exists r, classifyIntent getAgentsByRole message = Some r /\
                truthyId (suggestedAgentId r) = false) ->
  exists r,
    analyzeContextSwitch getAgentsByRole findRelevantDocuments
      getRelevantHistory now message chatId (Some ctx) = Some r /\
    shouldSwitch r = degraded ctx message /\
    (degraded ctx message = true ->
     newContext r = general /\
     (switch_confidence r
      = eff_confidence (analyzeCurrentContextEffectiveness now ctx message))).
Proof.
  intros Hdoc Hhist Hagent. unfold analyzeContextSwitch.
  rewrite (analyzeKeywords_quiet message chatId Hdoc Hhist Hagent).
  cbn [mbind option_bind]. eexists. split; [reflexivity|].
  destruct (checkCurrentContext_quiet now message ctx
              (mkSwitch false general 0.5 [] [] [] None) eq_refl)
    as (Hs & Hn & _).
  split; [exact Hs|exact Hn].
Qed.

End ContextSwitchingFacts.

(** In the repository a message passes the agent family when none of its
    keywords occurs or [classifyIntent] answers, which it does without an
    agent. *)
Lemma passes_agent_family (message : jsstring) :
  someIncluded (toLowerCase message) Keywords.agentTaskKeywords
    || someIncluded (toLowerCase message) Keywords.technicalKeywords = false
  \/ is_Some (classifyIntent UseAgents.getAgentsByRole message) ->
  someIncluded (toLowerCase message) Keywords.agentTaskKeywords
    || someIncluded (toLowerCase message) Keywords.technicalKeywords = false
  \/ (exists r, classifyIntent UseAgents.getAgentsByRole message = Some r /\
                truthyId (suggestedAgentId r) = false).
Proof.
  intros [H|[r Hr]]; [left; exact H|right].
  exists r. split; [exact Hr|].
  rewrite (classifyIntent_suggests_nobody message r Hr). reflexivity.
Qed.

Section ContextSwitchingClaims.

Context {HistoryEntry : Type}.
Variable findRelevantDocuments : jsstring -> string -> list string.
Variable getRelevantHistory : jsstring -> string -> list HistoryEntry.

(** C6 (amended): for a chat whose current context is [rag] with no
    active documents and whose last switch is at least five minutes old, a
    message that contains no document keyword (of either list) and no
    history keyword, and for which the agent and technical keywords either
    do not occur or [classifyIntent] answers (it then names no agent), gets
    [shouldSwitch = true] with [newContext = general]. *)
Theorem rag_without_documents_degrades
    (now : Z) (message : jsstring) (chatId : string)
    (ctx : ConversationContext HistoryEntry) :
  currentContext ctx = rag ->
  activeDocuments ctx = [] ->
  recentSwitch now ctx = false ->
  someIncluded (toLowerCase message) Keywords.documentKeywords = false ->
  someIncluded (toLowerCase message) Keywords.docKeywords = false ->
  someIncluded (toLowerCase message) Keywords.historyKeywords = false ->
  someIncluded (toLowerCase message) Keywords.agentTaskKeywords
    || someIncluded (toLowerCase message) Keywords.technicalKeywords = false
  \/ is_Some (classifyIntent UseAgents.getAgentsByRole message) ->
  exists r,
    analyzeContextSwitch UseAgents.getAgentsByRole findRelevantDocuments
      getRelevantHistory now message chatId (Some ctx) = Some r /\
    shouldSwitch r = true /\
    newContext r = general.
Proof.
  intros Hrag Hdocs _ Hdoc Heff Hhist Hagent.
  destruct (analyzeContextSwitch_quiet UseAgents.getAgentsByRole
              findRelevantDocuments getRelevantHistory now message chatId ctx
              Hdoc Hhist (passes_agent_family message Hagent))
    as (r & Hr & Hs & Hn).
  assert (Hd : degraded ctx message = true).
  { unfold degraded. rewrite Hrag, Heff, Hdocs. reflexivity. }
  exists r. split; [exact Hr|].
  split; [rewrite <- Hd; exact Hs | exact (proj1 (Hn Hd))].
Qed.

End ContextSwitchingClaims.

Lemma rag_without_documents_degrades_witness :
  exists r,
    Sample.analyze Sample.t0 Sample.plainMessage (Some Sample.ragContext)
      = Some r /\
    shouldSwitch r = true /\ newContext r = general.
Proof.
  apply (rag_without_documents_degrades Sample.noDocuments Sample.noHistory
           Sample.t0 (utf16 Sample.plainMessage) "chat-1" Sample.ragContext).
  - reflexivity.
  - reflexivity.
  - reflexivity.
  - vm_compute. reflexivity.
  - vm_compute. reflexivity.
  - vm_compute. reflexivity.
  - left. vm_compute. reflexivity.
Defined.

(** C6, as stated, fails on the code: in a [rag] context without active
    documents, a message with no document keyword that recalls the
    conversation switches to [history], not to [general]. *)
Lemma rag_without_documents_may_switch_to_history :
  someIncluded (toLowerCase (utf16 Sample.recallMessage))
    (Keywords.documentKeywords ++ Keywords.docKeywords) = false /\
  (shouldSwitch <$> Sample.analyze Sample.t0 Sample.recallMessage
                      (Some Sample.ragContext)) = Some true /\
  (newContext <$> Sample.analyze Sample.t0 Sample.recallMessage
                    (Some Sample.ragContext)) = Some history.
Proof. vm_compute. repeat split; reflexivity. Qed.

(** C4 (defect in the code): the first call switches the chat to
    [history]; a minute later a message that matches no document, history,
    agent or technical keyword is analysed against the context that the
    first switch created, and the call reports [shouldSwitch = true] again,
    back to [general].  The 0.2 that a recent switch adds to the score is
    overwritten by the score of the degraded context. *)
Theorem recent_switch_is_not_suppressed :
  (shouldSwitch <$> Sample.firstCall) = Some true /\
  (newContext <$> Sample.firstCall) = Some history /\
  (recentSwitch (Sample.t0 + 60000) <$> Sample.contextAfterFirstCall)
    = Some true /\
  someIncluded (toLowerCase (utf16 Sample.plainMessage))
    (Keywords.documentKeywords ++ Keywords.historyKeywords
       ++ Keywords.agentTaskKeywords ++ Keywords.technicalKeywords) = false /\
  (shouldSwitch <$> Sample.secondCall) = Some true /\
  (newContext <$> Sample.secondCall) = Some general.
Proof. vm_compute. repeat split; reflexivity. Qed.

(** ** The feedback loop *)

Module SelfImprovingFacts.
Import SelfImprovingAgents.

Lemma section_starts_with_line_feed (title : string) (items : list string) :
  exists rest, section title items = 10%N :: rest.
Proof. unfold section, nl. eexists. reflexivity. Qed.

(** The prompt only grows: the improved prompt is the old one followed by
    the additions. *)
Lemma generateImprovedPrompt_appends
    (a : Agent) (feedback : list FeedbackType) (analysis : Analysis) :
  fst (generateImprovedPrompt a feedback analysis)
  = system_prompt a ++ promptAdditions feedback analysis.
Proof. reflexivity. Qed.

Lemma promptAdditions_accuracy
    (feedback : list FeedbackType) (analysis : Analysis) :
  hasIssue analysis accuracy = true ->
  promptAdditions feedback analysis <> [].
Proof.
  intros H. unfold promptAdditions. rewrite H.
  destruct (section_starts_with_line_feed "**Точность и Проверка Фактов:**"
              [ "- Всегда проверяй факты перед ответом";
                "- При неуверенности, указывай на ограничения знаний";
                "- Ссылайся на источники когда возможно" ]%string)
    as [rest ->].
  discriminate.
Qed.

(** Three corrections of which each mentions an accuracy keyword make
    [accuracy] a common issue and call for an improvement. *)
Lemma three_corrections_analysis (d3 d2 d1 : FeedbackType) :
  Forall (fun d => feedback_type d = correction
                   /\ someIncluded (toLowerCase (user_feedback d))
                        accuracyKeywords = true) [d3; d2; d1] ->
  shouldImprove (analyzeAggregatedFeedback [d3; d2; d1]) = true /\
  hasIssue (analyzeAggregatedFeedback [d3; d2; d1]) accuracy = true.
Proof.
  intros H.
  apply Forall_cons_iff in H as [[Ht3 Hk3] H].
  apply Forall_cons_iff in H as [[Ht2 Hk2] H].
  apply Forall_cons_iff in H as [[Ht1 Hk1] _].
  unfold analyzeAggregatedFeedback, hasIssue. cbv zeta.
  cbn [shouldImprove commonIssues List.filter length].
  rewrite Ht3, Ht2, Ht1. cbn [isNegative length].
  split.
  - replace (0.3 <? number 3 / number 3)%float with true by reflexivity.
    reflexivity.
  - unfold identifyCommonIssues, patterns. cbv zeta.
    cbn [flat_map map List.filter]. rewrite Hk3, Hk2, Hk1.
    reflexivity.
Qed.

Lemma find_map_owned (u id : string) (prompt : jsstring) (now : Z)
    (l : list Agent) (a : Agent) :
  find (ownedBy u id) l = Some a ->
  find (ownedBy u id)
    (map (fun x =>
            if ownedBy u id x then
              mkAgent (agent_id x) (agent_user_id x) (agent_name x) prompt
                (role x) (is_active x) (performance_metrics x) (Some now)
            else x) l)
  = Some (mkAgent (agent_id a) (agent_user_id a) (agent_name a) prompt
            (role a) (is_active a) (performance_metrics a) (Some now)).
Proof.
  induction l as [|x l IH]; [discriminate|].
  cbn [find map]. destruct (ownedBy u id x) eqn:Hx.
  - intros [= ->]. unfold ownedBy at 1. cbn [agent_id agent_user_id].
    unfold ownedBy in Hx. rewrite Hx. reflexivity.
  - rewrite Hx. exact IH.
Qed.

(** What [suggestPromptImprovement] does when the agent is found. *)
Lemma suggestPromptImprovement_found
    (now : Z) (id : string) (feedback : list FeedbackType)
    (analysis : Analysis) (s : Store) (a : Agent) :
  getAgentById id s = Some a ->
  exists entry,
    prompt_improvement_logs (suggestPromptImprovement now id feedback analysis s)
      = entry :: prompt_improvement_logs s /\
    log_agent_id entry = id /\
    old_prompt entry = system_prompt a /\
    new_prompt entry = system_prompt a ++ promptAdditions feedback analysis /\
    feedback_ids entry = map feedback_id feedback /\
    (system_prompt
       <$> getAgentById id
             (suggestPromptImprovement now id feedback analysis s))
      = Some (new_prompt entry) /\
    agent_feedback (suggestPromptImprovement now id feedback analysis s)
      = agent_feedback s.
Proof.
  intros Ha. unfold suggestPromptImprovement. rewrite Ha. cbv zeta.
  unfold getAgentById in Ha.
  destruct (session_user s) as [u|] eqn:Hu; [|discriminate].
  cbn [mbind option_bind] in Ha.
  unfold updateAgent, with_logs, with_agents.
  cbn [session_user agents_table]. rewrite Hu. cbn [mbind option_bind].
  assert (Hex : existsb (ownedBy u id) (agents_table s) = true).
  { apply existsb_exists. apply find_some in Ha. exists a. exact Ha. }
  rewrite Hex. eexists. split; [reflexivity|].
  cbn [log_agent_id old_prompt new_prompt feedback_ids prompt_improvement_logs
       agent_feedback fst].
  do 4 (split; [reflexivity|]). split; [|reflexivity].
  unfold getAgentById. cbn [session_user agents_table mbind option_bind].
  rewrite (find_map_owned _ _ _ _ _ _ Ha). reflexivity.
Qed.

Lemma getAgentById_with_feedback (id : string) (s : Store)
    (l : list FeedbackType) :
  getAgentById id (with_feedback s l) = getAgentById id s.
Proof. reflexivity. Qed.

(** Recording feedback for an agent with fewer than two rows on record
    only stores the row. *)
Lemma collectFeedback_below_threshold
    (now : Z) (f : FeedbackInput) (s : Store) :
  (length (List.filter
             (fun d => String.eqb (feedback_agent_id d) (in_agent_id f))
             (agent_feedback s)) < 2)%nat ->
  fst (collectFeedback now f s)
  = with_feedback s (snd (collectFeedback now f s) :: agent_feedback s).
Proof.
  intros Hlen. unfold collectFeedback. cbv zeta. cbn [fst snd].
  unfold analyzeFeedbackForImprovement, recentFeedbackOf. cbv zeta.
  unfold with_feedback at 1 2. cbn [agent_feedback List.filter feedback_agent_id].
  rewrite String.eqb_refl.
  set (old := List.filter _ (agent_feedback s)) in *.
  replace (length (take 10 (_ :: old)) <? 3)%nat with true; [reflexivity|].
  symmetry. apply Nat.ltb_lt. cbn [take length].
  rewrite length_take. lia.
Qed.

End SelfImprovingFacts.

Section FeedbackClaims.
Import SelfImprovingAgents SelfImprovingFacts.

(** The feedback rows of an agent, newest first. *)
Let feedbackOf (id : string) (s : Store) : list FeedbackType :=
  List.filter (fun d => String.eqb (feedback_agent_id d) id) (agent_feedback s).

(** A correction that mentions an accuracy keyword. *)
Let accuracyCorrection (id : string) (f : FeedbackInput) : Prop :=
  in_agent_id f = id /\ in_feedback_type f = correction /\
  someIncluded (toLowerCase (in_user_feedback f)) accuracyKeywords = true.

Lemma collectFeedback_row (now : Z) (f : FeedbackInput) (s : Store) :
  feedback_agent_id (snd (collectFeedback now f s)) = in_agent_id f /\
  feedback_type (snd (collectFeedback now f s)) = in_feedback_type f /\
  user_feedback (snd (collectFeedback now f s)) = in_user_feedback f /\
  confidence_score (snd (collectFeedback now f s)) = in_confidence_score f.
Proof. repeat split. Qed.

Lemma feedbackOf_stored (id : string) (d : FeedbackType) (s : Store) :
  feedback_agent_id d = id ->
  feedbackOf id (with_feedback s (d :: agent_feedback s))
  = d :: feedbackOf id s.
Proof.
  intros <-. unfold feedbackOf, with_feedback. cbn [agent_feedback List.filter].
  rewrite String.eqb_refl. reflexivity.
Qed.

(** The third correction in a row crosses the threshold. *)
Lemma collectFeedback_third
    (now : Z) (f : FeedbackInput) (s : Store) (id : string)
    (d2 d1 : FeedbackType) :
  accuracyCorrection id f ->
  feedbackOf id s = [d2; d1] ->
  Forall (fun d => feedback_type d = correction
                   /\ someIncluded (toLowerCase (user_feedback d))
                        accuracyKeywords = true) [d2; d1] ->
  fst (collectFeedback now f s)
  = suggestPromptImprovement now id [snd (collectFeedback now f s); d2; d1]
      (analyzeAggregatedFeedback [snd (collectFeedback now f s); d2; d1])
      (with_feedback s (snd (collectFeedback now f s) :: agent_feedback s)) /\
  hasIssue
    (analyzeAggregatedFeedback [snd (collectFeedback now f s); d2; d1])
    accuracy = true.
Proof.
  intros (Hid & Hty & Hkw) Hold Hprev.
  destruct (collectFeedback_row now f s) as (Rid & Rty & Rtxt & _).
  assert (Hall : Forall (fun d => feedback_type d = correction
                   /\ someIncluded (toLowerCase (user_feedback d))
                        accuracyKeywords = true)
                   [snd (collectFeedback now f s); d2; d1]).
  { constructor; [|exact Hprev]. rewrite Rty, Rtxt. split; assumption. }
  destruct (three_corrections_analysis _ _ _ Hall) as [Himp Hacc].
  split; [|exact Hacc].
  set (d := snd (collectFeedback now f s)) in *.
  change (fst (collectFeedback now f s))
    with (analyzeFeedbackForImprovement now (in_agent_id f)
            (with_feedback s (d :: agent_feedback s))).
  rewrite Hid. unfold analyzeFeedbackForImprovement. cbv zeta.
  change (recentFeedbackOf id (with_feedback s (d :: agent_feedback s)))
    with (take 10 (feedbackOf id (with_feedback s (d :: agent_feedback s)))).
  rewrite feedbackOf_stored by (rewrite <- Hid; exact Rid).
  rewrite Hold. cbn [take length Nat.ltb Nat.leb]. rewrite Himp. reflexivity.
Qed.

(** C9 (amended): for an agent that has no earlier feedback on record,
    recording three corrections in a row, each mentioning an accuracy
    keyword, leaves the improvement log untouched after the first and the
    second, and adds exactly one entry with the third.  The entry holds
    the agent's prompt as [old_prompt], a [new_prompt] that is the old
    prompt followed by a non-empty addition, and the ids of the three
    feedback rows; the agent's prompt becomes the new prompt. *)
Theorem three_corrections_improve_prompt_once
    (now1 now2 now3 : Z) (f1 f2 f3 : FeedbackInput) (s : Store)
    (id : string) (a : Agent) :
  getAgentById id s = Some a ->
  List.filter (fun d => String.eqb (feedback_agent_id d) id) (agent_feedback s)
    = [] ->
  (in_agent_id f1 = id /\ in_feedback_type f1 = correction /\
   someIncluded (toLowerCase (in_user_feedback f1)) accuracyKeywords = true) ->
  (in_agent_id f2 = id /\ in_feedback_type f2 = correction /\
   someIncluded (toLowerCase (in_user_feedback f2)) accuracyKeywords = true) ->
  (in_agent_id f3 = id /\ in_feedback_type f3 = correction /\
   someIncluded (toLowerCase (in_user_feedback f3)) accuracyKeywords = true) ->
  prompt_improvement_logs (fst (collectFeedback now1 f1 s))
    = prompt_improvement_logs s /\
  prompt_improvement_logs
    (fst (collectFeedback now2 f2 (fst (collectFeedback now1 f1 s))))
    = prompt_improvement_logs s /\
  exists entry additions,
    prompt_improvement_logs
      (fst (collectFeedback now3 f3
              (fst (collectFeedback now2 f2 (fst (collectFeedback now1 f1 s))))))
      = entry :: prompt_improvement_logs s /\
    log_agent_id entry = id /\
    old_prompt entry = system_prompt a /\
    new_prompt entry = system_prompt a ++ additions /\
    additions <> [] /\
    feedback_ids entry
      = map feedback_id
          [ snd (collectFeedback now3 f3
                   (fst (collectFeedback now2 f2
                           (fst (collectFeedback now1 f1 s)))));
            snd (collectFeedback now2 f2 (fst (collectFeedback now1 f1 s)));
            snd (collectFeedback now1 f1 s) ] /\
    (system_prompt
       <$> getAgentById id
             (fst (collectFeedback now3 f3
                     (fst (collectFeedback now2 f2
                             (fst (collectFeedback now1 f1 s)))))))
      = Some (new_prompt entry).
Proof.
  intros Ha Hnone H1 H2 H3.
  fold (feedbackOf id s) in Hnone.
  pose proof H1 as (Hid1 & Hty1 & Hkw1). pose proof H2 as (Hid2 & Hty2 & Hkw2).
  (* the first correction *)
  assert (E1 : fst (collectFeedback now1 f1 s)
               = with_feedback s
                   (snd (collectFeedback now1 f1 s) :: agent_feedback s)).
  { apply collectFeedback_below_threshold. rewrite Hid1.
    fold (feedbackOf id s). rewrite Hnone. cbn [length]. lia. }
  destruct (collectFeedback_row now1 f1 s) as (R1id & R1ty & R1txt & _).
  set (d1 := snd (collectFeedback now1 f1 s)) in *.
  set (s1 := fst (collectFeedback now1 f1 s)) in *.
  assert (F1 : feedbackOf id s1 = [d1]).
  { rewrite E1, feedbackOf_stored by (rewrite R1id; exact Hid1).
    rewrite Hnone. reflexivity. }
  (* the second correction *)
  assert (E2 : fst (collectFeedback now2 f2 s1)
               = with_feedback s1
                   (snd (collectFeedback now2 f2 s1) :: agent_feedback s1)).
  { apply collectFeedback_below_threshold. rewrite Hid2.
    fold (feedbackOf id s1). rewrite F1. cbn [length]. lia. }
  destruct (collectFeedback_row now2 f2 s1) as (R2id & R2ty & R2txt & _).
  set (d2 := snd (collectFeedback now2 f2 s1)) in *.
  set (s2 := fst (collectFeedback now2 f2 s1)) in *.
  assert (F2 : feedbackOf id s2 = [d2; d1]).
  { rewrite E2, feedbackOf_stored by (rewrite R2id; exact Hid2).
    rewrite F1. reflexivity. }
  split; [rewrite E1; reflexivity|].
  split; [rewrite E2, E1; reflexivity|].
  (* the third correction *)
  assert (Hprev : Forall (fun d => feedback_type d = correction
                   /\ someIncluded (toLowerCase (user_feedback d))
                        accuracyKeywords = true) [d2; d1]).
  { repeat constructor.
    - rewrite R2ty. exact Hty2.
    - rewrite R2txt. exact Hkw2.
    - rewrite R1ty. exact Hty1.
    - rewrite R1txt. exact Hkw1. }
  destruct (collectFeedback_third now3 f3 s2 id d2 d1 H3 F2 Hprev) as [E3 Hacc].
  set (d3 := snd (collectFeedback now3 f3 s2)) in *.
  assert (Ha2 : getAgentById id
                  (with_feedback s2 (d3 :: agent_feedback s2)) = Some a).
  { rewrite getAgentById_with_feedback, E2, getAgentById_with_feedback, E1,
      getAgentById_with_feedback. exact Ha. }
  destruct (suggestPromptImprovement_found now3 id [d3; d2; d1]
              (analyzeAggregatedFeedback [d3; d2; d1]) _ a Ha2)
    as (entry & Hlog & Hlid & Hold & Hnew & Hids & Hprompt & _).
  rewrite <- E3 in Hlog, Hprompt.
  exists entry, (promptAdditions [d3; d2; d1]
                   (analyzeAggregatedFeedback [d3; d2; d1])).
  split.
  { rewrite Hlog. unfold with_feedback at 1. cbn [prompt_improvement_logs].
    rewrite E2. unfold with_feedback at 1. cbn [prompt_improvement_logs].
    rewrite E1. reflexivity. }
  split; [exact Hlid|]. split; [exact Hold|]. split; [exact Hnew|].
  split; [apply promptAdditions_accuracy, Hacc|].
  split; [exact Hids|exact Hprompt].
Qed.

Lemma three_corrections_improve_prompt_once_witness :
  prompt_improvement_logs
    (fst (collectFeedback (Sample.t0 + 1000) Sample.correction1 Sample.store))
    = [] /\
  prompt_improvement_logs
    (fst (collectFeedback (Sample.t0 + 2000) Sample.correction2
            (fst (collectFeedback (Sample.t0 + 1000) Sample.correction1
                    Sample.store))))
    = [] /\
  exists entry additions,
    prompt_improvement_logs (Sample.afterThreeCorrections Sample.store)
      = [entry] /\
    log_agent_id entry = "agent-a"%string /\
    old_prompt entry = system_prompt Sample.agentA /\
    new_prompt entry = system_prompt Sample.agentA ++ additions /\
    additions <> [] /\
    feedback_ids entry
      = map feedback_id
          [ snd (collectFeedback (Sample.t0 + 3000) Sample.correction3
                   (fst (collectFeedback (Sample.t0 + 2000) Sample.correction2
                           (fst (collectFeedback (Sample.t0 + 1000)
                                   Sample.correction1 Sample.store)))));
            snd (collectFeedback (Sample.t0 + 2000) Sample.correction2
                   (fst (collectFeedback (Sample.t0 + 1000) Sample.correction1
                           Sample.store)));
            snd (collectFeedback (Sample.t0 + 1000) Sample.correction1
                   Sample.store) ] /\
    (system_prompt
       <$> getAgentById "agent-a" (Sample.afterThreeCorrections Sample.store))
      = Some (new_prompt entry).
Proof.
  apply (three_corrections_improve_prompt_once (Sample.t0 + 1000)
           (Sample.t0 + 2000) (Sample.t0 + 3000) Sample.correction1
           Sample.correction2 Sample.correction3 Sample.store "agent-a"
           Sample.agentA).
  - vm_compute. reflexivity.
  - reflexivity.
  - vm_compute. repeat split; reflexivity.
  - vm_compute. repeat split; reflexivity.
  - vm_compute. repeat split; reflexivity.
Defined.

(** C9, as stated, fails on the code: when the agent already has two
    feedback rows on record, each of the three corrections crosses the
    threshold, and the log gains three entries, not one. *)
Lemma three_corrections_after_history_log_three_times :
  length (prompt_improvement_logs Sample.storeWithHistory) = 0%nat /\
  length (prompt_improvement_logs
            (Sample.afterThreeCorrections Sample.storeWithHistory)) = 3%nat.
Proof. vm_compute. split; reflexivity. Qed.

End FeedbackClaims.

(** * Further properties *)

(** ** [classifyIntent] *)

Section ClassifyIntentFacts.

(** In the repository [classifyIntent] answers only on its feature request
    and its general branch: whatever it returns names no agent and asks
    for no escalation, and is either a feature request at priority [low]
    and confidence 0.75 with an automatic response, or the general intent
    at priority [medium] and confidence 0.5 without one. *)
Theorem classifyIntent_answers_without_agent
    (message : jsstring) (r : IntentResult) :
  classifyIntent UseAgents.getAgentsByRole message = Some r ->
  suggestedAgentId r = None /\
  requiresEscalation r = false /\
  ((intent r = feature_request /\ priority r = low /\
    confidence r = 0.75%float /\ is_Some (autoResponse r))
   \/
   (intent r = general_intent /\ priority r = medium /\
    confidence r = 0.5%float /\ autoResponse r = None)).
Proof.
  rewrite classifyIntent_without_lookup.
  repeat match goal with
         | |- context [if ?b then _ else _] => destruct b
         end; intros H; try discriminate H; injection H as <-;
    cbn [suggestedAgentId requiresEscalation intent priority confidence
         autoResponse].
  - split; [reflexivity|]. split; [reflexivity|]. left.
    repeat split. eexists. reflexivity.
  - split; [reflexivity|]. split; [reflexivity|]. right. repeat split.
Qed.

(** In the repository [classifyIntent] throws exactly on the messages of
    its five branches that look up agents: an urgent, a technical, a
    document or a research pattern occurs, or a bug pattern occurs and no
    feature pattern does (the feature rule is tested before the bug
    rule). *)
Theorem classifyIntent_throws_exactly_on_lookup (message : jsstring) :
  classifyIntent UseAgents.getAgentsByRole message = None <->
  someIncluded (toLowerCase message) Patterns.urgentPatterns
  || someIncluded (toLowerCase message)
       (Patterns.technicalHigh ++ Patterns.technicalMedium
          ++ Patterns.technicalLow)
  || someIncluded (toLowerCase message) Patterns.documentPatterns
  || someIncluded (toLowerCase message) Patterns.researchPatterns
  || (negb (someIncluded (toLowerCase message) Patterns.featurePatterns)
      && someIncluded (toLowerCase message) Patterns.bugPatterns) = true.
Proof.
  rewrite classifyIntent_without_lookup.
  destruct (_ || _ || _ || _); cbn [orb]; [split; reflexivity|].
  destruct (someIncluded _ Patterns.featurePatterns); cbn [negb andb];
    [split; discriminate|].
  destruct (someIncluded _ Patterns.bugPatterns);
    [split; reflexivity|split; discriminate].
Qed.

End ClassifyIntentFacts.

Lemma classifyIntent_answers_without_agent_witness :
  classifyIntent UseAgents.getAgentsByRole Scenario.billingMessage
  = Some Scenario.generalAnswer /\
  suggestedAgentId Scenario.generalAnswer = None /\
  requiresEscalation Scenario.generalAnswer = false /\
  ((intent Scenario.generalAnswer = feature_request /\
    priority Scenario.generalAnswer = low /\
    confidence Scenario.generalAnswer = 0.75%float /\
    is_Some (autoResponse Scenario.generalAnswer))
   \/
   (intent Scenario.generalAnswer = general_intent /\
    priority Scenario.generalAnswer = medium /\
    confidence Scenario.generalAnswer = 0.5%float /\
    autoResponse Scenario.generalAnswer = None)).
Proof.
  assert (H : classifyIntent UseAgents.getAgentsByRole Scenario.billingMessage
              = Some Scenario.generalAnswer) by (vm_compute; reflexivity).
  split; [exact H|].
  exact (classifyIntent_answers_without_agent Scenario.billingMessage
           Scenario.generalAnswer H).
Defined.

(** ** Keywords in upper case *)

Lemma lower_unit_not_upper (c d : N) :
  In d (lower_unit c) -> ((65 <=? d) && (d <=? 90))%N = false.
Proof.
  unfold lower_unit.
  repeat match goal with
         | |- context [if ?b then _ else _] => destruct b eqn:?
         end;
    cbn [In]; intros H; repeat destruct H as [H|H]; try contradiction H;
    subst d; try reflexivity; try assumption;
    apply andb_false_iff; right; apply N.leb_gt;
    repeat match goal with
           | H : (_ && _)%bool = true |- _ =>
               apply andb_true_iff in H as [? ?]
           end;
    repeat match goal with
           | H : (_ <=? _)%N = true |- _ => apply N.leb_le in H
           end; lia.
Qed.

Lemma toLowerCase_no_upper (s : jsstring) (c : N) :
  In c (toLowerCase s) -> ((65 <=? c) && (c <=? 90))%N = false.
Proof.
  unfold toLowerCase. intros H. apply in_flat_map in H as (d & _ & H).
  exact (lower_unit_not_upper d c H).
Qed.

(** A keyword that holds a capital Latin letter is never found in a
    lowered message. *)
Lemma includes_lowered_upper (s p : jsstring) (c : N) :
  In c p -> ((65 <=? c) && (c <=? 90))%N = true ->
  includes (toLowerCase s) p = false.
Proof.
  intros Hin Hup. destruct (includes (toLowerCase s) p) eqn:E; [|reflexivity].
  destruct (includes_split _ _ E) as (pre & post & Hs).
  assert (Hc : In c (toLowerCase s)).
  { rewrite Hs. apply in_or_app. right. apply in_or_app. left. exact Hin. }
  rewrite (toLowerCase_no_upper _ _ Hc) in Hup. discriminate.
Qed.

(** The keyword [API] of [classifySupportTicket] and of the technical
    keywords of [analyzeContextSwitch] is dead: the message is lowered
    before the test, so both lists match exactly as they would without
    it. *)
Theorem upper_case_keyword_is_dead (message : jsstring) :
  someIncluded (toLowerCase message) Patterns.ticketComplex
  = someIncluded (toLowerCase message)
      (map utf16 [ "база данных"; "database"; "интеграция";
                   "integration" ]%string) /\
  someIncluded (toLowerCase message) Keywords.technicalKeywords
  = someIncluded (toLowerCase message)
      (map utf16 [ "код"; "программирование"; "ошибка"; "баг";
                   "code"; "programming"; "error"; "bug"; "development";
                   "функция"; "алгоритм"; "база данных" ]%string).
Proof.
  assert (Hapi : includes (toLowerCase message) (utf16 "API") = false).
  { apply (includes_lowered_upper _ _ 65%N); [|reflexivity].
    vm_compute. left. reflexivity. }
  unfold someIncluded, Patterns.ticketComplex, Keywords.technicalKeywords.
  cbn [map existsb]. rewrite Hapi. cbn [orb]. split; reflexivity.
Qed.

(** ** [classifySupportTicket] *)

(** The category, complexity, estimate, priority and escalation flag that
    [classifySupportTicket] can answer with. *)
Theorem classifySupportTicket_rows (message : jsstring) :
  In (category (classifySupportTicket message),
      complexity (classifySupportTicket message),
      estimatedResolutionTime (classifySupportTicket message),
      ticket_priority (classifySupportTicket message),
      requiresHumanEscalation (classifySupportTicket message))
    [ (technical, complex, 120, urgent, true);
      (technical, moderate, 60, medium, false);
      (technical, moderate, 60, urgent, true);
      (technical, simple, 15, low, false);
      (technical, simple, 15, urgent, true);
      (bug_report_category, moderate, 45, medium, false);
      (bug_report_category, moderate, 45, urgent, true);
      (feature_request_category, simple, 5, low, false);
      (feature_request_category, simple, 5, urgent, true);
      (billing, simple, 20, medium, false);
      (billing, simple, 20, urgent, true);
      (general_category, moderate, 30, medium, false);
      (general_category, moderate, 30, urgent, true) ].
Proof.
  unfold classifySupportTicket, ticketBase. cbv zeta.
  set (e := someIncluded (toLowerCase message) Patterns.ticketEscalation).
  repeat match goal with
         | |- context [if someIncluded ?m ?l then _ else _] =>
             destruct (someIncluded m l)
         end;
    destruct e;
    cbn [isHigh ticket_priority orb category complexity
         estimatedResolutionTime requiresHumanEscalation In];
    tauto.
Qed.

(** ** [autoRouteMessage] *)

Section AutoRouteFacts.
Import SupportRouting.
Lemma mentionsSupport_iff (i : Intent) :
  mentionsSupport i = true <-> i = urgent_support \/ i = technical_support.
Proof.
  destruct i; vm_compute; split; intros H; try discriminate; auto;
    destruct H as [H|H]; discriminate.
Qed.

Lemma titleOf_length (message : jsstring) :
  (length (titleOf message) <= 103)%nat /\
  ((length message <= 100)%nat -> titleOf message = message).
Proof.
  unfold titleOf. split.
  - rewrite length_app, length_take.
    destruct (100 <? length message)%nat.
    + change (length ellipsis) with 3%nat. lia.
    + change (length (@nil N)) with 0%nat. lia.
  - intros Hlen. replace (100 <? length message)%nat with false
      by (symmetry; apply Nat.ltb_ge; exact Hlen).
    rewrite take_ge by exact Hlen. apply app_nil_r.
Qed.

Lemma assignAgentToChat_tickets (chatId a : string) (reason : jsstring)
    (st : SupportStore) :
  support_tickets (assignAgentToChat chatId a reason st) = support_tickets st.
Proof. reflexivity. Qed.

(** An answer of [classifyIntent] in the repository is no support
    intent and names no agent. *)
Lemma classifyIntent_answer_routes (message : jsstring) (r : IntentResult) :
  classifyIntent UseAgents.getAgentsByRole message = Some r ->
  mentionsSupport (intent r) = false /\ suggestedAgentId r = None.
Proof.
  rewrite classifyIntent_without_lookup.
  repeat match goal with
         | |- context [if ?b then _ else _] => destruct b
         end; intros H; try discriminate H; injection H as <-;
    split; reflexivity.
Qed.

(** The two runs of [autoRouteMessage] in the repository. *)
Lemma autoRouteMessage_runs (message : jsstring) (chatId : string)
    (st : SupportStore) :
  (classifyIntent UseAgents.getAgentsByRole message = None /\
   autoRouteMessage UseAgents.getAgentsByRole message chatId st = (st, None))
  \/
  (exists r,
     classifyIntent UseAgents.getAgentsByRole message = Some r /\
     autoRouteMessage UseAgents.getAgentsByRole message chatId st
     = (if requiresHumanEscalation (classifySupportTicket message)
        then createSupportTicket chatId message r
               (classifySupportTicket message) st
        else st,
        Some (mkRouting r (classifySupportTicket message) (autoResponse r)))).
Proof.
  unfold autoRouteMessage.
  destruct (classifyIntent UseAgents.getAgentsByRole message) as [r|] eqn:Hr.
  - right. exists r. split; [reflexivity|]. cbv zeta.
    destruct (classifyIntent_answer_routes message r Hr) as [Hm Hs].
    rewrite Hm, Hs. cbn [orb]. reflexivity.
  - left. split; reflexivity.
Qed.

(** In the repository [autoRouteMessage] throws, and writes nothing, where
    [classifyIntent] throws.  Where [classifyIntent] answers, the routing
    holds that answer and the ticket classification, and a ticket is opened
    exactly when the ticket classification asks for escalation: it is then
    the newest row, open, without an agent, described by the whole message,
    titled by its first 100 code units (so never longer than 103), and it
    carries the priority, category and estimate of
    [classifySupportTicket]. *)
Theorem autoRouteMessage_ticket (message : jsstring) (chatId : string)
    (st : SupportStore) :
  (classifyIntent UseAgents.getAgentsByRole message = None ->
   autoRouteMessage UseAgents.getAgentsByRole message chatId st = (st, None))
  /\
  (forall r,
     classifyIntent UseAgents.getAgentsByRole message = Some r ->
     snd (autoRouteMessage UseAgents.getAgentsByRole message chatId st)
     = Some (mkRouting r (classifySupportTicket message) (autoResponse r)) /\
     (requiresHumanEscalation (classifySupportTicket message) = true ->
      exists ticket,
        support_tickets
          (fst (autoRouteMessage UseAgents.getAgentsByRole message chatId st))
        = ticket :: support_tickets st /\
        ticket_chat_id ticket = chatId /\
        ticket_status ticket = "open"%string /\
        ticket_agent_id ticket = None /\
        description ticket = message /\
        title ticket = titleOf message /\
        (length (title ticket) <= 103)%nat /\
        ticket_row_priority ticket
        = ticket_priority (classifySupportTicket message) /\
        ticket_category ticket = category (classifySupportTicket message) /\
        estimated_resolution_time ticket
        = estimatedResolutionTime (classifySupportTicket message) /\
        requires_escalation ticket = true) /\
     (requiresHumanEscalation (classifySupportTicket message) = false ->
      support_tickets
        (fst (autoRouteMessage UseAgents.getAgentsByRole message chatId st))
      = support_tickets st)).
Proof.
  destruct (autoRouteMessage_runs message chatId st)
    as [[Hnone Hrun]|(r0 & Hr0 & Hrun)]; rewrite Hrun; split.
  - reflexivity.
  - intros r Hr. rewrite Hnone in Hr. discriminate.
  - intros H. rewrite Hr0 in H. discriminate.
  - intros r Hr. rewrite Hr0 in Hr. injection Hr as <-. cbn [fst snd].
    split; [reflexivity|]. split; intros He; rewrite He; [|reflexivity].
    destruct (classifyIntent_answer_routes message r0 Hr0) as [_ Hs].
    eexists. split; [reflexivity|].
    cbn [ticket_chat_id ticket_status description title ticket_row_priority
         ticket_category estimated_resolution_time requires_escalation
         ticket_agent_id].
    rewrite Hs, He. repeat split. apply titleOf_length.
Qed.

(** In the repository [autoRouteMessage] never hands a chat to an agent:
    whatever the message, the assignments and the rest of the store,
    chats included, are as they were; only the tickets can grow. *)
Theorem autoRouteMessage_never_assigns (message : jsstring) (chatId : string)
    (st : SupportStore) :
  agent_assignments
    (fst (autoRouteMessage UseAgents.getAgentsByRole message chatId st))
  = agent_assignments st /\
  base (fst (autoRouteMessage UseAgents.getAgentsByRole message chatId st))
  = base st.
Proof.
  destruct (autoRouteMessage_runs message chatId st)
    as [[_ Hrun]|(r & _ & Hrun)]; rewrite Hrun; cbn [fst].
  - split; reflexivity.
  - destruct (requiresHumanEscalation _); split; reflexivity.
Qed.

End AutoRouteFacts.

Lemma autoRouteMessage_ticket_witness :
  SupportRouting.autoRouteMessage UseAgents.getAgentsByRole
    Scenario.databaseMessage "chat-1" Scenario.supportStore
  = (Scenario.supportStore, None) /\
  exists ticket,
    SupportRouting.support_tickets
      (fst (SupportRouting.autoRouteMessage UseAgents.getAgentsByRole
              Scenario.billingMessage "chat-1" Scenario.supportStore))
    = [ticket] /\
    SupportRouting.ticket_row_priority ticket = urgent /\
    SupportRouting.ticket_category ticket = billing /\
    SupportRouting.ticket_agent_id ticket = None.
Proof.
  split.
  - apply (proj1 (autoRouteMessage_ticket Scenario.databaseMessage "chat-1"
                    Scenario.supportStore)).
    vm_compute. reflexivity.
  - destruct (proj2 (autoRouteMessage_ticket Scenario.billingMessage "chat-1"
                       Scenario.supportStore)
                Scenario.generalAnswer)
      as (_ & Hopen & _).
    + vm_compute. reflexivity.
    + destruct Hopen
        as (ticket & Hrow & _ & _ & Ha & _ & _ & _ & Hp & Hc & _);
        [vm_compute; reflexivity|].
      exists ticket. split; [exact Hrow|].
      split; [rewrite Hp; vm_compute; reflexivity|].
      split; [rewrite Hc; vm_compute; reflexivity|exact Ha].
Defined.

(** ** The rule-based classifier *)

Section IntentRulesFacts.
Import IntentRules.

Lemma agentWithRole_some (r : string) (availableAgents : list Agent)
    (id : string) :
  agentWithRole r availableAgents = Some id ->
  exists a, In a availableAgents /\ agent_id a = id /\ role a = r.
Proof.
  unfold agentWithRole. destruct (find _ availableAgents) as [a|] eqn:E;
    [|discriminate].
  intros [= <-]. apply find_some in E as [Hin Hr].
  apply String.eqb_eq in Hr. exists a. auto.
Qed.

(** The agent that the rules suggest is one of the available agents, a
    support agent for the support and business intents and an assistant
    for every other intent; the confidence lies between 0.6 and 0.9. *)
Theorem classifyIntentRules_suggestion
    (message : jsstring) (availableAgents : list Agent) :
  (forall id,
     suggestedAgentId (classifyIntentRules message availableAgents) = Some id ->
     exists a,
       In a availableAgents /\ agent_id a = id /\
       role a
       = (if String.eqb (intent (classifyIntentRules message availableAgents))
                "technical_support"
             || String.eqb (intent (classifyIntentRules message availableAgents))
                  "business_question"
          then "support" else "assistant")%string) /\
  (0.6 <=? confidence (classifyIntentRules message availableAgents))%float = true /\
  (confidence (classifyIntentRules message availableAgents) <=? 0.9)%float = true.
Proof.
  unfold classifyIntentRules. cbv zeta.
  repeat match goal with
         | |- context [if someIncluded ?m ?l then _ else _] =>
             destruct (someIncluded m l)
         end;
    cbn [suggestedAgentId intent confidence];
    (split; [intros id H; apply agentWithRole_some in H; exact H
            | split; reflexivity]).
Qed.

(** A support keyword decides before every other rule. *)
Theorem classifyIntentRules_support_first
    (message pre kw post : jsstring) (availableAgents : list Agent) :
  message = pre ++ kw ++ post ->
  In (toLowerCase kw) supportKeywords ->
  intent (classifyIntentRules message availableAgents)
    = "technical_support"%string /\
  suggestedAgentId (classifyIntentRules message availableAgents)
    = agentWithRole "support" availableAgents.
Proof.
  intros -> Hin. unfold classifyIntentRules. cbv zeta.
  rewrite (someIncluded_occurrence _ _ _ _ Hin). split; reflexivity.
Qed.

End IntentRulesFacts.

Lemma classifyIntentRules_suggestion_witness :
  exists a,
    In a [Sample.agentA; Sample.agentB; Sample.agentC] /\
    agent_id a = "agent-b"%string /\ role a = "support"%string.
Proof.
  destruct (proj1 (classifyIntentRules_suggestion Scenario.databaseMessage
                     [Sample.agentA; Sample.agentB; Sample.agentC])
              "agent-b"%string) as (a & Hin & Hid & Hrole).
  - vm_compute. reflexivity.
  - exists a. split; [exact Hin|]. split; [exact Hid|].
    rewrite Hrole. vm_compute. reflexivity.
Defined.

Lemma classifyIntentRules_support_first_witness :
  IntentRules.intent
    (IntentRules.classifyIntentRules Scenario.databaseMessage
       [Sample.agentA; Sample.agentB; Sample.agentC])
    = "technical_support"%string /\
  IntentRules.suggestedAgentId
    (IntentRules.classifyIntentRules Scenario.databaseMessage
       [Sample.agentA; Sample.agentB; Sample.agentC])
    = IntentRules.agentWithRole "support"
        [Sample.agentA; Sample.agentB; Sample.agentC].
Proof.
  apply (classifyIntentRules_support_first Scenario.databaseMessage
           (utf16 "Помогите, ") (utf16 "ошибка")
           (utf16 " 500 в базе данных, timeout при загрузке")).
  - vm_compute. reflexivity.
  - vm_compute. right. left. reflexivity.
Defined.

(** ** Key terms and relevant history *)

Module ContextLookupsFacts.
Import ContextLookups.

Lemma splitSpaces_pieces (s word : jsstring) (inGap : bool) (w : jsstring) :
  In w (splitSpaces s word inGap) ->
  exists pre post, word ++ s = pre ++ w ++ post.
Proof.
  revert word inGap. induction s as [|c r IH]; intros word inGap H.
  - cbn [splitSpaces In] in H. destruct H as [<-|[]].
    exists [], []. rewrite !app_nil_r. reflexivity.
  - cbn [splitSpaces] in H. destruct (isSpace c).
    + assert (Hrest : In w (splitSpaces r [] true) ->
                      exists pre post, word ++ c :: r = pre ++ w ++ post).
      { intros Hw. destruct (IH _ _ Hw) as (pre & post & E).
        cbn [app] in E. exists (word ++ c :: pre), post.
        rewrite E, <- app_assoc. reflexivity. }
      destruct inGap; [exact (Hrest H)|].
      destruct H as [<-|H]; [|exact (Hrest H)].
      exists [], (c :: r). reflexivity.
    + destruct (IH _ _ H) as (pre & post & E).
      exists pre, post. rewrite <- E, <- app_assoc. reflexivity.
Qed.

Lemma splitSpaces_no_space (s word : jsstring) (inGap : bool) (w : jsstring) :
  Forall (fun c => isSpace c = false) word ->
  In w (splitSpaces s word inGap) ->
  Forall (fun c => isSpace c = false) w.
Proof.
  revert word inGap. induction s as [|c r IH]; intros word inGap Hword H.
  - cbn [splitSpaces In] in H. destruct H as [<-|[]]. exact Hword.
  - cbn [splitSpaces] in H. destruct (isSpace c) eqn:Hc.
    + destruct inGap; [exact (IH _ _ (List.Forall_nil _) H)|].
      destruct H as [<-|H]; [exact Hword|exact (IH _ _ (List.Forall_nil _) H)].
    + apply (IH (word ++ [c]) false); [|exact H].
      apply Forall_app. split; [exact Hword|]. constructor; [exact Hc|constructor].
Qed.

Lemma sameString_true (a b : jsstring) : sameString a b = true <-> a = b.
Proof. unfold sameString. apply bool_decide_eq_true. Qed.

(** There are at most ten key terms; each is longer than two code units,
    is no stop word, holds no white space and occurs in the lowered
    message. *)
Theorem extractKeyTerms_terms (message : jsstring) :
  (length (extractKeyTerms message) <= 10)%nat /\
  forall term,
    In term (extractKeyTerms message) ->
    (2 < length term)%nat /\
    ~ In term stopWords /\
    Forall (fun c => isSpace c = false) term /\
    includes (toLowerCase message) term = true.
Proof.
  unfold extractKeyTerms. split.
  - rewrite length_take. lia.
  - intros term H. apply list_elem_of_In, elem_of_take in H.
    destruct H as (i & H & _). apply list_elem_of_lookup_2, list_elem_of_In in H.
    apply filter_In in H as [Hsplit Hkey].
    unfold isKeyTerm in Hkey. apply andb_true_iff in Hkey as [Hlen Hstop].
    apply Nat.ltb_lt in Hlen. apply negb_true_iff in Hstop.
    split; [exact Hlen|]. split; [|split].
    + intros Hin.
      assert (E : existsb (sameString term) stopWords = true).
      { apply existsb_exists. exists term. split; [exact Hin|].
        apply sameString_true. reflexivity. }
      rewrite E in Hstop. discriminate.
    + exact (splitSpaces_no_space _ _ _ _ (List.Forall_nil _) Hsplit).
    + destruct (splitSpaces_pieces _ _ _ _ Hsplit) as (pre & post & E).
      cbn [app] in E. rewrite E. apply includes_app.
Qed.

Lemma In_insertByScore (x y : Scored) (l : list Scored) :
  In x (insertByScore y l) <-> x = y \/ In x l.
Proof.
  induction l as [|z l IH]; cbn [insertByScore In].
  - split; intros [H|H]; auto.
  - destruct (relevanceScore y <? relevanceScore z)%float; cbn [In];
      [rewrite IH|]; split; intros H;
      repeat destruct H as [H|H]; auto.
Qed.

Lemma In_sortByScore (x : Scored) (l : list Scored) :
  In x (sortByScore l) <-> In x l.
Proof.
  induction l as [|y l IH]; cbn [sortByScore In]; [split; intros []|].
  rewrite In_insertByScore, IH. split; intros [H|H]; auto.
Qed.

Lemma length_insertByScore (y : Scored) (l : list Scored) :
  length (insertByScore y l) = S (length l).
Proof.
  induction l as [|z l IH]; cbn [insertByScore length]; [reflexivity|].
  destruct (_ <? _)%float; cbn [length]; [rewrite IH|]; reflexivity.
Qed.

(** [<] on floats is asymmetric. *)
Lemma compare_cont_Lt_Gt (m1 m2 : positive) :
  Pos.compare_cont Eq m1 m2 = Lt -> Pos.compare_cont Eq m2 m1 = Gt.
Proof.
  intros H. change Eq with (CompOpp Eq).
  rewrite <- (Pos.compare_cont_antisym m1 m2 Eq), H. reflexivity.
Qed.

Lemma compare_cont_Gt_Lt (m1 m2 : positive) :
  Pos.compare_cont Eq m1 m2 = Gt -> Pos.compare_cont Eq m2 m1 = Lt.
Proof.
  intros H. change Eq with (CompOpp Eq).
  rewrite <- (Pos.compare_cont_antisym m1 m2 Eq), H. reflexivity.
Qed.

Lemma SFcompare_Lt_Gt (f1 f2 : SpecFloat.spec_float) :
  SpecFloat.SFcompare f1 f2 = Some Lt -> SpecFloat.SFcompare f2 f1 = Some Gt.
Proof.
  destruct f1 as [[]|[]| |[] m1 e1], f2 as [[]|[]| |[] m2 e2];
    cbn [SpecFloat.SFcompare]; try discriminate; try reflexivity;
    rewrite (Z.compare_antisym e1 e2);
    destruct (e1 ?= e2)%Z; cbn [CompOpp]; try discriminate; try reflexivity;
    intros [= H].
  - destruct (Pos.compare_cont Eq m1 m2) eqn:E; try discriminate H.
    rewrite (compare_cont_Gt_Lt _ _ E). reflexivity.
  - rewrite (compare_cont_Lt_Gt _ _ H). reflexivity.
Qed.

Lemma float_ltb_asym (x y : float) :
  (x <? y)%float = true -> (y <? x)%float = false.
Proof.
  rewrite !FloatAxioms.ltb_spec. unfold SpecFloat.SFltb.
  destruct (SpecFloat.SFcompare (FloatOps.Prim2SF x) (FloatOps.Prim2SF y))
    as [[]|] eqn:E; try discriminate.
  intros _. rewrite (SFcompare_Lt_Gt _ _ E). reflexivity.
Qed.

Lemma insertByScore_sorted (y : Scored) (l : list Scored) :
  Sorted notRising l -> Sorted notRising (insertByScore y l).
Proof.
  induction 1 as [|z l Hl IH Hz]; cbn [insertByScore].
  - repeat constructor.
  - destruct (relevanceScore y <? relevanceScore z)%float eqn:E.
    + constructor; [exact IH|].
      destruct l as [|u l]; cbn [insertByScore].
      * constructor. apply float_ltb_asym, E.
      * destruct (relevanceScore y <? relevanceScore u)%float.
        -- constructor. inversion Hz; assumption.
        -- constructor. apply float_ltb_asym, E.
    + constructor; [constructor; assumption|]. constructor. exact E.
Qed.

Lemma sortByScore_sorted (l : list Scored) : Sorted notRising (sortByScore l).
Proof.
  induction l as [|y l IH]; cbn [sortByScore]; [constructor|].
  apply insertByScore_sorted, IH.
Qed.

Lemma Sorted_take {A} (R : A -> A -> Prop) (n : nat) (l : list A) :
  Sorted R l -> Sorted R (take n l).
Proof.
  intros H. revert n. induction H as [|x l Hl IH Hx]; intros n.
  - destruct n; constructor.
  - destruct n as [|n]; cbn [take]; [constructor|].
    constructor; [apply IH|].
    destruct Hx as [|y l Hxy]; destruct n; cbn [take]; constructor. exact Hxy.
Qed.

(** The relevant history holds at most five entries, in an order in which
    the score never rises; each is a message of the chat with the share of
    the key terms that its lowered content holds, and that share is above
    0.3. *)
Theorem getRelevantHistory_entries (message : jsstring) (chatId : string)
    (s : Store) :
  (length (getRelevantHistory message chatId s) <= 5)%nat /\
  Sorted notRising (getRelevantHistory message chatId s) /\
  forall entry,
    In entry (getRelevantHistory message chatId s) ->
    In (fst entry) (messages_table s) /\
    chat_id (fst entry) = chatId /\
    relevanceScore entry
      = calculateMessageRelevance (msg_content (fst entry))
          (extractKeyTerms message) /\
    (0.3 <? relevanceScore entry)%float = true.
Proof.
  unfold getRelevantHistory. cbv zeta. split; [|split].
  - rewrite length_take. lia.
  - apply Sorted_take, sortByScore_sorted.
  - intros entry H. apply list_elem_of_In, elem_of_take in H.
    destruct H as (i & H & _). apply list_elem_of_lookup_2, list_elem_of_In in H.
    apply In_sortByScore, filter_In in H as [H Hscore].
    apply in_map_iff in H as (m & <- & Hm).
    apply list_elem_of_In, elem_of_take in Hm. destruct Hm as (j & Hm & _).
    apply list_elem_of_lookup_2, list_elem_of_In, filter_In in Hm as [Hin Hchat].
    apply String.eqb_eq in Hchat.
    cbn [fst snd relevanceScore] in *. repeat split; assumption.
Qed.

(** A message without key terms finds no history: the relevance of every
    message is then 0/0, which is not above 0.3. *)
Theorem getRelevantHistory_without_key_terms (message : jsstring)
    (chatId : string) (s : Store) :
  extractKeyTerms message = [] ->
  getRelevantHistory message chatId s = [].
Proof.
  intros Hno. unfold getRelevantHistory. cbv zeta. rewrite Hno.
  set (msgs := take 50 _).
  assert (E : List.filter (fun m : Scored => (0.3 <? relevanceScore m)%float)
                (map (fun m => (m, calculateMessageRelevance (msg_content m) []))
                   msgs) = []).
  { induction msgs as [|m msgs IH]; [reflexivity|].
    cbn [map List.filter]. exact IH. }
  rewrite E. reflexivity.
Qed.

End ContextLookupsFacts.

Lemma getRelevantHistory_without_key_terms_witness :
  ContextLookups.getRelevantHistory (utf16 "Как вы и на это") "chat-1"
    Scenario.historyStore = [].
Proof.
  apply ContextLookupsFacts.getRelevantHistory_without_key_terms.
  vm_compute. reflexivity.
Defined.

(** ** The context switch analysis *)

Section ContextSwitchFacts.

Context {HistoryEntry : Type}.
Variable getAgentsByRole : option (string -> list Agent).
Variable findRelevantDocuments : jsstring -> string -> list string.
Variable getRelevantHistory : jsstring -> string -> list HistoryEntry.

Lemma analyzeKeywords_cases (message : jsstring) (chatId : string)
    (r : ContextSwitchResult HistoryEntry) :
  analyzeKeywords getAgentsByRole findRelevantDocuments getRelevantHistory
    message chatId = Some r ->
  r = mkSwitch false general 0.5 [] [] [] None
  \/
  (shouldSwitch r = true /\
   (newContext r = agent ->
    exists i,
      classifyIntent getAgentsByRole message = Some i /\
      truthyId (suggestedAgentId i) = true /\
      suggestedAgent r = suggestedAgentId i /\
      switch_confidence r = confidence i)).
Proof.
  unfold analyzeKeywords. cbv zeta.
  destruct (someIncluded _ Keywords.documentKeywords);
    [intros [= <-]; right; split; [reflexivity|discriminate]|].
  destruct (someIncluded _ Keywords.historyKeywords);
    [intros [= <-]; right; split; [reflexivity|discriminate]|].
  destruct (_ || _); [|intros [= <-]; left; reflexivity].
  destruct (classifyIntent getAgentsByRole message) as [i|];
    cbn [mbind option_bind]; [|discriminate].
  destruct (truthyId (suggestedAgentId i)) eqn:E; intros [= <-];
    [|left; reflexivity].
  right. split; [reflexivity|]. intros _. exists i. repeat split. exact E.
Qed.

(** When the analysis asks for no switch, its other fields are the
    defaults, whatever the current context is: [newContext] reads
    [general] and the confidence 0.5, so a caller must not take the
    current context from a result that does not switch. *)
Theorem analyzeContextSwitch_no_switch_is_default
    (now : Z) (message : jsstring) (chatId : string)
    (ctx : option (ConversationContext HistoryEntry)) :
  (shouldSwitch
     <$> analyzeContextSwitch getAgentsByRole findRelevantDocuments
           getRelevantHistory now message chatId ctx) = Some false ->
  analyzeContextSwitch getAgentsByRole findRelevantDocuments
    getRelevantHistory now message chatId ctx
  = Some (mkSwitch false general 0.5 [] [] [] None).
Proof.
  unfold analyzeContextSwitch.
  destruct (analyzeKeywords _ _ _ message chatId) as [r0|] eqn:Hk;
    cbn [mbind option_bind fmap option_fmap option_map]; [|discriminate].
  unfold checkCurrentContext. cbv zeta.
  destruct (analyzeKeywords_cases message chatId r0 Hk) as [E|[E _]]; rewrite E.
  - destruct ctx as [ctx|]; [|reflexivity]. cbn [negb shouldSwitch].
    destruct (_ <? _)%float; cbn [shouldSwitch]; [discriminate|reflexivity].
  - destruct ctx as [ctx|]; rewrite ?E; cbn [negb]; rewrite ?E; discriminate.
Qed.

End ContextSwitchFacts.

Section ContextSwitchInTheRepository.

Context {HistoryEntry : Type}.
Variable findRelevantDocuments : jsstring -> string -> list string.
Variable getRelevantHistory : jsstring -> string -> list HistoryEntry.

(** In the repository the analysis never switches to an agent context and
    never names an agent: the only branch that would asks [classifyIntent]
    for one, and [classifyIntent] throws or answers without an agent. *)
Theorem analyzeContextSwitch_never_agent
    (now : Z) (message : jsstring) (chatId : string)
    (ctx : option (ConversationContext HistoryEntry)) :
  (newContext
     <$> analyzeContextSwitch UseAgents.getAgentsByRole findRelevantDocuments
           getRelevantHistory now message chatId ctx) <> Some agent /\
  (analyzeContextSwitch UseAgents.getAgentsByRole findRelevantDocuments
     getRelevantHistory now message chatId ctx ≫= suggestedAgent) = None.
Proof.
  unfold analyzeContextSwitch.
  destruct (analyzeKeywords _ _ _ message chatId) as [r0|] eqn:Hk;
    cbn [mbind option_bind fmap option_fmap option_map];
    [|split; [discriminate|reflexivity]].
  assert (H0 : newContext r0 <> agent /\ suggestedAgent r0 = None).
  { revert Hk. unfold analyzeKeywords. cbv zeta.
    destruct (someIncluded _ Keywords.documentKeywords);
      [intros [= <-]; split; [discriminate|reflexivity]|].
    destruct (someIncluded _ Keywords.historyKeywords);
      [intros [= <-]; split; [discriminate|reflexivity]|].
    destruct (_ || _); [|intros [= <-]; split; [discriminate|reflexivity]].
    destruct (classifyIntent UseAgents.getAgentsByRole message) as [i|] eqn:Hi;
      cbn [mbind option_bind]; [|discriminate].
    rewrite (classifyIntent_suggests_nobody message i Hi). cbn [truthyId].
    intros [= <-]; split; [discriminate|reflexivity]. }
  destruct H0 as [Hn Ha].
  assert (Hgoal : newContext (checkCurrentContext now message ctx r0) <> agent
                  /\ suggestedAgent (checkCurrentContext now message ctx r0)
                     = None).
  { unfold checkCurrentContext. cbv zeta.
    destruct ctx as [ctx|]; [|split; assumption].
    destruct (negb (shouldSwitch r0)); [|split; assumption].
    rewrite effectiveness_below_threshold.
    destruct (degraded ctx message) eqn:Hd; [|split; assumption].
    cbn [newContext suggestedAgent].
    rewrite (effectiveness_degraded _ _ _ Hd). split; [discriminate|exact Ha]. }
  destruct Hgoal as [G1 G2]. split; [|exact G2].
  intros [= E]. exact (G1 E).
Qed.

(** A message that fires no keyword family leaves a [general] context, an
    [agent] context, and a [rag] context that has active documents as
    they are: the analysis answers with its defaults.  In the repository a
    message passes the agent family when none of the agent and technical
    keywords occurs or [classifyIntent] answers. *)
Theorem quiet_message_keeps_context
    (now : Z) (message : jsstring) (chatId : string)
    (ctx : ConversationContext HistoryEntry) :
  someIncluded (toLowerCase message) Keywords.documentKeywords = false ->
  someIncluded (toLowerCase message) Keywords.historyKeywords = false ->
  someIncluded (toLowerCase message) Keywords.agentTaskKeywords
    || someIncluded (toLowerCase message) Keywords.technicalKeywords = false
  \/ is_Some (classifyIntent UseAgents.getAgentsByRole message) ->
  currentContext ctx = general \/ currentContext ctx = agent
  \/ (currentContext ctx = rag /\ activeDocuments ctx <> []) ->
  analyzeContextSwitch UseAgents.getAgentsByRole findRelevantDocuments
    getRelevantHistory now message chatId (Some ctx)
  = Some (mkSwitch false general 0.5 [] [] [] None).
Proof.
  intros Hdoc Hhist Hagent Hctx. unfold analyzeContextSwitch.
  rewrite (analyzeKeywords_quiet UseAgents.getAgentsByRole
             findRelevantDocuments getRelevantHistory message chatId
             Hdoc Hhist (passes_agent_family message Hagent)).
  cbn [mbind option_bind]. f_equal.
  apply (checkCurrentContext_quiet now message ctx
           (mkSwitch false general 0.5 [] [] [] None) eq_refl).
  unfold degraded.
  destruct Hctx as [H|[H|[H Hdocs]]]; rewrite H; try reflexivity.
  destruct (activeDocuments ctx); [contradiction|].
  cbn [length Nat.eqb]. apply andb_false_r.
Qed.

(** A [history] context whose last switch is at least five minutes old is
    left for [general], at confidence 0.6, by a message that fires no
    keyword family and holds none of the history words. *)
Theorem history_context_degrades
    (now : Z) (message : jsstring) (chatId : string)
    (ctx : ConversationContext HistoryEntry) :
  currentContext ctx = history ->
  recentSwitch now ctx = false ->
  someIncluded (toLowerCase message) Keywords.documentKeywords = false ->
  someIncluded (toLowerCase message) Keywords.historyKeywords = false ->
  someIncluded (toLowerCase message) Keywords.effHistoryKeywords = false ->
  someIncluded (toLowerCase message) Keywords.agentTaskKeywords
    || someIncluded (toLowerCase message) Keywords.technicalKeywords = false
  \/ is_Some (classifyIntent UseAgents.getAgentsByRole message) ->
  exists r,
    analyzeContextSwitch UseAgents.getAgentsByRole findRelevantDocuments
      getRelevantHistory now message chatId (Some ctx) = Some r /\
    shouldSwitch r = true /\
    newContext r = general /\
    switch_confidence r = 0.6%float.
Proof.
  intros Hctx _ Hdoc Hhist Heff Hagent.
  destruct (analyzeContextSwitch_quiet UseAgents.getAgentsByRole
              findRelevantDocuments getRelevantHistory now message chatId ctx
              Hdoc Hhist (passes_agent_family message Hagent))
    as (r & Hr & Hs & Hn).
  assert (Hd : degraded ctx message = true).
  { unfold degraded. rewrite Hctx, Heff. reflexivity. }
  destruct (Hn Hd) as [Hnew Hconf].
  exists r. split; [exact Hr|]. split; [rewrite Hs; exact Hd|].
  split; [exact Hnew|]. rewrite Hconf.
  unfold analyzeCurrentContextEffectiveness. cbv zeta.
  rewrite Hctx, Heff. reflexivity.
Qed.

End ContextSwitchInTheRepository.

Section DocumentLookupFacts.
Import ContextLookups.
Variable getAgentsByRole : option (string -> list Agent).

(** A document keyword decides before everything else: the analysis
    switches to [rag] at confidence 0.85, whatever the current context, and
    suggests the documents bound to the chat or, when the chat has none (or
    is not found), the first five of the documents table. *)
Theorem document_keyword_switches_to_rag
    (documents : list string) (s : Store) (now : Z)
    (message pre kw post : jsstring) (chatId : string)
    (ctx : option (ConversationContext Scored)) :
  message = pre ++ kw ++ post ->
  In (toLowerCase kw) Keywords.documentKeywords ->
  exists r,
    analyzeContextSwitchIn getAgentsByRole documents s now message chatId ctx
    = Some r /\
    shouldSwitch r = true /\
    newContext r = rag /\
    switch_confidence r = 0.85%float /\
    (forall chat,
       chats s !! chatId = Some chat -> document_ids chat <> [] ->
       suggestedDocuments r = document_ids chat) /\
    ((forall chat, chats s !! chatId = Some chat -> document_ids chat = []) ->
     suggestedDocuments r = take 5 documents).
Proof.
  intros -> Hin.
  assert (Hr : analyzeContextSwitchIn getAgentsByRole documents s now
                 (pre ++ kw ++ post) chatId ctx
               = Some
                   (mkSwitch true rag 0.85
                      (utf16 "User is referencing documents or asking for document-based information")
                      (findRelevantDocuments documents (pre ++ kw ++ post)
                         chatId s)
                      [] None)).
  { unfold analyzeContextSwitchIn, analyzeContextSwitch, analyzeKeywords.
    cbv zeta. rewrite (someIncluded_occurrence _ _ _ _ Hin).
    cbn [mbind option_bind]. unfold checkCurrentContext.
    destruct ctx; reflexivity. }
  eexists. split; [exact Hr|].
  cbn [shouldSwitch newContext switch_confidence suggestedDocuments].
  split; [reflexivity|]. split; [reflexivity|]. split; [reflexivity|].
  unfold findRelevantDocuments. split.
  - intros chat Hc Hne. rewrite Hc. destruct (document_ids chat); [contradiction|].
    reflexivity.
  - intros Hnone. destruct (chats s !! chatId) as [chat|]; [|reflexivity].
    rewrite (Hnone chat eq_refl). reflexivity.
Qed.

End DocumentLookupFacts.

Lemma analyzeContextSwitch_no_switch_is_default_witness :
  Scenario.analyzeIn Scenario.boundStore (Sample.t0 + 60000)
    Sample.plainMessage (Some Scenario.boundContext)
  = Some (mkSwitch false general 0.5 [] [] [] None).
Proof.
  apply (analyzeContextSwitch_no_switch_is_default UseAgents.getAgentsByRole).
  vm_compute. reflexivity.
Defined.

Lemma quiet_message_keeps_context_witness :
  Scenario.analyzeIn Scenario.boundStore (Sample.t0 + 60000)
    Scenario.featureMessage (Some Scenario.boundContext)
  = Some (mkSwitch false general 0.5 [] [] [] None).
Proof.
  apply (quiet_message_keeps_context
           (fun m c =>
              ContextLookups.findRelevantDocuments Scenario.documents m c
                Scenario.boundStore)
           (fun m c => ContextLookups.getRelevantHistory m c Scenario.boundStore)).
  - vm_compute. reflexivity.
  - vm_compute. reflexivity.
  - right. vm_compute. eexists. reflexivity.
  - right. right. split; [vm_compute; reflexivity|vm_compute; discriminate].
Defined.

Lemma history_context_degrades_witness :
  exists r,
    Scenario.analyzeIn Scenario.boundStore Sample.t0 Sample.plainMessage
      (Some Scenario.oldHistoryContext) = Some r /\
    shouldSwitch r = true /\
    newContext r = general /\
    switch_confidence r = 0.6%float.
Proof.
  apply (history_context_degrades
           (fun m c =>
              ContextLookups.findRelevantDocuments Scenario.documents m c
                Scenario.boundStore)
           (fun m c => ContextLookups.getRelevantHistory m c Scenario.boundStore)).
  - reflexivity.
  - vm_compute. reflexivity.
  - vm_compute. reflexivity.
  - vm_compute. reflexivity.
  - vm_compute. reflexivity.
  - left. vm_compute. reflexivity.
Defined.

Lemma document_keyword_switches_to_rag_witness :
  exists r,
    Scenario.analyzeIn Scenario.boundStore Sample.t0
      "Что сказано в документе?" None = Some r /\
    shouldSwitch r = true /\
    newContext r = rag /\
    suggestedDocuments r = ["doc-7"; "doc-8"]%string.
Proof.
  destruct (document_keyword_switches_to_rag UseAgents.getAgentsByRole
              Scenario.documents Scenario.boundStore Sample.t0
              (utf16 "Что сказано в документе?") (utf16 "Что сказано ")
              (utf16 "в документе") (utf16 "?") "chat-1" None)
    as (r & Hr & Hs & Hn & _ & Hbound & _).
  - vm_compute. reflexivity.
  - vm_compute. left. reflexivity.
  - exists r. split; [exact Hr|]. split; [exact Hs|]. split; [exact Hn|].
    apply (Hbound (mkChat "rag" [] ["doc-7"; "doc-8"]%string)).
    + vm_compute. reflexivity.
    + discriminate.
Defined.

(** ** The edge function, beyond the claims *)

Section EdgeFacts.
Import MultiAgentChat MultiAgentChatFacts MultiAgentChatEnd.

Lemma start_error (now : Z) (req : StartRequest) (s : Store) :
  isSuccess (snd (startMultiAgentConversation now req s)) = false ->
  fst (startMultiAgentConversation now req s) = s.
Proof.
  unfold startMultiAgentConversation.
  destruct (agentIds req) as [ids|]; [|reflexivity].
  destruct (String.eqb (chatId req) "" || (length ids <? 2)%nat) eqn:Hguard;
    [reflexivity|].
  apply orb_false_iff in Hguard as [_ Hlen]. apply Nat.ltb_ge in Hlen.
  destruct (length (agentsIn ids s) =? length ids)%nat eqn:Hfound;
    cbn [negb]; [|reflexivity].
  apply Nat.eqb_eq in Hfound.
  destruct (agentsIn ids s) as [|first rest]; cbn [length] in Hfound; [lia|].
  cbn [snd isSuccess]. discriminate.
Qed.

(** The three operations are all or nothing: when the response is an
    error, the store is the one the call was given. *)
Theorem edge_errors_change_nothing :
  (forall (now : Z) (req : StartRequest) (s : Store),
     isSuccess (snd (startMultiAgentConversation now req s)) = false ->
     fst (startMultiAgentConversation now req s) = s) /\
  (forall (now : Z) (req : ContinueRequest) (s : Store),
     isSuccess (snd (continueConversation now req s)) = false ->
     fst (continueConversation now req s) = s) /\
  (forall (id : N) (s : Store),
     isSuccess (snd (endConversation id s)) = false ->
     fst (endConversation id s) = s).
Proof.
  split; [exact start_error|]. split.
  - intros now req s H.
    exact (continue_error now req s _ _ (surjective_pairing _) H).
  - intros id s. destruct (agent_conversations s !! id) as [c|] eqn:Hc.
    + rewrite (end_found _ _ _ Hc). cbn [snd isSuccess]. discriminate.
    + rewrite (end_missing _ _ Hc). reflexivity.
Qed.

Lemma agentAtTurn_nonneg (l : list string) (t : Z) :
  0 <= t -> agentAtTurn l t = l !! (Z.to_nat t mod length l)%nat.
Proof.
  intros Ht. unfold agentAtTurn, at_index. destruct l as [|x l]; [reflexivity|].
  set (n := length (x :: l)).
  assert (Hn : 0 < Z.of_nat n) by (subst n; cbn [length]; lia).
  rewrite Z.rem_mod_nonneg by lia.
  pose proof (Z.mod_pos_bound t (Z.of_nat n) Hn) as Hb.
  replace (t mod Z.of_nat n <? 0) with false by (symmetry; apply Z.ltb_ge; lia).
  replace (Z.to_nat (t mod Z.of_nat n)) with (Z.to_nat t mod n)%nat;
    [reflexivity|].
  rewrite <- (Z2Nat.id t) at 2 by exact Ht.
  rewrite <- Nat2Z.inj_mod, Nat2Z.id. reflexivity.
Qed.

Lemma continued_messages (id : N) (n : nat) (s s' : Store) :
  continued id n s s' ->
  forall st ids,
    stateOf s id = Some st -> 0 <= currentTurn st -> agents st = Some ids ->
    exists st' new,
      stateOf s' id = Some st' /\
      currentTurn st' = currentTurn st + Z.of_nat n /\
      maxTurns st' = maxTurns st /\
      (n <> 0%nat -> currentTurn st' <= maxTurns st') /\
      messages st' = messages st ++ new /\
      length new = n /\
      forall i m,
        new !! i = Some m ->
        ids !! ((Z.to_nat (currentTurn st) + i) mod length ids)%nat
        = Some (agentId m).
Proof.
  induction 1 as [s|n now req s s1 s2 r Hid Hstep Hok Hrest IH];
    intros st ids Hst Hturn Hids.
  - exists st, []. rewrite app_nil_r.
    split; [exact Hst|]. split; [cbn; lia|]. split; [reflexivity|].
    split; [intros H; exfalso; apply H; reflexivity|].
    split; [reflexivity|]. split; [reflexivity|].
    intros i m H. discriminate.
  - destruct (continue_success _ _ _ _ _ Hstep Hok)
      as (c & l & a & text & Hc & Hlt & Hact & Hl & Hat & Hs1 & _).
    rewrite Hid in *. rewrite (stateOf_Some _ _ _ Hc) in Hst.
    injection Hst as <-. rewrite Hl in Hids. injection Hids as <-.
    destruct (IH _ l Hs1) as (st' & new & Hst' & Ht & Hm & Hle & Hmsg & Hlen & Hnew).
    + cbn [currentTurn]. lia.
    + reflexivity.
    + cbn [currentTurn maxTurns messages] in *.
      exists st', (mkTurn (agent_id a) (Some (agent_name a)) text now :: new).
      split; [exact Hst'|]. split; [lia|]. split; [exact Hm|]. split.
      { intros _. destruct n as [|n]; [|apply Hle; discriminate].
        rewrite Hm. lia. }
      split; [rewrite Hmsg, <- app_assoc; reflexivity|].
      split; [cbn [length]; rewrite Hlen; reflexivity|].
      intros [|i] m Hi.
      * injection Hi as <-. cbn [agentId]. rewrite Nat.add_0_r.
        rewrite <- agentAtTurn_nonneg by exact Hturn. exact Hat.
      * cbn [lookup list_lookup] in Hi.
        rewrite <- (Hnew i m Hi). f_equal. f_equal.
        rewrite Z2Nat.inj_add by lia. change (Z.to_nat 1) with 1%nat. lia.
Qed.

(** After a successful [start] for the agent ids [ids], [n] successful
    [continue] calls leave the conversation at turn [n] with [n] recorded
    turns, of which the i-th (from 0) was spoken by [ids[i mod len]]; and
    there are never more of them than [maxTurns]. *)
Theorem continue_turns_are_round_robin
    (now : Z) (req : StartRequest) (s0 s1 s' : Store) (id : N)
    (text : jsstring) (next : option string) (t : Z) (n : nat)
    (ids : list string) :
  agentIds req = Some ids ->
  startMultiAgentConversation now req s0 = (s1, StartResponse id text next t) ->
  continued id n s1 s' ->
  exists st,
    stateOf s' id = Some st /\
    currentTurn st = Z.of_nat n /\
    length (messages st) = n /\
    Z.of_nat n <= Z.max 0 (default 5 (start_maxTurns req)) /\
    forall i m,
      messages st !! i = Some m ->
      ids !! (i mod length ids)%nat = Some (agentId m).
Proof.
  intros Hids Hstart Hrun.
  destruct (start_success _ _ _ _ _ Hstart eq_refl)
    as (ids' & a1 & a2 & found & Hids' & _ & _ & _ & Hr & Hst & _).
  rewrite Hids in Hids'. injection Hids' as <-. injection Hr as -> _ _ _.
  destruct (continued_messages _ _ _ _ Hrun _ ids Hst)
    as (st & new & Hst' & Ht & Hm & Hle & Hmsg & Hlen & Hnew);
    [cbn [currentTurn]; lia|reflexivity|].
  cbn [currentTurn maxTurns messages app] in *.
  exists st. split; [exact Hst'|]. split; [lia|].
  split; [rewrite Hmsg; exact Hlen|]. split.
  - destruct n as [|n]; [lia|]. specialize (Hle ltac:(discriminate)). lia.
  - intros i m Hi. rewrite Hmsg in Hi. exact (Hnew i m Hi).
Qed.

(** The edge function never takes a conversation out of [completed]. *)
Lemma completed_under_edge_operations (id : N) (ops : list Operation)
    (s : Store) :
  forallb isEdge ops = true ->
  (exists c, agent_conversations s !! id = Some c /\
             status (conversation_state c) = completed) ->
  exists c, agent_conversations (performAll ops s) !! id = Some c /\
            status (conversation_state c) = completed.
Proof.
  revert s. induction ops as [|op ops IH]; intros s Hops Hs; [exact Hs|].
  cbn [forallb] in Hops. apply andb_true_iff in Hops as [Hop Hops].
  unfold performAll. cbn [fold_left]. apply (IH _ Hops).
  destruct Hs as (c & Hc & Hst).
  destruct op; try discriminate Hop; cbn [perform].
  - exists c. split; [apply start_keeps_rows, Hc|exact Hst].
  - destruct (continue_keeps_status now req s id c Hc) as (c' & H1 & H2 & _).
    exists c'. split; [exact H1|]. rewrite H2. exact Hst.
  - destruct (end_completes id0 s id c Hc) as (c' & H1 & H2 & _).
    exists c'. split; [exact H1|]. rewrite H2.
    destruct (decide (id0 = id)); [reflexivity|exact Hst].
Qed.

(** Once the edge function has ended a conversation, every later
    [continue] call of the edge function for it is rejected and returns the
    store as it was, whichever calls of the edge function ([start],
    [continue], [end], for this or for other conversations) came in
    between.  The hook is not covered: its [continueConversation] can make
    the conversation active again. *)
Theorem ended_conversation_rejects_continue
    (id : N) (s : Store) (ops : list Operation) (now : Z)
    (req : ContinueRequest) :
  is_Some (agent_conversations s !! id) ->
  forallb isEdge ops = true ->
  conversationId req = id ->
  continueConversation now req (performAll ops (fst (endConversation id s)))
  = (performAll ops (fst (endConversation id s)), notActive).
Proof.
  intros [c Hc] Hops Hreq.
  destruct (end_completes id s id c Hc) as (c' & Hc' & Hstatus & _).
  destruct (decide (id = id)) as [_|Hn]; [|contradiction].
  destruct (completed_under_edge_operations id ops _ Hops
              (ex_intro _ c' (conj Hc' Hstatus))) as (c2 & Hc2 & Hst2).
  apply (continue_not_active now req _ (conversation_state c2)).
  - rewrite Hreq. apply stateOf_Some, Hc2.
  - right. rewrite Hst2. discriminate.
Qed.

(** What a successful [continue] answers agrees with what it stored: the
    turn of the response is the stored turn, the message is the last
    recorded turn and the newest row of the transcript, and
    [should_continue] is false exactly when the stored turn has reached
    [maxTurns], in which case no next agent is named. *)
Theorem continue_response_matches_state
    (now : Z) (req : ContinueRequest) (s s' : Store) (text : jsstring)
    (next : option string) (t : Z) (more : bool) :
  continueConversation now req s = (s', ContinueResponse text next t more) ->
  exists st,
    stateOf s' (conversationId req) = Some st /\
    t = currentTurn st /\
    more = (currentTurn st <? maxTurns st) /\
    (more = false -> next = None) /\
    (content <$> last (messages st)) = Some text /\
    (msg_content <$> head (messages_table s')) = Some text.
Proof.
  unfold continueConversation.
  destruct (agent_conversations s !! conversationId req) as [c|] eqn:Hc;
    [|discriminate].
  destruct (_ || _); [discriminate|].
  destruct (agents (conversation_state c)) as [l|]; [|discriminate].
  destruct (_ ≫= _) as [a|]; [|discriminate].
  cbv zeta. cbn [currentTurn maxTurns]. intros [= <- <- <- <- <-].
  eexists. split.
  - apply stateOf_updateConversationState.
    rewrite conversations_insertMessage, Hc. eauto.
  - cbn [currentTurn maxTurns messages]. split; [reflexivity|].
    split; [reflexivity|]. split.
    + intros ->. reflexivity.
    + split; [rewrite last_snoc; reflexivity|reflexivity].
Qed.

(** Every generated message quotes the topic, and the turn suffix is
    appended exactly when [turn > 0]; it names [turn + 1]. *)
Theorem generateAgentMessage_shape
    (a : Agent) (topic : jsstring) (context : list Message) (turn : Z) :
  includes (generateAgentMessage a topic context turn)
    (quote ++ topic ++ quote) = true /\
  generateAgentMessage a topic context turn
  = generateAgentMessage a topic context 0
      ++ (if 0 <? turn
          then utf16 " Это мой " ++ ofZ (turn + 1)
                 ++ utf16 "-й ход в нашем обсуждении."
          else []).
Proof.
  assert (Hshape : generateAgentMessage a topic context turn
                   = generateAgentMessage a topic context 0
                       ++ (if 0 <? turn
                           then utf16 " Это мой " ++ ofZ (turn + 1)
                                  ++ utf16 "-й ход в нашем обсуждении."
                           else [])).
  { unfold generateAgentMessage. cbv zeta. change (0 <? 0) with false.
    cbv iota. destruct (0 <? turn); [|rewrite app_nil_r; reflexivity].
    rewrite <- !app_assoc. reflexivity. }
  split; [|exact Hshape].
  rewrite Hshape.
  assert (H0 : exists lead rest,
             generateAgentMessage a topic context 0
             = utf16 lead ++ (quote ++ topic ++ quote) ++ rest).
  { unfold generateAgentMessage. cbv zeta. change (0 <? 0) with false.
    cbv iota.
    repeat match goal with
           | |- context [if String.eqb ?x ?y then _ else _] =>
               destruct (String.eqb x y)
           end;
      eexists _, _; rewrite <- !app_assoc; reflexivity. }
  destruct H0 as (lead & rest & ->).
  set (quoted := quote ++ topic ++ quote).
  rewrite <- !app_assoc.
  exact (includes_app (utf16 lead) quoted _).
Qed.

End EdgeFacts.

Lemma edge_errors_change_nothing_witness :
  fst (MultiAgentChat.startMultiAgentConversation Sample.t0 Sample.startOne
         Sample.store) = Sample.store /\
  fst (MultiAgentChat.continueConversation Sample.t0
         (MultiAgentChat.mkContinue "chat-1" 99) Sample.store) = Sample.store /\
  fst (MultiAgentChat.endConversation 99 Sample.store) = Sample.store.
Proof.
  destruct edge_errors_change_nothing as (Hs & Hc & He).
  split; [|split].
  - apply Hs. vm_compute. reflexivity.
  - apply Hc. vm_compute. reflexivity.
  - apply He. vm_compute. reflexivity.
Defined.

Lemma continue_turns_are_round_robin_witness :
  exists st,
    stateOf (Sample.afterTurns Sample.startThree 5) Sample.conversation
      = Some st /\
    currentTurn st = 5 /\
    length (messages st) = 5%nat /\
    5 <= Z.max 0 (default 5 (MultiAgentChat.start_maxTurns Sample.startThree)) /\
    forall i m,
      messages st !! i = Some m ->
      ["agent-a"; "agent-b"; "agent-c"]%string !! (i mod 3)%nat
      = Some (agentId m).
Proof.
  refine (continue_turns_are_round_robin Sample.t0 Sample.startThree
            Sample.store (Sample.started Sample.startThree)
            (Sample.afterTurns Sample.startThree 5) Sample.conversation
            (MultiAgentChat.generateAgentMessage Sample.agentA
               (utf16 "AI Research") [] 0)
            (Some "agent-b"%string) 1 5
            ["agent-a"; "agent-b"; "agent-c"]%string _ _ _).
  - reflexivity.
  - vm_compute. reflexivity.
  - apply continueTimes_continued. vm_compute. reflexivity.
Defined.

Lemma ended_conversation_rejects_continue_witness :
  MultiAgentChat.continueConversation (Sample.t0 + 9000)
    (MultiAgentChat.mkContinue "chat-1" Sample.conversation)
    (performAll
       [ EdgeContinue (Sample.t0 + 7000)
           (MultiAgentChat.mkContinue "chat-1" Sample.conversation);
         EdgeStart (Sample.t0 + 8000) Sample.startThree ]
       (fst (MultiAgentChat.endConversation Sample.conversation
               (Sample.afterTurns Sample.startTwo 2))))
  = (performAll
       [ EdgeContinue (Sample.t0 + 7000)
           (MultiAgentChat.mkContinue "chat-1" Sample.conversation);
         EdgeStart (Sample.t0 + 8000) Sample.startThree ]
       (fst (MultiAgentChat.endConversation Sample.conversation
               (Sample.afterTurns Sample.startTwo 2))),
     MultiAgentChat.notActive).
Proof.
  apply ended_conversation_rejects_continue.
  - eexists. vm_compute. reflexivity.
  - reflexivity.
  - reflexivity.
Defined.

Lemma continue_response_matches_state_witness :
  exists st,
    stateOf (Sample.afterTurns Sample.startTwo 1) Sample.conversation
      = Some st /\
    1 = currentTurn st /\
    true = (currentTurn st <? maxTurns st) /\
    (true = false -> Some "agent-b"%string = None) /\
    (content <$> last (messages st))
      = Some (MultiAgentChat.generateAgentMessage Sample.agentA
                (utf16 "AI Research")
                (messages_table (Sample.started Sample.startTwo)) 0) /\
    (msg_content <$> head (messages_table (Sample.afterTurns Sample.startTwo 1)))
      = Some (MultiAgentChat.generateAgentMessage Sample.agentA
                (utf16 "AI Research")
                (messages_table (Sample.started Sample.startTwo)) 0).
Proof.
  apply (continue_response_matches_state (Sample.t0 + 1000)
           (MultiAgentChat.mkContinue "chat-1" Sample.conversation)
           (Sample.started Sample.startTwo)).
  vm_compute. reflexivity.
Defined.

(** ** The hook [useMultiAgentChat], beyond the claims *)

Section HookFacts.
Import UseMultiAgentChat.

(** [continueConversation] of the hook has no guard: for every existing
    conversation it succeeds, counts the turn, records the message, and
    sets the status (in the state and in the row alike) to [completed] when
    the new turn count has reached [maxTurns] and to [active] otherwise,
    whatever the status was before; a conversation that was ended early is
    active again after the call.  Other conversations are left alone, and
    a missing conversation makes the call throw without a change. *)
Theorem hook_continue_sets_status_by_turn
    (now : Z) (id : N) (speaker : string) (message : jsstring) (s : Store) :
  (forall c,
     agent_conversations s !! id = Some c ->
     snd (continueConversation now id speaker message s) = Done /\
     exists c',
       agent_conversations (fst (continueConversation now id speaker message s))
         !! id = Some c' /\
       currentTurn (conversation_state c')
         = currentTurn (conversation_state c) + 1 /\
       messages (conversation_state c')
         = messages (conversation_state c) ++ [mkTurn speaker None message now] /\
       (status (conversation_state c') = completed
        <-> maxTurns (conversation_state c)
            <= currentTurn (conversation_state c) + 1) /\
       (status (conversation_state c') = active
        <-> currentTurn (conversation_state c) + 1
            < maxTurns (conversation_state c)) /\
       row_status c' = status (conversation_state c')) /\
  (forall other,
     other <> id ->
     agent_conversations (fst (continueConversation now id speaker message s))
       !! other
     = agent_conversations s !! other) /\
  (agent_conversations s !! id = None ->
   continueConversation now id speaker message s
   = (s, Thrown "Conversation not found")).
Proof.
  unfold continueConversation. split; [|split].
  - intros c Hc. rewrite Hc. cbv zeta. cbn [fst snd]. split; [reflexivity|].
    unfold with_conversations. cbn [agent_conversations].
    rewrite lookup_insert_eq. eexists. split; [reflexivity|].
    cbn [conversation_state currentTurn messages status row_status].
    split; [reflexivity|]. split; [reflexivity|].
    destruct (maxTurns (conversation_state c)
              <=? currentTurn (conversation_state c) + 1) eqn:E.
    + apply Z.leb_le in E. split; [|split; [|reflexivity]].
      * split; [intros _; exact E|reflexivity].
      * split; [discriminate|lia].
    + apply Z.leb_gt in E. split; [|split; [|reflexivity]].
      * split; [discriminate|lia].
      * split; [intros _; exact E|reflexivity].
  - intros other Hne. destruct (agent_conversations s !! id) as [c|];
      [|reflexivity].
    cbv zeta. cbn [fst]. unfold with_conversations. cbn [agent_conversations].
    rewrite lookup_insert_ne by congruence. reflexivity.
  - intros ->. reflexivity.
Qed.

(** [startAgentConversation] of the hook throws exactly when nobody is
    signed in, the chat id is empty or the agent list is empty, and then
    changes nothing; otherwise it adds one conversation under an unused id:
    active, at turn 0, without messages, its agents under [participants].
    One agent is enough. *)
Theorem hook_start_guard
    (now : Z) (chatId : string) (agentIds : list string) (topic : jsstring)
    (maxTurns : option Z) (s : Store) :
  (snd (startAgentConversation now chatId agentIds topic maxTurns s) = Done
   <-> is_Some (session_user s) /\ chatId <> ""%string /\ agentIds <> []) /\
  (snd (startAgentConversation now chatId agentIds topic maxTurns s) <> Done ->
   fst (startAgentConversation now chatId agentIds topic maxTurns s) = s) /\
  (snd (startAgentConversation now chatId agentIds topic maxTurns s) = Done ->
   agent_conversations s !! fresh (dom (agent_conversations s)) = None /\
   agent_conversations
     (fst (startAgentConversation now chatId agentIds topic maxTurns s))
   = <[ fresh (dom (agent_conversations s)) :=
          mkConv chatId agentIds
            (mkState 0 (default 5 maxTurns) None (Some agentIds) topic
               active [])
            active now ]> (agent_conversations s)).
Proof.
  unfold startAgentConversation.
  destruct (session_user s) as [u|].
  - destruct (String.eqb chatId "") eqn:Hc; cbn [orb].
    + apply String.eqb_eq in Hc. cbn [fst snd]. split; [|split].
      * split; [discriminate|]. intros (_ & H & _). contradiction.
      * reflexivity.
      * discriminate.
    + apply String.eqb_neq in Hc. destruct agentIds as [|a l]; cbn [length Nat.eqb fst snd].
      * split; [|split]; [|reflexivity|discriminate].
        split; [discriminate|]. intros (_ & _ & H). contradiction.
      * split; [|split].
        -- split; [|reflexivity]. intros _.
           split; [eexists; reflexivity|]. split; [exact Hc|discriminate].
        -- intros H. contradiction.
        -- intros _. split; [apply not_elem_of_dom, is_fresh|reflexivity].
  - cbn [fst snd]. split; [|split]; [|reflexivity|discriminate].
    split; [discriminate|]. intros ([u Hu] & _). discriminate.
Qed.

Lemma hook_start_rows
    (now : Z) (chatId : string) (agentIds : list string) (topic : jsstring)
    (limit : option Z) (s s' : Store) :
  startAgentConversation now chatId agentIds topic limit s = (s', Done) ->
  agent_conversations s'
  = <[ fresh (dom (agent_conversations s)) :=
         mkConv chatId agentIds
           (mkState 0 (default 5 limit) None (Some agentIds) topic active [])
           active now ]> (agent_conversations s).
Proof.
  unfold startAgentConversation.
  destruct (session_user s) as [u|]; [|discriminate].
  destruct (String.eqb chatId ""); cbn [orb]; [discriminate|].
  destruct agentIds as [|a l]; cbn [length Nat.eqb]; [discriminate|].
  intros H. injection H as <-. reflexivity.
Qed.

(** A conversation that the hook has started cannot be continued by the
    edge function: its state has no [agents] list, and the call answers
    with status 500 and changes nothing. *)
Theorem edge_cannot_continue_hook_conversation
    (now now' : Z) (chatId : string) (agentIds : list string)
    (topic : jsstring) (limit : option Z) (s s' : Store)
    (req : MultiAgentChat.ContinueRequest) :
  startAgentConversation now chatId agentIds topic limit s = (s', Done) ->
  0 < default 5 limit ->
  MultiAgentChat.conversationId req = fresh (dom (agent_conversations s)) ->
  exists message,
    MultiAgentChat.continueConversation now' req s'
    = (s', MultiAgentChat.ErrorResponse 500 message).
Proof.
  intros Hstart Hmax Hreq.
  pose proof (hook_start_rows now chatId agentIds topic limit s s' Hstart)
    as Hrows.
  unfold MultiAgentChat.continueConversation.
  rewrite Hreq, Hrows, lookup_insert_eq.
  cbn [conversation_state currentTurn maxTurns status isActive negb agents].
  replace (default 5 limit <=? 0) with false
    by (symmetry; apply Z.leb_gt; exact Hmax).
  cbn [orb]. eexists. reflexivity.
Qed.

End HookFacts.

Lemma hook_continue_sets_status_by_turn_witness :
  exists c',
    agent_conversations
      (fst (UseMultiAgentChat.continueConversation (Sample.t0 + 60000) 7
              "agent-b" (utf16 "...") Sample.cancelledStore)) !! 7%N
      = Some c' /\
    status (conversation_state c') = active /\
    row_status c' = active.
Proof.
  destruct (proj1 (hook_continue_sets_status_by_turn (Sample.t0 + 60000) 7
                     "agent-b" (utf16 "...") Sample.cancelledStore)
              (mkConv "chat-1" ["agent-a"; "agent-b"]%string
                 Sample.cancelledState cancelled Sample.t0))
    as (_ & c' & Hc' & _ & _ & _ & Hactive & Hrow).
  - vm_compute. reflexivity.
  - exists c'. split; [exact Hc'|].
    assert (Ha : status (conversation_state c') = active).
    { apply Hactive. vm_compute. reflexivity. }
    split; [exact Ha|]. rewrite Hrow. exact Ha.
Defined.

Lemma hook_start_guard_witness :
  snd (UseMultiAgentChat.startAgentConversation Sample.t0 "chat-1"
         ["agent-a"%string] (utf16 "AI Research") None Sample.store)
  = UseMultiAgentChat.Done.
Proof.
  apply (proj1 (hook_start_guard Sample.t0 "chat-1" ["agent-a"%string]
                  (utf16 "AI Research") None Sample.store)).
  split; [eexists; reflexivity|]. split; discriminate.
Defined.

Lemma edge_cannot_continue_hook_conversation_witness :
  exists message,
    MultiAgentChat.continueConversation (Sample.t0 + 1000)
      (MultiAgentChat.mkContinue "chat-1" Sample.conversation)
      (fst (UseMultiAgentChat.startAgentConversation Sample.t0 "chat-1"
              ["agent-a"; "agent-b"]%string (utf16 "AI Research") None
              Sample.store))
    = (fst (UseMultiAgentChat.startAgentConversation Sample.t0 "chat-1"
              ["agent-a"; "agent-b"]%string (utf16 "AI Research") None
              Sample.store),
       MultiAgentChat.ErrorResponse 500 message).
Proof.
  apply (edge_cannot_continue_hook_conversation Sample.t0 (Sample.t0 + 1000)
           "chat-1" ["agent-a"; "agent-b"]%string (utf16 "AI Research") None
           Sample.store).
  - reflexivity.
  - reflexivity.
  - reflexivity.
Defined.

(** ** The feedback loop, beyond the claims *)

Section FeedbackFacts.
Import SelfImprovingAgents SelfImprovingFacts.

Lemma find_map_same_test {A} (p : A -> bool) (f : A -> A) (l : list A) :
  (forall x, p (f x) = p x) ->
  find p (map f l) = f <$> find p l.
Proof.
  intros Hp. induction l as [|x l IH]; [reflexivity|].
  cbn [map find]. rewrite Hp. destruct (p x); [reflexivity|exact IH].
Qed.

(** The agent rows after [suggestPromptImprovement] has found its agent. *)
Lemma suggestPromptImprovement_agents
    (now : Z) (id : string) (feedback : list FeedbackType)
    (analysis : Analysis) (s : Store) (a : Agent) (u : string) :
  session_user s = Some u ->
  getAgentById id s = Some a ->
  session_user (suggestPromptImprovement now id feedback analysis s) = Some u /\
  agents_table (suggestPromptImprovement now id feedback analysis s)
  = map (fun x =>
           if ownedBy u id x then
             mkAgent (agent_id x) (agent_user_id x) (agent_name x)
               (system_prompt a ++ promptAdditions feedback analysis)
               (role x) (is_active x) (performance_metrics x) (Some now)
           else x)
      (agents_table s).
Proof.
  intros Hu Ha. unfold suggestPromptImprovement. rewrite Ha. cbv zeta.
  unfold getAgentById in Ha. rewrite Hu in Ha. cbn [mbind option_bind] in Ha.
  unfold updateAgent, with_logs, with_agents.
  cbn [session_user agents_table]. rewrite Hu. cbn [mbind option_bind].
  assert (Hex : existsb (ownedBy u id) (agents_table s) = true).
  { apply existsb_exists. apply find_some in Ha. exists a. exact Ha. }
  rewrite Hex. cbn [session_user agents_table]. split; reflexivity.
Qed.

(** What a run of the analysis can do: nothing, or -- with at least three
    rows in the window, an analysis that calls for it and an agent that the
    signed-in user owns -- one improvement.  An improvement adds exactly
    one log entry, which holds the prompt before, the prompt after (the old
    prompt followed by the additions) and the ids of the rows of the window
    (at most ten); the agent's prompt becomes the logged one, and the
    feedback table is not touched. *)
Theorem improvement_logs_one_entry_and_appends
    (now : Z) (id : string) (s : Store) :
  analyzeFeedbackForImprovement now id s = s
  \/
  exists a entry,
    getAgentById id s = Some a /\
    (3 <= length (recentFeedbackOf id s))%nat /\
    shouldImprove (analyzeAggregatedFeedback (recentFeedbackOf id s)) = true /\
    prompt_improvement_logs (analyzeFeedbackForImprovement now id s)
      = entry :: prompt_improvement_logs s /\
    log_agent_id entry = id /\
    old_prompt entry = system_prompt a /\
    new_prompt entry
      = system_prompt a
          ++ promptAdditions (recentFeedbackOf id s)
               (analyzeAggregatedFeedback (recentFeedbackOf id s)) /\
    feedback_ids entry = map feedback_id (recentFeedbackOf id s) /\
    (length (feedback_ids entry) <= 10)%nat /\
    (system_prompt <$> getAgentById id (analyzeFeedbackForImprovement now id s))
      = Some (new_prompt entry) /\
    agent_feedback (analyzeFeedbackForImprovement now id s) = agent_feedback s.
Proof.
  unfold analyzeFeedbackForImprovement. cbv zeta.
  destruct (length (recentFeedbackOf id s) <? 3)%nat eqn:Hlen; [left; reflexivity|].
  apply Nat.ltb_ge in Hlen.
  destruct (shouldImprove _) eqn:Himp; [|left; reflexivity].
  destruct (getAgentById id s) as [a|] eqn:Ha.
  - right.
    destruct (suggestPromptImprovement_found now id (recentFeedbackOf id s)
                (analyzeAggregatedFeedback (recentFeedbackOf id s)) s a Ha)
      as (entry & Hlog & Hlid & Hold & Hnew & Hids & Hprompt & Hfb).
    exists a, entry. split; [reflexivity|]. split; [exact Hlen|].
    split; [reflexivity|]. split; [exact Hlog|]. split; [exact Hlid|].
    split; [exact Hold|]. split; [exact Hnew|]. split; [exact Hids|].
    split; [|split; [exact Hprompt|exact Hfb]].
    rewrite Hids, length_map. unfold recentFeedbackOf. rewrite length_take. lia.
  - left. unfold suggestPromptImprovement. rewrite Ha. reflexivity.
Qed.

(** No run of the analysis, for whichever agent, shortens or rewrites the
    prompt of an agent: the prompt afterwards is the prompt before followed
    by what was appended (nothing, when the run did not touch that
    agent). *)
Theorem prompt_never_shrinks
    (now : Z) (target id : string) (s : Store) (a : Agent) :
  getAgentById id s = Some a ->
  exists a' additions,
    getAgentById id (analyzeFeedbackForImprovement now target s) = Some a' /\
    system_prompt a' = system_prompt a ++ additions /\
    agent_id a' = agent_id a /\ agent_name a' = agent_name a /\
    role a' = role a.
Proof.
  intros Ha.
  assert (Hsame : forall s', s' = s ->
            exists a' additions,
              getAgentById id s' = Some a' /\
              system_prompt a' = system_prompt a ++ additions /\
              agent_id a' = agent_id a /\ agent_name a' = agent_name a /\
              role a' = role a).
  { intros s' ->. exists a, []. rewrite app_nil_r. repeat split. exact Ha. }
  unfold analyzeFeedbackForImprovement. cbv zeta.
  destruct (_ <? 3)%nat; [apply Hsame; reflexivity|].
  destruct (shouldImprove _); [|apply Hsame; reflexivity].
  destruct (getAgentById target s) as [a0|] eqn:Ha0;
    [|apply Hsame; unfold suggestPromptImprovement; rewrite Ha0; reflexivity].
  pose proof Ha as Hfind. unfold getAgentById in Hfind.
  destruct (session_user s) as [u|] eqn:Hu; [|discriminate].
  cbn [mbind option_bind] in Hfind.
  destruct (suggestPromptImprovement_agents now target
              (recentFeedbackOf target s)
              (analyzeAggregatedFeedback (recentFeedbackOf target s)) s a0 u
              Hu Ha0) as [Hu' Hagents].
  unfold getAgentById. rewrite Hu', Hagents. cbn [mbind option_bind].
  rewrite find_map_same_test, Hfind.
  - cbn [fmap option_fmap option_map].
    destruct (ownedBy u target a) eqn:Hown.
    + eexists. eexists. split; [reflexivity|].
      cbn [system_prompt agent_id agent_name role].
      assert (E : a0 = a).
      { unfold getAgentById in Ha0. rewrite Hu in Ha0.
        cbn [mbind option_bind] in Ha0.
        destruct (find_some _ _ Hfind) as [_ Hid].
        unfold ownedBy in Hown, Hid.
        apply andb_true_iff in Hown as [Ht _]. apply andb_true_iff in Hid as [Hi _].
        apply String.eqb_eq in Ht, Hi.
        assert (Eid : target = id) by (rewrite <- Ht, <- Hi; reflexivity).
        rewrite Eid, Hfind in Ha0. injection Ha0 as E. symmetry. exact E. }
      rewrite E. repeat split.
    + exists a, []. rewrite app_nil_r. repeat split.
  - intros x. unfold ownedBy. destruct (String.eqb (agent_id x) target
                                        && String.eqb (agent_user_id x) u);
      reflexivity.
Qed.

End FeedbackFacts.

Section FeedbackRows.
Import SelfImprovingAgents SelfImprovingFacts.

Lemma analyzeFeedbackForImprovement_keeps_feedback
    (now : Z) (id : string) (s : Store) :
  agent_feedback (analyzeFeedbackForImprovement now id s) = agent_feedback s.
Proof.
  unfold analyzeFeedbackForImprovement. cbv zeta.
  destruct (_ <? 3)%nat; [reflexivity|].
  destruct (shouldImprove _); [|reflexivity].
  destruct (getAgentById id s) as [a|] eqn:Ha.
  - destruct (suggestPromptImprovement_found now id (recentFeedbackOf id s)
                (analyzeAggregatedFeedback (recentFeedbackOf id s)) s a Ha)
      as (entry & _ & _ & _ & _ & _ & _ & Hfb).
    exact Hfb.
  - unfold suggestPromptImprovement. rewrite Ha. reflexivity.
Qed.

(** Whatever the analysis then decides, [collectFeedback] puts exactly one
    row in front of the feedback table, the row it returns: it copies the
    input, is stamped with the time of the call and has an id that no
    stored row had. *)
Theorem collectFeedback_stores_the_returned_row
    (now : Z) (f : FeedbackInput) (s : Store) :
  agent_feedback (fst (collectFeedback now f s))
    = snd (collectFeedback now f s) :: agent_feedback s /\
  ~ In (feedback_id (snd (collectFeedback now f s)))
       (map feedback_id (agent_feedback s)) /\
  created_at (snd (collectFeedback now f s)) = now /\
  feedback_agent_id (snd (collectFeedback now f s)) = in_agent_id f /\
  feedback_type (snd (collectFeedback now f s)) = in_feedback_type f /\
  user_feedback (snd (collectFeedback now f s)) = in_user_feedback f.
Proof.
  split; [|split; [|repeat split]].
  - unfold collectFeedback. cbv zeta. cbn [fst snd].
    rewrite analyzeFeedbackForImprovement_keeps_feedback. reflexivity.
  - unfold collectFeedback. cbv zeta. cbn [snd feedback_id].
    intros Hin. apply list_elem_of_In in Hin.
    exact (infinite_is_fresh _ Hin).
Qed.

(** [identifyCommonIssues] reports the issues in the order of its table,
    each at most once, and none at all for fewer than two rows. *)
Theorem identifyCommonIssues_in_table_order (feedback : list FeedbackType) :
  sublist (identifyCommonIssues feedback)
    [accuracy; clarity; completeness; relevance; tone] /\
  ((length feedback <? 2)%nat = true -> identifyCommonIssues feedback = []).
Proof.
  unfold identifyCommonIssues, patterns. cbv zeta.
  cbn [flat_map]. split.
  - repeat match goal with
           | |- context [if ?b then _ else _] => destruct b
           end;
      cbn [app];
      repeat first [ apply sublist_nil_l | apply sublist_skip
                   | apply sublist_cons ].
  - intros Hlen. apply Nat.ltb_lt in Hlen.
    assert (H : forall kw,
              (2 <=? length (List.filter
                               (fun text => someIncluded text kw)
                               (map (fun f => toLowerCase (user_feedback f))
                                  feedback)))%nat = false).
    { intros kw. apply Nat.leb_gt.
      pose proof (filter_length_le
                    (fun text => someIncluded text kw)
                    (map (fun f => toLowerCase (user_feedback f)) feedback))
        as Hle.
      rewrite length_map in Hle. lia. }
    rewrite !H. reflexivity.
Qed.

Lemma filter_all {A} (p : A -> bool) (l : list A) :
  Forall (fun x => p x = true) l -> List.filter p l = l.
Proof.
  induction 1 as [|x l Hx _ IH]; [reflexivity|].
  cbn [List.filter]. rewrite Hx, IH. reflexivity.
Qed.

Lemma whole_ratio_above_threshold (n : nat) :
  (1 <= n <= 10)%nat -> (0.3 <? number n / number n)%float = true.
Proof.
  intros Hn.
  do 11 (destruct n as [|n]; [first [lia | vm_compute; reflexivity]|]).
  lia.
Qed.

(** A window of one to ten rows that are all corrections or improvement
    requests calls for an improvement, whatever their texts and confidence
    scores. *)
Theorem all_negative_window_improves (feedback : list FeedbackType) :
  Forall (fun f => isNegative (feedback_type f) = true) feedback ->
  (1 <= length feedback <= 10)%nat ->
  shouldImprove (analyzeAggregatedFeedback feedback) = true.
Proof.
  intros Hall Hlen. unfold analyzeAggregatedFeedback. cbv zeta.
  cbn [shouldImprove].
  rewrite (filter_all (fun f => isNegative (feedback_type f)) feedback Hall).
  rewrite (whole_ratio_above_threshold _ Hlen). reflexivity.
Qed.

End FeedbackRows.

Lemma prompt_never_shrinks_witness :
  exists a' additions,
    SelfImprovingAgents.getAgentById "agent-a"
      (SelfImprovingAgents.analyzeFeedbackForImprovement
         (Sample.t0 + 4000) "agent-a"
         (Sample.afterThreeCorrections Sample.store)) = Some a' /\
    system_prompt a' = system_prompt Scenario.improvedAgent ++ additions /\
    agent_id a' = agent_id Scenario.improvedAgent /\
    agent_name a' = agent_name Scenario.improvedAgent /\
    role a' = role Scenario.improvedAgent.
Proof.
  refine (prompt_never_shrinks (Sample.t0 + 4000) "agent-a" "agent-a"
            (Sample.afterThreeCorrections Sample.store)
            Scenario.improvedAgent _).
  vm_compute. reflexivity.
Defined.

Lemma all_negative_window_improves_witness :
  SelfImprovingAgents.shouldImprove
    (SelfImprovingAgents.analyzeAggregatedFeedback
       (agent_feedback Sample.storeWithHistory)) = true.
Proof.
  apply all_negative_window_improves.
  - repeat constructor.
  - vm_compute. lia.
Defined.
